(** * TerminalScriptSelector: the snippet runner and its snippets

    A shallow embedding of [runner.py] (the registry and the menu/dispatch
    loop), of [snippets/todo.py] (the JSON-backed todo store), of
    [snippets/csv_to_excel.py] and of [snippets/json_formatter.py],
    followed by the properties the specification states about them and by
    further properties of the code.

    Conventions of the embedding.
    - A Python [str] is a [string] holding its UTF-8 encoding.  [isdigit]
      and [int] follow the interpreter on every character: [isdigit] knows
      the digits of all scripts, also those [int] does not read, and [int]
      comes with and without the limit the interpreter sets on the number
      of digits of a literal.  The other string primitives ([strip],
      [lower], [split], [len]) are given their behaviour on ASCII text;
      comparison of strings is the lexicographic order on character codes.
    - A Python [int] is a [Z].
    - The host reads numbers with [int] without the limit on digits; the
      todo manager takes the limit, and whether its file can be written,
      from its surroundings.
    - [print] and the prompt of [input] append to a list of output events;
      [input] reads from a list of terminal events, an exhausted terminal
      raising [EOFError] and Ctrl-C raising [KeyboardInterrupt].
    - Exceptions are values of type [exn]; a computation of the host ends
      in an [outcome]: it returns, or raises. *)

From Stdlib Require Import Ascii String ZArith.
From stdpp Require Import base list strings gmap sorting pretty.
From Equations Require Import Equations.

Open Scope string_scope.
Open Scope list_scope.

(** ** Python string primitives *)

Module Py.

(** [str.isspace] on one ASCII character: TAB, LF, VT, FF, CR, the four
    separators 0x1c-0x1f and the space. *)
Definition isspace (c : ascii) : bool :=
  let n := nat_of_ascii c in
  ((9 <=? n)%nat && (n <=? 13)%nat) || ((28 <=? n)%nat && (n <=? 32)%nat).

Fixpoint lstrip_by (p : ascii → bool) (s : string) : string :=
  match s with
  | EmptyString => EmptyString
  | String c s' => if p c then lstrip_by p s' else s
  end.

Fixpoint rstrip_by (p : ascii → bool) (s : string) : string :=
  match s with
  | EmptyString => EmptyString
  | String c s' =>
      match rstrip_by p s' with
      | EmptyString => if p c then EmptyString else String c EmptyString
      | r => String c r
      end
  end.

(** [s.strip()] *)
Definition strip (s : string) : string :=
  rstrip_by isspace (lstrip_by isspace s).

Fixpoint mem_char (c : ascii) (chars : string) : bool :=
  match chars with
  | EmptyString => false
  | String d chars' => if decide (c = d) then true else mem_char c chars'
  end.

(** [s.strip(chars)] *)
Definition strip_chars (chars s : string) : string :=
  rstrip_by (λ c, mem_char c chars) (lstrip_by (λ c, mem_char c chars) s).

Definition lower_char (c : ascii) : ascii :=
  let n := nat_of_ascii c in
  if (65 <=? n)%nat && (n <=? 90)%nat then ascii_of_nat (n + 32) else c.

(** [s.lower()] *)
Fixpoint lower (s : string) : string :=
  match s with
  | EmptyString => EmptyString
  | String c s' => String (lower_char c) (lower s')
  end.

(** [s.split()]: the maximal runs of non-whitespace characters.  [cur] is
    the token being read. *)
Fixpoint split_go (s cur : string) : list string :=
  match s with
  | EmptyString => if decide (cur = EmptyString) then [] else [cur]
  | String c s' =>
      if isspace c
      then (if decide (cur = EmptyString) then split_go s' EmptyString
            else cur :: split_go s' EmptyString)
      else split_go s' (cur +:+ String c EmptyString)
  end.

Definition split (s : string) : list string := split_go s EmptyString.

(** [sep.join(l)] *)
Definition join (sep : string) (l : list string) : string :=
  String.concat sep l.

Definition is_digit_char (c : ascii) : bool :=
  let n := nat_of_ascii c in (48 <=? n)%nat && (n <=? 57)%nat.

Fixpoint all_digits (s : string) : bool :=
  match s with
  | EmptyString => true
  | String c s' => is_digit_char c && all_digits s'
  end.

(** *** Characters outside ASCII

    A [str] is held as its UTF-8 encoding.  [decode] gives its characters
    (code points); a byte sequence that is no UTF-8 text is no [str]. *)
Definition continuation (c : ascii) : option N :=
  let n := N_of_ascii c in
  if (128 <=? n)%N && (n <? 192)%N then Some (n - 128)%N else None.

Fixpoint decode (s : string) : option (list N) :=
  match s with
  | EmptyString => Some []
  | String b0 s1 =>
      let n0 := N_of_ascii b0 in
      if (n0 <? 128)%N then cons n0 <$> decode s1
      else if (n0 <? 192)%N then None
      else if (n0 <? 224)%N then
        match s1 with
        | String b1 s2 =>
            c1 ← continuation b1;
            let cp := ((n0 - 192) * 64 + c1)%N in
            if (cp <? 128)%N then None else cons cp <$> decode s2
        | _ => None
        end
      else if (n0 <? 240)%N then
        match s1 with
        | String b1 (String b2 s3) =>
            c1 ← continuation b1;
            c2 ← continuation b2;
            let cp := (((n0 - 224) * 64 + c1) * 64 + c2)%N in
            if (cp <? 2048)%N || ((55296 <=? cp)%N && (cp <=? 57343)%N) then None
            else cons cp <$> decode s3
        | _ => None
        end
      else if (n0 <? 248)%N then
        match s1 with
        | String b1 (String b2 (String b3 s4)) =>
            c1 ← continuation b1;
            c2 ← continuation b2;
            c3 ← continuation b3;
            let cp := ((((n0 - 240) * 64 + c1) * 64 + c2) * 64 + c3)%N in
            if (cp <? 65536)%N || (1114111 <? cp)%N then None
            else cons cp <$> decode s4
        | _ => None
        end
      else None
  end.

Definition in_ranges (table : list (N * N)) (c : N) : bool :=
  existsb (λ r, (r.1 <=? c)%N && (c <=? r.2)%N) table.

(** The characters [str.isdigit] accepts: those of numeric type Digit or
    Decimal (Unicode 14.0), as ranges of code points. *)
Definition digit_ranges : list (N * N) :=
  [
    (48, 57); (178, 179); (185, 185); (1632, 1641); (1776, 1785);
    (1984, 1993); (2406, 2415); (2534, 2543); (2662, 2671); (2790, 2799);
    (2918, 2927); (3046, 3055); (3174, 3183); (3302, 3311); (3430, 3439);
    (3558, 3567); (3664, 3673); (3792, 3801); (3872, 3881); (4160, 4169);
    (4240, 4249); (4969, 4977); (6112, 6121); (6160, 6169); (6470, 6479);
    (6608, 6618); (6784, 6793); (6800, 6809); (6992, 7001); (7088, 7097);
    (7232, 7241); (7248, 7257); (8304, 8304); (8308, 8313); (8320, 8329);
    (9312, 9320); (9332, 9340); (9352, 9360); (9450, 9450); (9461, 9469);
    (9471, 9471); (10102, 10110); (10112, 10120); (10122, 10130);
    (42528, 42537); (43216, 43225); (43264, 43273); (43472, 43481);
    (43504, 43513); (43600, 43609); (44016, 44025); (65296, 65305);
    (66720, 66729); (68160, 68163); (68912, 68921); (69216, 69224);
    (69714, 69722); (69734, 69743); (69872, 69881); (69942, 69951);
    (70096, 70105); (70384, 70393); (70736, 70745); (70864, 70873);
    (71248, 71257); (71360, 71369); (71472, 71481); (71904, 71913);
    (72016, 72025); (72784, 72793); (73040, 73049); (73120, 73129);
    (92768, 92777); (92864, 92873); (93008, 93017); (120782, 120831);
    (123200, 123209); (123632, 123641); (125264, 125273); (127232, 127242);
    (130032, 130041)
  ]%N.

(** The characters of numeric type Decimal, the digits [int] reads: each
    range is made of runs of ten, from the zero of a script to its nine. *)
Definition decimal_ranges : list (N * N) :=
  [
    (48, 57); (1632, 1641); (1776, 1785); (1984, 1993); (2406, 2415);
    (2534, 2543); (2662, 2671); (2790, 2799); (2918, 2927); (3046, 3055);
    (3174, 3183); (3302, 3311); (3430, 3439); (3558, 3567); (3664, 3673);
    (3792, 3801); (3872, 3881); (4160, 4169); (4240, 4249); (6112, 6121);
    (6160, 6169); (6470, 6479); (6608, 6617); (6784, 6793); (6800, 6809);
    (6992, 7001); (7088, 7097); (7232, 7241); (7248, 7257); (42528, 42537);
    (43216, 43225); (43264, 43273); (43472, 43481); (43504, 43513);
    (43600, 43609); (44016, 44025); (65296, 65305); (66720, 66729);
    (68912, 68921); (69734, 69743); (69872, 69881); (69942, 69951);
    (70096, 70105); (70384, 70393); (70736, 70745); (70864, 70873);
    (71248, 71257); (71360, 71369); (71472, 71481); (71904, 71913);
    (72016, 72025); (72784, 72793); (73040, 73049); (73120, 73129);
    (92768, 92777); (92864, 92873); (93008, 93017); (120782, 120831);
    (123200, 123209); (123632, 123641); (125264, 125273); (130032, 130041)
  ]%N.

Definition decimal_value (c : N) : option N :=
  (λ r, ((c - r.1) `mod` 10)%N)
    <$> List.find (λ r, (r.1 <=? c)%N && (c <=? r.2)%N) decimal_ranges.

(** The whitespace characters outside ASCII. *)
Definition space_ranges : list (N * N) :=
  [(133, 133); (160, 160); (5760, 5760); (8192, 8202); (8232, 8233);
   (8239, 8239); (8287, 8287); (12288, 12288)]%N.

(** [s.isdigit()]: non-empty and every character a digit. *)
Definition isdigit (s : string) : bool :=
  match decode s with
  | Some (c :: cs) => forallb (in_ranges digit_ranges) (c :: cs)
  | _ => false
  end.

Definition digit_val (c : ascii) : Z := Z.of_nat (nat_of_ascii c) - 48.

(** The digits of an [int] literal: decimal digits, with single underscores
    allowed between two digits.  [prev] tells whether the previous character
    was a digit. *)
Fixpoint int_digits (s : string) (acc : Z) (prev : bool) : option Z :=
  match s with
  | EmptyString => if prev then Some acc else None
  | String c s' =>
      if is_digit_char c then int_digits s' (10 * acc + digit_val c) true
      else if decide (c = "_"%char)
           then (if prev then int_digits s' acc false else None)
           else None
  end.

(** The whitespace the parser of [int] skips at both ends of a literal. *)
Definition c_isspace (c : ascii) : bool :=
  let n := nat_of_ascii c in
  ((9 <=? n)%nat && (n <=? 13)%nat) || (n =? 32)%nat.

(** What [int] makes of a character before it parses: a whitespace
    character outside ASCII is a space, a decimal digit of any script is
    the ASCII digit of its value, any other character outside ASCII is
    refused. *)
Definition to_ascii (c : N) : ascii :=
  if (c <? 127)%N then ascii_of_N c
  else if in_ranges space_ranges c then " "%char
  else match decimal_value c with
       | Some d => ascii_of_N (48 + d)
       | None => "?"%char
       end.

Definition literal (s : string) : option string :=
  (λ cps, string_of_list_ascii (to_ascii <$> cps)) <$> decode s.

Definition c_strip (s : string) : string :=
  rstrip_by c_isspace (lstrip_by c_isspace s).

(** The parser, on the ASCII form of the literal: whitespace, a sign, the
    digits, whitespace. *)
Definition parse_int (s : string) : option Z :=
  match c_strip s with
  | String "-" s' => Z.opp <$> int_digits s' 0 false
  | String "+" s' => int_digits s' 0 false
  | s' => int_digits s' 0 false
  end.

(** [int(s)] where the interpreter sets no limit on the number of digits:
    [None] stands for [ValueError]. *)
Definition int (s : string) : option Z := literal s ≫= parse_int.

(** The digits the parser has counted when it comes to the limit: those of
    the run of digits and single underscores after the sign.  [prev] tells
    whether an underscore may not follow. *)
Fixpoint scan (s : string) (prev : bool) (digits : nat) : option nat :=
  match s with
  | EmptyString => if prev then None else Some digits
  | String c s' =>
      if is_digit_char c then scan s' false (S digits)
      else if decide (c = "_"%char)
           then (if prev then None else scan s' true digits)
           else (if prev then None else Some digits)
  end.

Definition unsigned (s : string) : string :=
  match s with
  | String "-" s' => s'
  | String "+" s' => s'
  | _ => s
  end.

Definition scanned (s : string) : nat :=
  default 0%nat (literal s ≫= λ t, scan (unsigned (c_strip t)) true 0).

(** [sys.get_int_max_str_digits()] is [n]: a literal of more digits is
    refused.  The interpreter applies no limit below 640 digits. *)
Definition exceeds (n digits : nat) : bool :=
  (640 <? digits)%nat && (n <? digits)%nat.

Definition apostrophe : string := String (ascii_of_nat 39) EmptyString.

(** The messages of the [ValueError] of [int].  The first shows [repr(s)],
    which is [s] between apostrophes for a string of printing characters
    without apostrophe and backslash. *)
Definition invalid_literal (s : string) : string :=
  "invalid literal for int() with base 10: " +:+ apostrophe +:+ s +:+ apostrophe.

Definition over_limit (n digits : nat) : string :=
  "Exceeds the limit (" +:+ pretty n
  +:+ " digits) for integer string conversion: value has " +:+ pretty digits
  +:+ " digits; use sys.set_int_max_str_digits() to increase the limit".

(** [int(s)] under a limit on the number of digits ([None]: no limit, as
    before Python 3.11 or after [sys.set_int_max_str_digits(0)]; 4300 is
    the default since).  [int_or_error] gives the message of the
    [ValueError]. *)
Definition int_within (max_str_digits : option nat) (s : string) : option Z :=
  match max_str_digits with
  | None => int s
  | Some n => if exceeds n (scanned s) then None else int s
  end.

Definition int_or_error (max_str_digits : option nat) (s : string) : string + Z :=
  match max_str_digits with
  | None =>
      match int s with
      | Some z => inr z
      | None => inl (invalid_literal s)
      end
  | Some n =>
      if exceeds n (scanned s) then inl (over_limit n (scanned s))
      else match int s with
           | Some z => inr z
           | None => inl (invalid_literal s)
           end
  end.

(** [s.startswith(p)] *)
Fixpoint startswith (p s : string) : bool :=
  match p, s with
  | EmptyString, _ => true
  | String a p', String b s' => if decide (a = b) then startswith p' s' else false
  | String _ _, EmptyString => false
  end.

(** [s.endswith(p)] *)
Definition endswith (p s : string) : bool :=
  startswith (String.rev p) (String.rev s).

(** [f"{s:<w}"]: left-aligned in a field of width [w]. *)
Definition ljust (w : nat) (s : string) : string :=
  s +:+ string_of_list_ascii (replicate (w - String.length s) " "%char).

(** ["c" * n] *)
Definition repeat_char (c : ascii) (n : nat) : string :=
  string_of_list_ascii (replicate n c).

End Py.

(** The two quote characters. *)
Definition dquote : string := String (ascii_of_nat 34) EmptyString.
Definition squote : string := String (ascii_of_nat 39) EmptyString.

Definition nl : string := String (ascii_of_nat 10) EmptyString.

(** ** [list.sort(key=...)]

    Python's [list.sort] is stable.  The stable sort of a list is unique, so
    an insertion sort that keeps equal keys in their order of arrival
    denotes the same list. *)

Section StableSort.
Context {A K : Type} (key : A → K) (leb : K → K → bool).

(** [x] arrives before every element of [l]: it is placed in front of the
    first element whose key is not smaller. *)
Fixpoint insert_by (x : A) (l : list A) : list A :=
  match l with
  | [] => [x]
  | y :: l' => if leb (key x) (key y) then x :: y :: l' else y :: insert_by x l'
  end.

Fixpoint sort_by (l : list A) : list A :=
  match l with
  | [] => []
  | x :: l' => insert_by x (sort_by l')
  end.

(** The order of the keys, on the elements. *)
Definition key_le (a b : A) : Prop := leb (key a) (key b) = true.
End StableSort.

(** ** The todo manager, [snippets/todo.py] *)

Module Todo.

Open Scope Z_scope.

(** One record of the store: the dict with keys [title], [status],
    [priority] and [date]. *)
Record todo := mk_todo {
  title : string;
  status : string;
  priority : Z;
  date : string
}.

(** The file [snippets/data/todos.json] as [load_todos] sees it: absent,
    present but raising on [open] or [json.load], or holding a JSON array of
    records, each with the four keys and an integer priority. *)
Inductive todo_file :=
  | Missing
  | Corrupt
  | Stored (todos : list todo).

Definition status_map : gmap string string :=
  list_to_map
    [("todo", "todo"); ("progress", "in progress");
     ("in-progress", "in progress"); ("inprogress", "in progress");
     ("done", "completed"); ("completed", "completed");
     ("complete", "completed")].

Definition load_todos (f : todo_file) : list todo :=
  match f with
  | Missing => []
  | Corrupt => []
  | Stored todos => todos
  end.

(** What a call finds around it: whether [open(todo_file, 'w')] raises,
    and then the message of the exception, and the limit the interpreter
    sets on the digits of an [int] literal, [sys.get_int_max_str_digits()].
    The directory of the file can be created, and a file that was opened
    for writing is written in full. *)
Record env := mk_env {
  write_error : option string;
  max_str_digits : option nat
}.

(** The file can be written and literals are not limited. *)
Definition plain : env := mk_env None None.

(** Python 3.11 as it comes, on a file that can be written. *)
Definition python_3_11 : env := mk_env None (Some 4300%nat).

(** [save_todos] opens the file for writing and rewrites it whole: [inl] is
    the message of the exception of [open], [inr] the list that was
    written. *)
Definition save_todos (e : env) (todos : list todo) : string + list todo :=
  match write_error e with
  | Some msg => inl msg
  | None => inr todos
  end.

Definition status_emoji : gmap string string :=
  list_to_map [("todo", "⭕"); ("in progress", "🔄"); ("completed", "✅")].

Definition show_row (t : todo) : string :=
  Py.ljust 5 (pretty (priority t)) +:+ " " +:+ Py.ljust 45 (title t) +:+ " "
  +:+ Py.ljust 17 (date t) +:+ " "
  +:+ default "⭕" (status_emoji !! status t) +:+ " " +:+ Py.ljust 10 (status t).

Definition show_todos (todos : list todo) : list string :=
  match todos with
  | [] => [nl +:+ "📋 No todos yet! Add one with: add <title> [priority]"]
  | _ =>
      [nl +:+ Py.repeat_char "=" 90;
       Py.ljust 5 "PRI" +:+ " " +:+ Py.ljust 45 "TITLE" +:+ " "
       +:+ Py.ljust 17 "DATE" +:+ " " +:+ Py.ljust 12 "STATUS";
       Py.repeat_char "=" 90]
      ++ (show_row <$> todos)
      ++ [Py.repeat_char "=" 90;
          "Total: " +:+ pretty (length todos) +:+ " todos" +:+ nl]
  end.

(** The number of used priorities at or above [p]: it decreases each time
    the loop of [get_next_priority] steps over a used value. *)
Definition above (used : gset Z) (p : Z) : nat :=
  size (filter (λ q, p ≤ q) used).

(** [while priority in used_priorities: priority += 1] *)
Equations? first_unused (used : gset Z) (p : Z) : Z by wf (above used p) lt :=
  first_unused used p with decide (p ∈ used) := {
    | left _ => first_unused used (p + 1)
    | right _ => p }.
Proof.
  unfold above. apply subset_size, strict_spec_alt. split.
  - intros q. rewrite !elem_of_filter. intros [? ?]. split; [lia|done].
  - intros Heq. assert (p ∈ filter (λ q, p + 1 ≤ q) used) as H.
    { rewrite Heq. apply elem_of_filter. split; [lia|done]. }
    apply elem_of_filter in H. lia.
Qed.

Definition get_next_priority (todos : list todo) : Z :=
  match todos with
  | [] => 1
  | _ => first_unused (list_to_set (priority <$> todos)) 1
  end.

(** The loop of the [add] branch that makes room at [p]. *)
Definition shift_from (p : Z) (t : todo) : todo :=
  if decide (p ≤ priority t)
  then {| title := title t; status := status t;
          priority := priority t + 1; date := date t |}
  else t.

(** The search loop of the [status] branch: the first record at [p] gets the
    new status; the result carries its old status. *)
Fixpoint set_status (p : Z) (s : string) (todos : list todo)
  : option (string * list todo) :=
  match todos with
  | [] => None
  | t :: ts =>
      if decide (priority t = p)
      then Some (status t,
                 {| title := title t; status := s;
                    priority := priority t; date := date t |} :: ts)
      else (λ r, (r.1, t :: r.2)) <$> set_status p s ts
  end.

(** [args[1:-1]] and [args[1:]] *)
Definition slice_1_m1 (args : list string) : list string :=
  take (length args - 2) (drop 1 args).
Definition slice_1 (args : list string) : list string := drop 1 args.

(** The title loses its leading and trailing double quotes, then its
    leading and trailing single quotes. *)
Definition unquote (s : string) : string :=
  Py.strip_chars squote (Py.strip_chars dquote s).

Definition sort_by_priority : list todo → list todo := sort_by priority Z.leb.

(** [run(args)] in the surroundings [e].  [now] is the formatted
    [datetime.now()] of the call.  The result is what was printed and what
    was saved: a call saves at most once, and [None] is a call that did not
    write.  An exception raised inside the [try] (the [ValueError] of [int]
    in [add], the exception of [open] in [save_todos]) ends the call with
    its message printed. *)
Definition run_in (e : env) (now : string) (args : list string) (file : todo_file)
  : list string * option (list todo) :=
  match args with
  | [] =>
      (["❌ Error: No command specified";
        "Usage: list | add <title> [priority] | status <priority> <status> | remove <priority>"],
       None)
  | arg0 :: _ =>
      let command := Py.lower arg0 in
      let todos := load_todos file in
      if decide (command = "list") then (show_todos todos, None)
      else if decide (command = "add") then
        if decide (length args < 2)%nat then
          (["❌ Error: Missing title"; "Usage: add <title> [priority]"], None)
        else
          let parsed : string + (Z * string * list todo) :=
            if bool_decide (3 ≤ length args)%nat && Py.isdigit (List.last args EmptyString)
            then
              match Py.int_or_error (max_str_digits e) (List.last args EmptyString) with
              | inr p =>
                  inr (p, Py.join " " (slice_1_m1 args), shift_from p <$> todos)
              | inl msg => inl msg
              end
            else inr (get_next_priority todos, Py.join " " (slice_1 args), todos)
          in
          match parsed with
          | inl msg => (["❌ Error: " +:+ msg], None)
          | inr (p, ttl, todos) =>
              let ttl := unquote ttl in
              let new_todo :=
                {| title := ttl; status := "todo"; priority := p; date := now |} in
              let todos := sort_by_priority (todos ++ [new_todo]) in
              match save_todos e todos with
              | inl msg => (["❌ Error: " +:+ msg], None)
              | inr saved =>
                  (("✅ Added todo [Priority " +:+ pretty p +:+ "]: " +:+ ttl)
                   :: (if existsb (λ t, p <? priority t) todos
                       then ["   (Shifted lower priority items down)"] else []),
                   Some saved)
              end
          end
      else if decide (command = "status") then
        match args with
        | [_; a1; a2] =>
            match Py.int_within (max_str_digits e) a1 with
            | None => (["❌ Error: Invalid priority " +:+ squote +:+ a1 +:+ squote], None)
            | Some p =>
                match status_map !! Py.lower a2 with
                | None =>
                    (["❌ Error: Invalid status " +:+ squote +:+ a2 +:+ squote;
                      "Valid statuses: todo | progress | done"], None)
                | Some new_status =>
                    match set_status p new_status todos with
                    | None =>
                        (["❌ Error: Todo with priority " +:+ pretty p +:+ " not found"],
                         None)
                    | Some (old_status, todos) =>
                        match save_todos e todos with
                        | inl msg => (["❌ Error: " +:+ msg], None)
                        | inr saved =>
                            (["✅ Updated todo [Priority " +:+ pretty p +:+ "]: "
                              +:+ old_status +:+ " → " +:+ new_status],
                             Some saved)
                        end
                    end
                end
            end
        | _ =>
            (["❌ Error: Expected <priority> <status>";
              "Usage: status <priority> <status>";
              "Status: todo | progress | done"], None)
        end
      else if decide (command = "remove") then
        match args with
        | [_; a1] =>
            match Py.int_within (max_str_digits e) a1 with
            | None => (["❌ Error: Invalid priority " +:+ squote +:+ a1 +:+ squote], None)
            | Some p =>
                let kept := filter (λ t, priority t ≠ p) todos in
                if decide (length kept = length todos)
                then (["❌ Error: Todo with priority " +:+ pretty p +:+ " not found"],
                      None)
                else
                  match save_todos e kept with
                  | inl msg => (["❌ Error: " +:+ msg], None)
                  | inr saved =>
                      (["✅ Removed todo [Priority " +:+ pretty p +:+ "]"], Some saved)
                  end
            end
        | _ => (["❌ Error: Expected <priority>"; "Usage: remove <priority>"], None)
        end
      else
        (["❌ Error: Unknown command " +:+ squote +:+ command +:+ squote;
          "Available commands: list | add | status | remove"], None)
  end.

(** [run(args)] where the file can be written and literals are not
    limited. *)
Definition run (now : string) (args : list string) (file : todo_file)
  : list string * option (list todo) :=
  run_in plain now args file.

(** The file after a call. *)
Definition file_after (file : todo_file) (saved : option (list todo)) : todo_file :=
  match saved with
  | Some todos => Stored todos
  | None => file
  end.

End Todo.


(** ** The CSV converter, [snippets/csv_to_excel.py] *)

Module Csv.

Definition tab : string := String (ascii_of_nat 9) EmptyString.

Definition delimiter_map : gmap string string :=
  list_to_map
    [("tab", tab); ("comma", ","); (",", ","); ("semicolon", ";"); (";", ";");
     ("pipe", "|"); ("|", "|"); ("space", " ")].

(** [delimiter_map.get(delimiter_arg.lower(), delimiter_arg)] *)
Definition resolve_delimiter (delimiter_arg : string) : string :=
  default delimiter_arg (delimiter_map !! Py.lower delimiter_arg).

(** What a call does, in order: lines printed, the clipboard read or
    written, a CSV source parsed, a spreadsheet written. *)
Inductive event :=
  | Print (s : string)
  | ClipboardPaste
  | ReadCsv (source : string) (sep : string)
  | ClipboardCopy (text : string)
  | WriteExcel (dest : string).

Definition is_read (ev : event) : bool :=
  match ev with
  | ClipboardPaste | ReadCsv _ _ => true
  | _ => false
  end.

(** An event that is no parse, or a parse with separator [delimiter]. *)
Definition parsed_with (delimiter : string) (ev : event) : Prop :=
  match ev with
  | ReadCsv _ sep => sep = delimiter
  | _ => True
  end.

(** The errors the [try] block of [run] tells apart. *)
Inductive error :=
  | FileNotFoundError
  | ParserError (msg : string)
  | OtherError (msg : string).

(** pandas and pyperclip, as far as [run] uses them.  A data frame is known
    by its numbers of rows and columns and by its tab-separated rendering. *)
Record frame := { n_rows : nat; n_cols : nat; to_csv_tab : string }.

Record libs := {
  paste : string;
  read_csv_text : string → string → error + frame;
  read_csv_file : string → string → error + frame;
  to_excel_buffer : frame → option error;
  to_excel_file : frame → string → option error;
  copy : string → option error
}.

Definition is_clipboard (s : string) : bool :=
  bool_decide (Py.lower s ∈ ["clipboard"; "clip"; "cb"]).

Definition report_error (input_source delimiter : string) (e : error) : list event :=
  match e with
  | FileNotFoundError =>
      [Print ("❌ Error: File " +:+ squote +:+ input_source +:+ squote +:+ " not found")]
  | ParserError msg =>
      [Print ("❌ Error: Failed to parse CSV - " +:+ msg);
       Print ("   Check if delimiter " +:+ squote +:+ delimiter +:+ squote +:+ " is correct")]
  | OtherError msg => [Print ("❌ Error: " +:+ msg)]
  end.

(** The output half of the [try] block. *)
Definition write_output (L : libs) (df : frame) (output_dest : string)
  : list event * option error :=
  if is_clipboard output_dest then
    match to_excel_buffer L df with
    | Some e => ([Print "💾 Writing to clipboard..."], Some e)
    | None =>
        match copy L (to_csv_tab df) with
        | Some e =>
            ([Print "💾 Writing to clipboard..."; ClipboardCopy (to_csv_tab df)], Some e)
        | None =>
            ([Print "💾 Writing to clipboard..."; ClipboardCopy (to_csv_tab df);
              Print "✅ Success! Copied as tab-delimited CSV to clipboard";
              Print "   (Excel binary can't be copied to clipboard)"], None)
        end
    end
  else
    match to_excel_file L df output_dest with
    | Some e => ([Print ("💾 Writing to " +:+ output_dest +:+ "..."); WriteExcel output_dest], Some e)
    | None =>
        ([Print ("💾 Writing to " +:+ output_dest +:+ "..."); WriteExcel output_dest;
          Print ("✅ Success! Created " +:+ output_dest)], None)
    end.

(** The [try] block: read, report the size, write. *)
Definition convert (L : libs) (input_source output_dest delimiter : string)
  : list event * option error :=
  let found (df : frame) : list event :=
    [Print ("   Found " +:+ pretty (n_rows df) +:+ " rows and "
            +:+ pretty (n_cols df) +:+ " columns")] in
  if is_clipboard input_source then
    let csv_data := paste L in
    if decide (Py.strip csv_data = EmptyString) then
      ([Print "📋 Reading from clipboard..."; ClipboardPaste;
        Print "❌ Error: Clipboard is empty"], None)
    else
      match read_csv_text L csv_data delimiter with
      | inl e =>
          ([Print "📋 Reading from clipboard..."; ClipboardPaste;
            ReadCsv "clipboard" delimiter], Some e)
      | inr df =>
          let w := write_output L df output_dest in
          ([Print "📋 Reading from clipboard..."; ClipboardPaste;
            ReadCsv "clipboard" delimiter] ++ found df ++ w.1, w.2)%list
      end
  else
    match read_csv_file L input_source delimiter with
    | inl e =>
        ([Print ("📖 Reading " +:+ input_source +:+ "...");
          ReadCsv input_source delimiter], Some e)
    | inr df =>
        let w := write_output L df output_dest in
        ([Print ("📖 Reading " +:+ input_source +:+ "...");
          ReadCsv input_source delimiter] ++ found df ++ w.1, w.2)%list
    end.

(** [run(args)] *)
Definition run (L : libs) (args : list string) : list event :=
  if decide (length args < 2 ∨ 3 < length args)%nat then
    [Print "❌ Error: Expected 2-3 arguments";
     Print "Usage: <input> <output> [delimiter]";
     Print "Example: data.csv output.xlsx";
     Print "Example: clipboard output.xlsx comma";
     Print "Example: data.csv clipboard tab"]
  else
    let input_source := default EmptyString (args !! 0%nat) in
    let output_dest := default EmptyString (args !! 1%nat) in
    let delimiter_arg := if decide (length args = 3) then default EmptyString (args !! 2%nat) else "tab" in
    let delimiter := resolve_delimiter delimiter_arg in
    if decide (String.length delimiter ≠ 1) then
      [Print ("❌ Error: Delimiter must be a single character, got "
              +:+ squote +:+ delimiter +:+ squote)]
    else
      let r := convert L input_source output_dest delimiter in
      match r.2 with
      | None => r.1
      | Some e => (r.1 ++ report_error input_source delimiter e)%list
      end.

End Csv.

(** ** The host, [runner.py] *)

Module Runner.

(** Exceptions, by the classes the handlers of [runner.py] tell apart:
    [except Exception] catches the first constructor only, and
    [except KeyboardInterrupt] the second only. *)
Inductive exn :=
  | Exception (cls msg : string)      (* an instance of Exception or of a class derived from it *)
  | KeyboardInterrupt
  | SystemExit (msg : string)
  | GeneratorExit
  | BaseException (cls msg : string). (* an instance of another class derived from BaseException only *)

Definition is_Exception (e : exn) : bool :=
  match e with Exception _ _ => true | _ => false end.

Definition is_KeyboardInterrupt (e : exn) : bool :=
  match e with KeyboardInterrupt => true | _ => false end.

(** [str(e)] *)
Definition str (e : exn) : string :=
  match e with
  | Exception _ msg | SystemExit msg | BaseException _ msg => msg
  | KeyboardInterrupt | GeneratorExit => EmptyString
  end.

Definition is_ValueError (e : exn) : bool :=
  match e with
  | Exception cls _ => bool_decide (cls = "ValueError")
  | _ => false
  end.

(** The error [int(s)] raises on a malformed literal. *)
Definition ValueError (s : string) : exn :=
  Exception "ValueError"
    ("invalid literal for int() with base 10: " +:+ squote +:+ s +:+ squote).

Definition EOFError : exn := Exception "EOFError" "EOF when reading a line".
Definition IndexError : exn := Exception "IndexError" "list index out of range".

(** What the operator does at the terminal: types a line, or presses Ctrl-C. *)
Inductive key :=
  | Line (s : string)
  | CtrlC.

(** What the process writes to the terminal. *)
Inductive output :=
  | Print (s : string)
  | Prompt (s : string).

#[global] Instance exn_eq_dec : EqDecision exn.
Proof. solve_decision. Defined.
#[global] Instance key_eq_dec : EqDecision key.
Proof. solve_decision. Defined.
#[global] Instance output_eq_dec : EqDecision output.
Proof. solve_decision. Defined.

Section Host.

(** Whatever else snippets read and change (files, the clipboard). *)
Context {W : Type}.

(** The snippets directory: absent, or its entries (file name and source
    text) in the order the file system enumerates them. *)
Record world := mk_world {
  snippets_dir : option (list (string * string));
  ext : W
}.

(** A call of an entry point: what it printed, how many terminal events it
    read, the world it left and the exception it raised, if any. *)
Record entry_result := mk_entry_result {
  e_out : list output;
  e_read : nat;
  e_world : world;
  e_raised : option exn
}.

Definition entry : Type := list string → world → list key → entry_result.

(** A loaded module, by the three attributes the registry looks for, with
    the types the snippet contract gives them; [None] is an attribute the
    module does not have. *)
Record module := mk_module {
  attr_TITLE : option string;
  attr_DESCRIPTION : option string;
  attr_run : option entry
}.

Inductive load_result :=
  | Loaded (m : module)
  | LoadRaises (e : exn).

(** The dict [load_snippets] appends to [self.snippets]. *)
Record snippet := mk_snippet {
  name : string;
  title : string;
  description : string;
  run_entry : entry
}.

(** The state of the process: [self.snippets], the world, the terminal
    events not read yet and what was written so far. *)
Record state := mk_state {
  snippets : list snippet;
  the_world : world;
  tty : list key;
  out : list output
}.

(** The result of a computation: [Unfinished] is a loop that ran out of
    fuel. *)
Inductive outcome (A : Type) :=
  | Returns (a : A)
  | Raises (e : exn)
  | Unfinished.
Global Arguments Returns {A} a.
Global Arguments Raises {A} e.
Global Arguments Unfinished {A}.

Definition M (A : Type) : Type := state → state * outcome A.

Definition ret {A} (a : A) : M A := λ st, (st, Returns a).

Definition bind {A B} (m : M A) (k : A → M B) : M B :=
  λ st,
    match m st with
    | (st', Returns a) => k a st'
    | (st', Raises e) => (st', Raises e)
    | (st', Unfinished) => (st', Unfinished)
    end.

Definition raise {A} (e : exn) : M A := λ st, (st, Raises e).

(** [try: m except <class> as e: h e], [handles] telling the instances of
    the class. *)
Definition try_except {A} (m : M A) (handles : exn → bool) (h : exn → M A) : M A :=
  λ st,
    match m st with
    | (st', Raises e) => if handles e then h e st' else (st', Raises e)
    | r => r
    end.

Definition emit (o : output) : M unit :=
  λ st, (mk_state (snippets st) (the_world st) (tty st) (out st ++ [o]), Returns tt).

Definition print (s : string) : M unit := emit (Print s).

(** [input(prompt)] *)
Definition input (prompt : string) : M string :=
  λ st,
    let st' := mk_state (snippets st) (the_world st) (tail (tty st))
                        (out st ++ [Prompt prompt]) in
    match tty st with
    | [] => (st', Raises EOFError)
    | Line s :: _ => (st', Returns s)
    | CtrlC :: _ => (st', Raises KeyboardInterrupt)
    end.

Definition get_snippets : M (list snippet) := λ st, (st, Returns (snippets st)).

Definition set_snippets (l : list snippet) : M unit :=
  λ st, (mk_state l (the_world st) (tty st) (out st), Returns tt).

Definition get_dir : M (option (list (string * string))) :=
  λ st, (st, Returns (snippets_dir (the_world st))).

(** [self.snippets_dir.mkdir(parents=True)] *)
Definition mkdir : M unit :=
  λ st, (mk_state (snippets st) (mk_world (Some []) (ext (the_world st)))
                  (tty st) (out st), Returns tt).

(** A computation that comes to an end and does not give back terminal
    events. *)
Definition tame {A} (m : M A) : Prop :=
  ∀ st, (m st).2 ≠ Unfinished ∧ (length (tty (m st).1) ≤ length (tty st))%nat.

End Host.

Global Arguments world : clear implicits.
Global Arguments entry_result : clear implicits.
Global Arguments entry : clear implicits.
Global Arguments module : clear implicits.
Global Arguments load_result : clear implicits.
Global Arguments snippet : clear implicits.
Global Arguments state : clear implicits.
Global Arguments M : clear implicits.

(** The notations [x ← m; k] and [m;; k] sequence computations. *)
#[global] Instance M_ret {W} : MRet (M W) := λ A a, ret a.
#[global] Instance M_bind {W} : MBind (M W) := λ A B k m, bind m k.

Section Registry.
Context {W : Type}.

(** [importlib]: what executing the source text of a file gives, a module
    or an exception.  This is an assumption on the snippet files: their
    module-level code does nothing but define the module, so a load prints
    nothing of its own, reads nothing from the terminal and leaves the
    files alone.  The bytecode cache that a load may write next to the
    files is a directory, which the pattern of the scan does not match. *)
Context (exec_module : string → load_result W).

(** [for x in l: body x] *)
Fixpoint for_each {X} (l : list X) (body : X → M W unit) : M W unit :=
  match l with
  | [] => ret tt
  | x :: l' => body x;; for_each l' body
  end.

(** [Path.glob] with the pattern of the registry, [*.py]. *)
Definition glob_py (files : list (string * string)) : list (string * string) :=
  filter (λ f, Py.endswith ".py" f.1 = true) files.

(** [py_file.stem]: the name without its last suffix. *)
Definition stem (file_name : string) : string :=
  if decide (file_name = ".py") then file_name
  else String.substring 0 (String.length file_name - 3) file_name.

(** The body of the [try] in [load_snippets]. *)
Definition load_one (py_file : string * string) : M W unit :=
  match exec_module py_file.2 with
  | LoadRaises e => raise e
  | Loaded m =>
      match attr_TITLE m, attr_DESCRIPTION m, attr_run m with
      | Some t, Some d, Some r =>
          l ← get_snippets;
          set_snippets (l ++ [mk_snippet (stem py_file.1) t d r])
      | _, _, _ => ret tt
      end
  end.

(** The body of the [for] loop of [load_snippets]. *)
Definition load_file (py_file : string * string) : M W unit :=
  if Py.startswith "_" py_file.1 then ret tt
  else
    try_except (load_one py_file) is_Exception
      (λ e, print ("Error loading " +:+ py_file.1 +:+ ": " +:+ str e)).

Definition load_snippets : M W unit :=
  dir ← get_dir;
  match dir with
  | None =>
      print "Creating snippets directory: snippets";;
      mkdir
  | Some files =>
      set_snippets [];;
      for_each (glob_py files) load_file;;
      l ← get_snippets;
      set_snippets (sort_by title String.leb l)
  end.

(** What a directory entry is to the registry.  A candidate is a file the
    scan tries to load; [descriptor] is the catalog entry of a candidate
    that loads and has the three attributes; [diagnostic] is the line
    printed for a candidate whose load raises an [Exception]; [fatal] is the
    exception of a candidate whose load raises anything else. *)
Definition candidate (f : string * string) : bool :=
  Py.endswith ".py" f.1 && negb (Py.startswith "_" f.1).

Definition descriptor (f : string * string) : option (snippet W) :=
  if candidate f then
    match exec_module f.2 with
    | Loaded (mk_module (Some t) (Some d) (Some r)) =>
        Some (mk_snippet (stem f.1) t d r)
    | _ => None
    end
  else None.

Definition diagnostic (f : string * string) : option output :=
  if candidate f then
    match exec_module f.2 with
    | LoadRaises (Exception cls msg) =>
        Some (Print ("Error loading " +:+ f.1 +:+ ": " +:+ msg))
    | _ => None
    end
  else None.

Definition fatal (f : string * string) : option exn :=
  if candidate f then
    match exec_module f.2 with
    | LoadRaises e => if is_Exception e then None else Some e
    | _ => None
    end
  else None.

(** [enumerate(self.snippets, 1)] in [show_menu] *)
Fixpoint menu_lines (i : nat) (l : list (snippet W)) : list string :=
  match l with
  | [] => []
  | snip :: l' => ("  " +:+ pretty i +:+ ". " +:+ title snip) :: menu_lines (S i) l'
  end.

Definition show_menu : M W bool :=
  print (nl +:+ Py.repeat_char "=" 60);;
  print "  SNIPPET RUNNER";;
  print (Py.repeat_char "=" 60);;
  l ← get_snippets;
  match l with
  | [] =>
      print (nl +:+ "No snippets found in the 'snippets' directory.");;
      print "Add .py files to get started!";;
      ret false
  | _ =>
      print (nl +:+ "Available Tools:");;
      for_each (menu_lines 1 l) print;;
      print (nl +:+ "  0. Exit");;
      print (Py.repeat_char "=" 60);;
      ret true
  end.

(** One round of the loop of [get_choice]: [Some c] is [return c], [None]
    is another round. *)
Definition get_choice_round : M W (option (option nat)) :=
  try_except
    (try_except
       (line ← input (nl +:+ "Select a tool (number): ");
        match Py.int (Py.strip line) with
        | None => raise (ValueError line)
        | Some choice_num =>
            l ← get_snippets;
            if decide (choice_num = 0)%Z then ret (Some None)
            else if decide (1 ≤ choice_num ∧ choice_num ≤ Z.of_nat (length l))%Z
            then ret (Some (Some (Z.to_nat (choice_num - 1))))
            else
              print ("Please enter a number between 0 and " +:+ pretty (length l));;
              ret None
        end)
       is_ValueError
       (λ _, print "Please enter a valid number";; ret None))
    is_KeyboardInterrupt
    (λ _, print nl;; ret (Some None)).

(** [while True] with the round above. *)
Fixpoint get_choice (fuel : nat) : M W (option nat) :=
  match fuel with
  | O => λ st, (st, Unfinished)
  | S fuel' =>
      r ← get_choice_round;
      match r with
      | Some c => ret c
      | None => get_choice fuel'
      end
  end.

(** How one round of the loop of [run_snippet] ends. *)
Inductive control :=
  | Break
  | Continue
  | Return (b : bool).

(** [snippet['module'].run(args)] *)
Definition dispatch (snip : snippet W) (args : list string) : M W unit :=
  λ st,
    let r := run_entry snip args (the_world st) (tty st) in
    (mk_state (snippets st) (e_world r) (drop (e_read r) (tty st)) (out st ++ e_out r),
     match e_raised r with
     | None => Returns tt
     | Some e => Raises e
     end).

(** The prompt after a dispatch. *)
Definition what_next : M W control :=
  print (nl +:+ Py.repeat_char "-" 60);;
  line ← input (nl +:+ "What next? (r)un again, (b)ack to menu, (q)uit: ");
  let next_action := Py.lower (Py.strip line) in
  if bool_decide (next_action ∈ ["b"; "back"; "m"; "menu"]) then ret Break
  else if bool_decide (next_action ∈ ["q"; "quit"; "exit"]) then ret (Return false)
  else ret Continue.

(** One round of the loop of [run_snippet], inside its [try]. *)
Definition command_round (snip : snippet W) : M W control :=
  try_except
    (line ← input "Enter command (or 'back' to return): ";
     let command := Py.strip line in
     if bool_decide (Py.lower command ∈ ["back"; "b"; "exit"]) then ret Break
     else if decide (command = EmptyString) then ret Continue
     else
       let args := Py.split command in
       try_except (dispatch snip args) is_Exception
         (λ e, print (nl +:+ "❌ Error: " +:+ str e));;
       what_next)
    is_KeyboardInterrupt
    (λ _, print nl;; ret Break).

Fixpoint command_loop (fuel : nat) (snip : snippet W) : M W bool :=
  match fuel with
  | O => λ st, (st, Unfinished)
  | S fuel' =>
      c ← command_round snip;
      match c with
      | Break => ret true
      | Return b => ret b
      | Continue => command_loop fuel' snip
      end
  end.

Definition run_snippet (fuel : nat) (snippet_idx : nat) : M W bool :=
  l ← get_snippets;
  match l !! snippet_idx with
  | None => raise IndexError
  | Some snip =>
      print (nl +:+ Py.repeat_char "-" 60);;
      print ("  " +:+ title snip);;
      print (Py.repeat_char "-" 60);;
      print (nl +:+ description snip +:+ nl);;
      command_loop fuel snip
  end.

(** The loop of [run]. *)
Fixpoint run_loop (fuel : nat) : M W unit :=
  match fuel with
  | O => λ st, (st, Unfinished)
  | S fuel' =>
      load_snippets;;
      shown ← show_menu;
      if negb shown then
        print (nl +:+ "Add snippet files to the 'snippets' directory and restart.")
      else
        choice ← get_choice fuel;
        match choice with
        | None => print (nl +:+ "Goodbye!")
        | Some idx =>
            again ← run_snippet fuel idx;
            if negb again then print (nl +:+ "Goodbye!")
            else run_loop fuel'
        end
  end.

Definition run (fuel : nat) : M W unit :=
  print (nl +:+ "Welcome to Snippet Runner!");;
  run_loop fuel.

(** [main()]: a fresh runner, whose catalog is empty, then [run]. *)
Definition main (fuel : nat) (w : world W) (keys : list key) : state W * outcome unit :=
  run fuel (mk_state [] w keys []).

End Registry.

End Runner.

(** ** Sample snippet files *)

Module Sample.
Import Runner.

(** An entry point that prints [msg] and returns, and one that raises [e]. *)
Definition returning (msg : string) : entry unit :=
  λ _ w _, mk_entry_result [Print msg] 0 w None.
Definition raising (e : exn) : entry unit :=
  λ _ w _, mk_entry_result [] 0 w (Some e).
(** An entry point that removes the snippets directory. *)
Definition removing_dir : entry unit :=
  λ _ w _, mk_entry_result [] 0 (mk_world None (ext w)) None.

(** The sources are named by what they do. *)
Definition exec_module (source : string) : load_result unit :=
  if decide (source = "apple") then
    Loaded (mk_module (Some "Apple Tool") (Some "Prints ok.") (Some (returning "ok")))
  else if decide (source = "zebra") then
    Loaded (mk_module (Some "Zebra Tool") (Some "Prints zz.") (Some (returning "zz")))
  else if decide (source = "value error") then
    Loaded (mk_module (Some "Failing Tool") (Some "Raises ValueError.")
              (Some (raising (Exception "ValueError" "bad value"))))
  else if decide (source = "sys.exit") then
    Loaded (mk_module (Some "Exiting Tool") (Some "Calls sys.exit.")
              (Some (raising (SystemExit "1"))))
  else if decide (source = "rmtree") then
    Loaded (mk_module (Some "Cleaner") (Some "Removes the directory.")
              (Some removing_dir))
  else if decide (source = "no run") then
    Loaded (mk_module (Some "No entry") (Some "Lacks run.") None)
  else if decide (source = "exit at import") then
    LoadRaises (SystemExit "1")
  else LoadRaises (Exception "SyntaxError" "invalid syntax").

Definition dir (files : list (string * string)) : world unit :=
  mk_world (Some files) tt.

(** pandas and pyperclip on a machine without files and with an empty
    clipboard. *)
Definition no_libs : Csv.libs :=
  {| Csv.paste := EmptyString;
     Csv.read_csv_text := λ _ _, inl (Csv.OtherError "No columns to parse from file");
     Csv.read_csv_file := λ _ _, inl Csv.FileNotFoundError;
     Csv.to_excel_buffer := λ _, None;
     Csv.to_excel_file := λ _ _, None;
     Csv.copy := λ _, None |}.

End Sample.

(** ** The JSON formatter, [snippets/json_formatter.py] *)

Module Json.
Import Runner.

(** The errors the [try] block of [run] tells apart. *)
Inductive error :=
  | FileNotFoundError
  | JSONDecodeError (msg : string)
  | OtherError (msg : string).

(** json and pyperclip, as far as [run] uses them: [loads] parses a text,
    [load_path] opens a path and parses the file, [dumps] is the
    serialization with two spaces of indentation, [copy] tells whether
    writing the clipboard fails. *)
Record libs := {
  data : Type;
  loads : string → error + data;
  load_path : string → error + data;
  dumps : data → string;
  copy : string → option error
}.

(** A call: what it wrote to the terminal, how many terminal events it
    read, the clipboard it left and the exception that left it, if any. *)
Record result := mk_result {
  printed : list output;
  read : nat;
  clipboard_after : string;
  raised : option exn
}.

Definition is_clipboard (s : string) : bool :=
  bool_decide (Py.lower s ∈ ["clipboard"; "clip"; "cb"]).

(** The three [except] clauses. *)
Definition report_error (input_source : string) (e : error) : output :=
  match e with
  | FileNotFoundError =>
      Print ("❌ Error: File " +:+ squote +:+ input_source +:+ squote +:+ " not found")
  | JSONDecodeError msg => Print ("❌ Error: Invalid JSON - " +:+ msg)
  | OtherError msg => Print ("❌ Error: " +:+ msg)
  end.

(** The [try] block from the formatting on: display, ask, copy. *)
Definition show_and_ask (L : libs) (input_source : string) (d : data L)
    (reading : list output) (clipboard : string) (keys : list key) : result :=
  let formatted := dumps L d in
  let shown :=
    reading ++
    [Print (nl +:+ Py.repeat_char "=" 60); Print "FORMATTED JSON:";
     Print (Py.repeat_char "=" 60); Print formatted;
     Print (Py.repeat_char "=" 60);
     Prompt (nl +:+ "📋 Copy to clipboard? (y/n): ")] in
  match keys with
  | [] =>
      mk_result (shown ++ [report_error input_source (OtherError (str EOFError))])
        0 clipboard None
  | CtrlC :: _ => mk_result shown 1 clipboard (Some KeyboardInterrupt)
  | Line answer :: _ =>
      let response := Py.lower (Py.strip answer) in
      if bool_decide (response ∈ ["y"; "yes"]) then
        match copy L formatted with
        | Some e => mk_result (shown ++ [report_error input_source e]) 1 clipboard None
        | None => mk_result (shown ++ [Print "✅ Copied to clipboard!"]) 1 formatted None
        end
      else mk_result (shown ++ [Print "👍 Not copied."]) 1 clipboard None
  end.

(** [run(args)], on the clipboard and the terminal. *)
Definition run (L : libs) (args : list string) (clipboard : string)
    (keys : list key) : result :=
  match args with
  | [input_source] =>
      if is_clipboard input_source then
        let reading := [Print "📋 Reading from clipboard..."] in
        if decide (Py.strip clipboard = EmptyString) then
          mk_result (reading ++ [Print "❌ Error: Clipboard is empty"]) 0 clipboard None
        else
          match loads L clipboard with
          | inl e => mk_result (reading ++ [report_error input_source e]) 0 clipboard None
          | inr d => show_and_ask L input_source d reading clipboard keys
          end
      else
        let reading := [Print ("📖 Reading " +:+ input_source +:+ "...")] in
        match load_path L input_source with
        | inl e => mk_result (reading ++ [report_error input_source e]) 0 clipboard None
        | inr d => show_and_ask L input_source d reading clipboard keys
        end
  | _ =>
      mk_result
        [Print "❌ Error: Expected 1 argument";
         Print "Usage: <json_file> or 'clipboard'";
         Print "Example: data.json";
         Print "Example: clipboard"]
        0 clipboard None
  end.

(** The formatter as the host calls it: the rest of the world is the
    clipboard. *)
Definition entry (L : libs) : Runner.entry string :=
  λ args w keys,
    let r := run L args (ext w) keys in
    mk_entry_result (printed r) (read r)
      (mk_world (snippets_dir w) (clipboard_after r)) (raised r).

End Json.

(** ** What the menu answers to a line it does not accept *)

Module Menu.

Definition select_prompt : string := nl +:+ "Select a tool (number): ".
Definition command_prompt : string := "Enter command (or 'back' to return): ".

(** The message of [get_choice] for a line that is no choice among [n]
    snippets: not a number, or a number that is neither 0 nor in 1..n. *)
Definition rejection (n : nat) (line : string) : option string :=
  match Py.int (Py.strip line) with
  | None => Some "Please enter a valid number"
  | Some k =>
      if decide (k = 0)%Z then None
      else if decide (1 ≤ k ∧ k ≤ Z.of_nat n)%Z then None
      else Some ("Please enter a number between 0 and " +:+ pretty n)
  end.

(** What the terminal shows for a run of rejected lines. *)
Definition rejections (n : nat) (lines : list string) : list Runner.output :=
  lines ≫= λ line,
    [Runner.Prompt select_prompt;
     Runner.Print (default EmptyString (rejection n line))].

End Menu.

(** ** Sample libraries *)

Module Fixtures.

(** pandas and pyperclip on a machine whose only file is [data.csv], two
    rows of three columns, and whose clipboard is empty. *)
Definition sheet : Csv.frame :=
  {| Csv.n_rows := 2; Csv.n_cols := 3; Csv.to_csv_tab := "a" +:+ Csv.tab +:+ "b" |}.

Definition one_csv : Csv.libs :=
  {| Csv.paste := EmptyString;
     Csv.read_csv_text := λ _ _, inl (Csv.OtherError "No columns to parse from file");
     Csv.read_csv_file := λ path _,
       if decide (path = "data.csv") then inr sheet else inl Csv.FileNotFoundError;
     Csv.to_excel_buffer := λ _, None;
     Csv.to_excel_file := λ _ _, None;
     Csv.copy := λ _, None |}.

(** json and pyperclip on a machine whose only file is [data.json]; a
    document is known by its formatted text, and the only text that parses
    is the empty object. *)
Definition one_json : Json.libs :=
  {| Json.data := string;
     Json.loads := λ text,
       if decide (text = "{}") then inr "{}"
       else inl (Json.JSONDecodeError "Expecting value: line 1 column 1 (char 0)");
     Json.load_path := λ path,
       if decide (path = "data.json") then inr "{}" else inl Json.FileNotFoundError;
     Json.dumps := λ d, d;
     Json.copy := λ _, None |}.

Definition formatter : Runner.snippet string :=
  Runner.mk_snippet "json_formatter" "JSON Formatter"
    "Format JSON and copy to clipboard." (Json.entry one_json).

End Fixtures.

(** * Properties *)

(** ** The string primitives, on samples *)

Example strip_sample : Py.strip "  add  x " = "add  x".
Proof. reflexivity. Qed.

Example split_sample :
  Py.split (" add " +:+ dquote +:+ "A" +:+ dquote +:+ "  1 ")
  = ["add"; dquote +:+ "A" +:+ dquote; "1"].
Proof. reflexivity. Qed.

Example int_samples :
  Py.int "007" = Some 7%Z ∧ Py.int " -3 " = Some (-3)%Z
  ∧ Py.int "1_000" = Some 1000%Z ∧ Py.int "1__0" = None
  ∧ Py.int "five" = None ∧ Py.int EmptyString = None.
Proof. by vm_compute. Qed.

(** Digits outside ASCII: [isdigit] accepts the superscript two, which
    [int] refuses, and the Arabic-Indic three, which [int] reads; [int]
    skips a no-break space and not the separator 0x1c; under a limit of
    4300 digits a literal of 4301 digits is refused. *)
Example digit_samples :
  Py.isdigit "²" = true ∧ Py.int "²" = None
  ∧ Py.isdigit "٣" = true ∧ Py.int "٣" = Some 3%Z
  ∧ Py.isdigit "1_0" = false ∧ Py.isdigit EmptyString = false
  ∧ Py.int (String (ascii_of_nat 194) (String (ascii_of_nat 160) "5")) = Some 5%Z
  ∧ Py.int (String (ascii_of_nat 28) "5") = None
  ∧ Py.int_within (Some 4300%nat) (Py.repeat_char "1" 4300) ≠ None
  ∧ Py.int_within (Some 4300%nat) (Py.repeat_char "1" 4301) = None
  ∧ Py.int_within None (Py.repeat_char "1" 4301) ≠ None.
Proof. vm_compute. repeat split; discriminate. Qed.

(** ** The stable sort *)

Section StableSortFacts.
Context {A K : Type} (key : A → K) (leb : K → K → bool).

Lemma insert_by_perm x l : insert_by key leb x l ≡ₚ x :: l.
Proof.
  induction l as [|y l IH]; simpl; [done|].
  destruct (leb (key x) (key y)); [done|].
  rewrite IH. apply Permutation_swap.
Qed.

Lemma sort_by_perm l : sort_by key leb l ≡ₚ l.
Proof.
  induction l as [|x l IH]; simpl; [done|].
  by rewrite insert_by_perm, IH.
Qed.

Hypothesis leb_total : ∀ j k, leb j k = true ∨ leb k j = true.
Hypothesis leb_trans : ∀ i j k, leb i j = true → leb j k = true → leb i k = true.

Lemma insert_by_sorted x l :
  StronglySorted (key_le key leb) l → StronglySorted (key_le key leb) (insert_by key leb x l).
Proof.
  induction 1 as [|y l Hl IH Hy]; simpl.
  - repeat constructor.
  - destruct (leb (key x) (key y)) eqn:Hxy.
    + constructor; [by constructor|].
      constructor; [done|].
      eapply Forall_impl; [exact Hy|]. intros z Hz. by eapply leb_trans.
    + constructor; [done|].
      rewrite insert_by_perm. constructor; [|done].
      destruct (leb_total (key x) (key y)); [congruence|done].
Qed.

Lemma sort_by_sorted l : StronglySorted (key_le key leb) (sort_by key leb l).
Proof.
  induction l; simpl; [constructor|]. by apply insert_by_sorted.
Qed.

(** Stability: the entries with a given key keep their order. *)
Lemma insert_by_stable `{!EqDecision K} k x l :
  filter (λ a, key a = k) (insert_by key leb x l)
  = filter (λ a, key a = k) (x :: l).
Proof.
  induction l as [|y l IH]; simpl; [done|].
  destruct (leb (key x) (key y)) eqn:Hxy; [done|].
  rewrite filter_cons, IH, !filter_cons.
  destruct (decide (key y = k)) as [Hy|Hy], (decide (key x = k)) as [Hx|Hx];
    try done.
  destruct (leb_total (key x) (key x)); congruence.
Qed.

Lemma sort_by_stable `{!EqDecision K} k l :
  filter (λ a, key a = k) (sort_by key leb l) = filter (λ a, key a = k) l.
Proof.
  induction l as [|x l IH]; simpl; [done|].
  by rewrite insert_by_stable, !filter_cons, IH.
Qed.

End StableSortFacts.

(** ** The todo manager *)

(** Unfolding [run]: the call in the plain surroundings. *)
Ltac unfold_run :=
  unfold Todo.run, Todo.run_in;
  cbn [Todo.write_error Todo.max_str_digits Todo.plain Todo.save_todos
       Py.int_within Py.int_or_error].
Ltac unfold_run_in H :=
  unfold Todo.run, Todo.run_in in H;
  cbn [Todo.write_error Todo.max_str_digits Todo.plain Todo.save_todos
       Py.int_within Py.int_or_error] in H.

Section TodoFacts.
Import Todo.
Open Scope Z_scope.

Lemma first_unused_spec used p :
  p ≤ first_unused used p
  ∧ (first_unused used p ∉ used)
  ∧ ∀ q, p ≤ q < first_unused used p → q ∈ used.
Proof.
  funelim (first_unused used p).
  - destruct H as (Hle & Hnot & Hbelow). split; [lia|]. split; [done|].
    intros q Hq. destruct (decide (q = p)) as [->|]; [done|].
    apply Hbelow. lia.
  - split; [lia|]. split; [done|]. intros q Hq. lia.
Qed.

Lemma get_next_priority_spec todos :
  1 ≤ get_next_priority todos
  ∧ (get_next_priority todos ∉ (priority <$> todos))
  ∧ ∀ q, 1 ≤ q < get_next_priority todos → q ∈ (priority <$> todos).
Proof.
  unfold get_next_priority. destruct todos as [|t todos].
  - split; [lia|]. split; [apply not_elem_of_nil|]. intros q Hq. lia.
  - pose proof (first_unused_spec (list_to_set (priority <$> t :: todos)) 1)
      as (Hle & Hnot & Hbelow).
    split; [done|]. split.
    + intros Hin. apply Hnot. by apply elem_of_list_to_set.
    + intros q Hq. specialize (Hbelow q Hq).
      by apply elem_of_list_to_set in Hbelow.
Qed.

(** A run of digits is a literal [int] accepts. *)
Lemma digit_char_plain c :
  Py.is_digit_char c = true →
  Py.isspace c = false ∧ c ≠ "-"%char ∧ c ≠ "+"%char ∧ c ≠ "_"%char
  ∧ 0 ≤ Py.digit_val c.
Proof.
  destruct c as [[] [] [] [] [] [] [] []]; vm_compute; intros H;
    try discriminate H; repeat split; discriminate.
Qed.

Lemma all_digits_rstrip s :
  Py.all_digits s = true → Py.rstrip_by Py.isspace s = s.
Proof.
  induction s as [|c s IH]; simpl; [done|].
  intros [Hc Hs]%andb_prop. rewrite (IH Hs).
  destruct (digit_char_plain c Hc) as (-> & _). by destruct s.
Qed.

Lemma int_digits_all s acc prev :
  Py.all_digits s = true → 0 ≤ acc → s ≠ EmptyString ∨ prev = true →
  ∃ p, Py.int_digits s acc prev = Some p ∧ 0 ≤ p.
Proof.
  revert acc prev. induction s as [|c s IH]; simpl; intros acc prev Hs Hacc Hne.
  - destruct Hne as [ | -> ]; [done|]. eauto.
  - apply andb_prop in Hs as [Hc Hs]. rewrite Hc.
    destruct (digit_char_plain c Hc) as (_ & _ & _ & _ & Hv).
    apply IH; [done|lia|by right].
Qed.

Lemma digit_char_code c :
  Py.is_digit_char c = true →
  (N_of_ascii c <? 127)%N = true
  ∧ Py.in_ranges Py.digit_ranges (N_of_ascii c) = true
  ∧ Py.c_isspace c = false.
Proof.
  destruct c as [[] [] [] [] [] [] [] []]; vm_compute; intros H;
    try discriminate H; repeat split.
Qed.

(** An ASCII character is its own literal form. *)
Lemma literal_cons c s :
  (N_of_ascii c <? 127)%N = true →
  Py.literal (String c s) = String c <$> Py.literal s.
Proof.
  intros Hc. unfold Py.literal. cbn [Py.decode].
  assert ((N_of_ascii c <? 128)%N = true) as ->.
  { apply N.ltb_lt. apply N.ltb_lt in Hc. lia. }
  destruct (Py.decode s) as [cps|]; [|done]. cbn.
  unfold Py.to_ascii at 1. by rewrite Hc, ascii_N_embedding.
Qed.

Lemma decode_cons c s :
  (N_of_ascii c <? 127)%N = true →
  Py.decode (String c s) = cons (N_of_ascii c) <$> Py.decode s.
Proof.
  intros Hc. cbn [Py.decode].
  assert ((N_of_ascii c <? 128)%N = true) as ->; [|done].
  apply N.ltb_lt. apply N.ltb_lt in Hc. lia.
Qed.

Lemma literal_digits s : Py.all_digits s = true → Py.literal s = Some s.
Proof.
  induction s as [|c s IH]; [done|]. simpl. intros [Hc Hs]%andb_prop.
  destruct (digit_char_code c Hc) as (Hcode & _).
  by rewrite literal_cons, IH.
Qed.

Lemma isdigit_digits s :
  Py.all_digits s = true → s ≠ EmptyString → Py.isdigit s = true.
Proof.
  intros Hs Hne. unfold Py.isdigit.
  assert (∃ cps, Py.decode s = Some cps
                 ∧ forallb (Py.in_ranges Py.digit_ranges) cps = true
                 ∧ (s ≠ EmptyString → cps ≠ [])) as (cps & -> & Hall & Hcps).
  { clear Hne. induction s as [|c s IH]; [by exists []|].
    simpl in Hs. apply andb_prop in Hs as [Hc Hs].
    destruct (digit_char_code c Hc) as (Hcode & Hin & _).
    destruct (IH Hs) as (cps & Hdec & Hall & _).
    exists (N_of_ascii c :: cps). rewrite decode_cons, Hdec by done.
    split; [done|]. split; [|done]. cbn [forallb]. by rewrite Hin, Hall. }
  destruct cps as [|c cps]; [by destruct Hcps|done].
Qed.

Lemma all_digits_c_rstrip s :
  Py.all_digits s = true → Py.rstrip_by Py.c_isspace s = s.
Proof.
  induction s as [|c s IH]; simpl; [done|].
  intros [Hc Hs]%andb_prop. rewrite (IH Hs).
  destruct (digit_char_code c Hc) as (_ & _ & ->). by destruct s.
Qed.

(** A run of ASCII digits is read as the number its digits spell. *)
Lemma int_of_digits d :
  Py.all_digits d = true → d ≠ EmptyString →
  Py.strip d = d ∧ Py.int d = Py.int_digits d 0 false.
Proof.
  destruct d as [|c d]; [done|]. intros Hd _.
  pose proof Hd as [Hc Hrest]%andb_prop.
  destruct (digit_char_plain c Hc) as (Hsp & Hm & Hp & _).
  destruct (digit_char_code c Hc) as (_ & _ & Hcsp).
  split.
  { unfold Py.strip. simpl Py.lstrip_by. rewrite Hsp. by apply all_digits_rstrip. }
  unfold Py.int. rewrite literal_digits by done. cbn [mbind option_bind].
  unfold Py.parse_int, Py.c_strip. simpl Py.lstrip_by. rewrite Hcsp.
  rewrite all_digits_c_rstrip by done.
  destruct c as [[] [] [] [] [] [] [] []]; done.
Qed.

Lemma digits_int d :
  Py.all_digits d = true → d ≠ EmptyString → ∃ p, Py.int d = Some p ∧ 0 ≤ p.
Proof.
  intros Hd Hne. destruct (int_of_digits d Hd Hne) as [_ ->].
  apply int_digits_all; [done|lia|by left].
Qed.

(** The two forms of [int] under a limit agree. *)
Lemma int_or_error_within limit s :
  Py.int_within limit s
  = match Py.int_or_error limit s with
    | inr z => Some z
    | inl _ => None
    end.
Proof.
  unfold Py.int_within, Py.int_or_error.
  destruct limit as [n|]; [destruct (Py.exceeds n (Py.scanned s)); [done|]|];
    by destruct (Py.int s).
Qed.

(** What [add] saves, with and without an explicit priority. *)
Lemma run_add_explicit now cmd ttl d p file :
  Py.lower cmd = "add" → ttl ≠ [] → Py.isdigit d = true → Py.int d = Some p →
  (run now (cmd :: ttl ++ [d]) file).2
  = Some (sort_by_priority
            ((shift_from p <$> load_todos file)
             ++ [mk_todo (unquote (Py.join " " ttl)) "todo" p now])).
Proof.
  intros Hcmd Httl Hd Hp. unfold_run. rewrite Hcmd.
  assert (3 ≤ length (cmd :: ttl ++ [d]))%nat as Hlen.
  { destruct ttl; [done|]. simpl. rewrite length_app. simpl. lia. }
  assert (List.last (cmd :: ttl ++ [d]) EmptyString = d) as Hlast.
  { change (cmd :: ttl ++ [d]) with ((cmd :: ttl) ++ [d]). apply last_last. }
  assert (slice_1_m1 (cmd :: ttl ++ [d]) = ttl) as Hslice.
  { unfold slice_1_m1. simpl. rewrite length_app. simpl.
    replace (length ttl + 1 - 1)%nat with (length ttl) by lia.
    by rewrite drop_0, take_app_length. }
  destruct (decide ("add" = "list")) as [?|_]; [done|].
  destruct (decide ("add" = "add")) as [_|?]; [|done].
  destruct (decide (length (cmd :: ttl ++ [d]) < 2)%nat) as [?|_]; [lia|].
  rewrite Hlast, Hd, Hp, Hslice, bool_decide_true by done. done.
Qed.

Lemma run_add_implicit now cmd ttl file :
  Py.lower cmd = "add" → ttl ≠ [] → Py.isdigit (List.last ttl EmptyString) = false →
  (run now (cmd :: ttl) file).2
  = Some (sort_by_priority
            (load_todos file
             ++ [mk_todo (unquote (Py.join " " ttl)) "todo"
                   (get_next_priority (load_todos file)) now])).
Proof.
  intros Hcmd Httl Hd. unfold_run. rewrite Hcmd.
  assert (List.last (cmd :: ttl) EmptyString = List.last ttl EmptyString) as Hlast.
  { by destruct ttl. }
  destruct (decide ("add" = "list")) as [?|_]; [done|].
  destruct (decide ("add" = "add")) as [_|?]; [|done].
  destruct (decide (length (cmd :: ttl) < 2)%nat) as [Hlt|_].
  { destruct ttl; [done|]. simpl in Hlt. lia. }
  rewrite Hlast, Hd, andb_false_r. done.
Qed.

Lemma Zleb_total j k : (j <=? k) = true ∨ (k <=? j) = true.
Proof. destruct (Z.leb_spec j k), (Z.leb_spec k j); auto; lia. Qed.

Lemma Zleb_trans i j k : (i <=? j) = true → (j <=? k) = true → (i <=? k) = true.
Proof. rewrite !Z.leb_le. lia. Qed.

Lemma sort_by_priority_perm l : sort_by_priority l ≡ₚ l.
Proof. apply sort_by_perm. Qed.

Lemma sort_by_priority_sorted l :
  StronglySorted (key_le priority Z.leb) (sort_by_priority l).
Proof. apply sort_by_sorted; [apply Zleb_total|apply Zleb_trans]. Qed.

Lemma shift_from_eq p t :
  shift_from p t
  = mk_todo (title t) (status t)
      (if decide (p ≤ priority t) then priority t + 1 else priority t) (date t).
Proof. unfold shift_from. destruct (decide (p ≤ priority t)); by destruct t. Qed.

(** What an [add] does in any surroundings, with and without a last token
    that passes [isdigit]. *)
Lemma run_in_add_explicit e now cmd ttl d file :
  Py.lower cmd = "add" → ttl ≠ [] → Py.isdigit d = true →
  run_in e now (cmd :: ttl ++ [d]) file
  = match Py.int_or_error (max_str_digits e) d with
    | inl msg => (["❌ Error: " +:+ msg], None)
    | inr p =>
        let new_title := unquote (Py.join " " ttl) in
        let todos :=
          sort_by_priority
            ((shift_from p <$> load_todos file)
             ++ [mk_todo new_title "todo" p now]) in
        match save_todos e todos with
        | inl msg => (["❌ Error: " +:+ msg], None)
        | inr saved =>
            (("✅ Added todo [Priority " +:+ pretty p +:+ "]: " +:+ new_title)
             :: (if existsb (λ t, p <? priority t) todos
                 then ["   (Shifted lower priority items down)"] else []),
             Some saved)
        end
    end.
Proof.
  intros Hcmd Httl Hd. unfold run_in. rewrite Hcmd.
  assert (3 ≤ length (cmd :: ttl ++ [d]))%nat as Hlen.
  { destruct ttl; [done|]. simpl. rewrite length_app. simpl. lia. }
  assert (List.last (cmd :: ttl ++ [d]) EmptyString = d) as Hlast.
  { change (cmd :: ttl ++ [d]) with ((cmd :: ttl) ++ [d]). apply last_last. }
  assert (slice_1_m1 (cmd :: ttl ++ [d]) = ttl) as Hslice.
  { unfold slice_1_m1. simpl. rewrite length_app. simpl.
    replace (length ttl + 1 - 1)%nat with (length ttl) by lia.
    by rewrite drop_0, take_app_length. }
  destruct (decide ("add" = "list")) as [?|_]; [done|].
  destruct (decide ("add" = "add")) as [_|?]; [|done].
  destruct (decide (length (cmd :: ttl ++ [d]) < 2)%nat) as [?|_]; [lia|].
  rewrite Hlast, Hd, Hslice, bool_decide_true by done.
  by destruct (Py.int_or_error (max_str_digits e) d).
Qed.

Lemma run_in_add_implicit e now cmd ttl file :
  Py.lower cmd = "add" → ttl ≠ [] → Py.isdigit (List.last ttl EmptyString) = false →
  run_in e now (cmd :: ttl) file
  = let p := get_next_priority (load_todos file) in
    let new_title := unquote (Py.join " " ttl) in
    let todos :=
      sort_by_priority (load_todos file ++ [mk_todo new_title "todo" p now]) in
    match save_todos e todos with
    | inl msg => (["❌ Error: " +:+ msg], None)
    | inr saved =>
        (("✅ Added todo [Priority " +:+ pretty p +:+ "]: " +:+ new_title)
         :: (if existsb (λ t, p <? priority t) todos
             then ["   (Shifted lower priority items down)"] else []),
         Some saved)
    end.
Proof.
  intros Hcmd Httl Hd. unfold run_in. rewrite Hcmd.
  assert (List.last (cmd :: ttl) EmptyString = List.last ttl EmptyString) as Hlast.
  { by destruct ttl. }
  destruct (decide ("add" = "list")) as [?|_]; [done|].
  destruct (decide ("add" = "add")) as [_|?]; [|done].
  destruct (decide (length (cmd :: ttl) < 2)%nat) as [Hlt|_].
  { destruct ttl; [done|]. simpl in Hlt. lia. }
  rewrite Hlast, Hd, andb_false_r. done.
Qed.

(** The literal [1] is within every limit. *)
Lemma int_or_error_one limit : Py.int_or_error limit "1" = inr 1.
Proof.
  destruct limit as [n|]; [|done]. unfold Py.int_or_error.
  by change (Py.exceeds n (Py.scanned "1")) with false.
Qed.

(** C6, with the condition the code puts on the last token.  An [add] with
    a title, where the file can be written: [ttl] is the tokens of the
    title, not empty.  When a last token [d] follows that passes [isdigit]
    and that [int] reads as [p], it is the priority: the saved store holds
    the new record at [p] and every old record, those at or above [p] moved
    up by one.  When [int] refuses the token, the message of its error is
    printed and nothing is saved.  When the title is the rest of the line
    and its last token does not pass [isdigit], the new record gets the
    smallest positive priority not in use and the old records stay.  Hence
    an add into an empty store saves priority 1, and an add at 1 over a
    single record at 1 moves that record to 2. *)
Theorem add_assigns_priority (e : env) (now cmd : string) (ttl : list string)
    (file : todo_file) :
  Py.lower cmd = "add" → ttl ≠ [] → write_error e = None →
  let new_title := unquote (Py.join " " ttl) in
  let old := load_todos file in
  (∀ d p, Py.isdigit d = true → Py.int_within (max_str_digits e) d = Some p →
     ∃ saved,
       (run_in e now (cmd :: ttl ++ [d]) file).2 = Some saved
       ∧ saved ≡ₚ mk_todo new_title "todo" p now
                   :: ((λ t, mk_todo (title t) (status t)
                               (if decide (p ≤ priority t)
                                then priority t + 1 else priority t)
                               (date t)) <$> old)
       ∧ StronglySorted (key_le priority Z.leb) saved)
  ∧ (∀ d msg, Py.isdigit d = true →
       Py.int_or_error (max_str_digits e) d = inl msg →
       Py.int_within (max_str_digits e) d = None
       ∧ run_in e now (cmd :: ttl ++ [d]) file = (["❌ Error: " +:+ msg], None))
  ∧ (Py.isdigit (List.last ttl EmptyString) = false →
     ∃ p saved,
       1 ≤ p
       ∧ (p ∉ (priority <$> old))
       ∧ (∀ q, 1 ≤ q < p → q ∈ (priority <$> old))
       ∧ (run_in e now (cmd :: ttl) file).2 = Some saved
       ∧ saved ≡ₚ mk_todo new_title "todo" p now :: old
       ∧ StronglySorted (key_le priority Z.leb) saved)
  ∧ (Py.isdigit (List.last ttl EmptyString) = false → old = [] →
     (run_in e now (cmd :: ttl) file).2 = Some [mk_todo new_title "todo" 1 now])
  ∧ (∀ t, old = [t] → priority t = 1 →
     (run_in e now (cmd :: ttl ++ ["1"]) file).2
     = Some [mk_todo new_title "todo" 1 now;
             mk_todo (title t) (status t) 2 (date t)]).
Proof.
  intros Hcmd Httl Hwrite new_title old.
  assert (∀ todos, save_todos e todos = inr todos) as Hsave.
  { intros todos. unfold save_todos. by rewrite Hwrite. }
  split; [|split; [|split; [|split]]].
  - intros d p Hd Hp. rewrite int_or_error_within in Hp.
    rewrite run_in_add_explicit by done.
    destruct (Py.int_or_error (max_str_digits e) d) as [msg|p']; [done|].
    injection Hp as ->. cbv zeta. rewrite Hsave. eexists. split; [done|].
    split; [|apply sort_by_priority_sorted].
    rewrite sort_by_priority_perm, Permutation_app_comm. simpl.
    apply Permutation_skip. fold old.
    assert (shift_from p <$> old
            = (λ t, mk_todo (title t) (status t)
                      (if decide (p ≤ priority t)
                       then priority t + 1 else priority t) (date t)) <$> old)
      as ->; [|done].
    apply list_fmap_ext. intros _ t _. apply shift_from_eq.
  - intros d msg Hd Hmsg. rewrite int_or_error_within, Hmsg. split; [done|].
    rewrite run_in_add_explicit by done. by rewrite Hmsg.
  - intros Hd.
    destruct (get_next_priority_spec old) as (Hle & Hnot & Hbelow).
    exists (get_next_priority old). eexists.
    split; [done|]. split; [done|]. split; [done|]. split.
    { rewrite run_in_add_implicit by done. cbv zeta. by rewrite Hsave. }
    split; [|apply sort_by_priority_sorted].
    by rewrite sort_by_priority_perm, Permutation_app_comm.
  - intros Hd Hold. rewrite run_in_add_implicit by done. cbv zeta.
    rewrite Hsave. fold old. by rewrite Hold.
  - intros t Hold Ht.
    rewrite (run_in_add_explicit e now cmd ttl "1") by done.
    rewrite int_or_error_one. cbv zeta. rewrite Hsave.
    fold old. rewrite Hold. simpl. rewrite shift_from_eq, Ht. done.
Qed.

Lemma add_assigns_priority_witness :
  Py.lower "ADD" = "add" ∧ ["Buy"; "milk"] ≠ []
  ∧ write_error python_3_11 = None
  ∧ (run_in python_3_11 "03 Nov 09:00" ["ADD"; "Buy"; "milk"; "1"]
       (Stored [mk_todo "A" "todo" 1 "02 Nov 08:00"])).2
    = Some [mk_todo "Buy milk" "todo" 1 "03 Nov 09:00";
            mk_todo "A" "todo" 2 "02 Nov 08:00"].
Proof.
  split; [reflexivity|]. split; [discriminate|]. split; [reflexivity|].
  assert (["Buy"; "milk"] ≠ []) as Hne by discriminate.
  destruct (add_assigns_priority python_3_11 "03 Nov 09:00" "ADD" ["Buy"; "milk"]
              (Stored [mk_todo "A" "todo" 1 "02 Nov 08:00"]) eq_refl Hne eq_refl)
    as (_ & _ & _ & _ & Hshift).
  exact (Hshift _ eq_refl eq_refl).
Defined.

(** C6 as stated fails on a last token that passes [isdigit] and that
    [int] refuses: the call takes the branch of the explicit priority,
    [int] raises, the message is printed and nothing is saved; the token is
    neither a priority nor part of the title.  Such tokens are a digit that
    is no decimal digit (the superscript two), and, under the limit on the
    digits of a literal, a run of 4301 ASCII digits. *)
Lemma digits_refused_nothing_saved :
  let file := Stored [mk_todo "A" "todo" 1 "02 Nov 08:00"] in
  Py.isdigit "²" = true
  ∧ run "03 Nov 09:00" ["add"; "Buy"; "²"] file
    = (["❌ Error: invalid literal for int() with base 10: '²'"], None)
  ∧ Py.isdigit (Py.repeat_char "1" 4301) = true
  ∧ run_in python_3_11 "03 Nov 09:00" ["add"; "Buy"; Py.repeat_char "1" 4301] file
    = (["❌ Error: Exceeds the limit (4300 digits) for integer string conversion: value has 4301 digits; use sys.set_int_max_str_digits() to increase the limit"],
       None).
Proof. by vm_compute. Qed.

(** A lone token after [add] is the title, digits or not: the guard of the
    explicit branch asks for three tokens. *)
Example add_lone_digits :
  run "03 Nov 09:00" ["add"; "5"] Missing
  = (["✅ Added todo [Priority 1]: 5"],
     Some [mk_todo "5" "todo" 1 "03 Nov 09:00"]).
Proof. reflexivity. Qed.

(** Every call writes nothing or saves one of four lists. *)
Lemma run_writes now args file :
  let todos := load_todos file in
  (run now args file).2 = None
  ∨ ∃ saved, (run now args file).2 = Some saved
      ∧ ((∃ p ttl, saved = sort_by_priority
                              ((shift_from p <$> todos) ++ [mk_todo ttl "todo" p now]))
         ∨ (∃ ttl, saved = sort_by_priority
                             (todos ++ [mk_todo ttl "todo" (get_next_priority todos) now]))
         ∨ (∃ p s old, set_status p s todos = Some (old, saved))
         ∨ (∃ p, saved = filter (λ t, priority t ≠ p) todos
                 ∧ length saved ≠ length todos)).
Proof.
  intros todos. unfold_run. destruct args as [|arg0 rest]; [by left|].
  fold todos.
  destruct (decide (Py.lower arg0 = "list")); [by left|].
  destruct (decide (Py.lower arg0 = "add")).
  { destruct (decide (length (arg0 :: rest) < 2)%nat); [by left|].
    destruct (bool_decide (3 ≤ length (arg0 :: rest))%nat
              && Py.isdigit (List.last (arg0 :: rest) EmptyString)).
    - destruct (Py.int (List.last (arg0 :: rest) EmptyString)) as [p|];
        [|by left].
      right. eexists. split; [done|]. left. eauto.
    - right. eexists. split; [done|]. right. left. eauto. }
  destruct (decide (Py.lower arg0 = "status")).
  { destruct rest as [|a1 [|a2 [|]]]; try by left.
    destruct (Py.int a1) as [p|]; [|by left].
    destruct (status_map !! Py.lower a2) as [s|]; [|by left].
    destruct (set_status p s todos) as [[old saved]|] eqn:Hset; [|by left].
    right. exists saved. split; [done|]. right. right. left. eauto. }
  destruct (decide (Py.lower arg0 = "remove")); [|by left].
  destruct rest as [|a1 [|]]; try by left.
  destruct (Py.int a1) as [p|]; [|by left].
  destruct (decide (length (filter (λ t, priority t ≠ p) todos) = length todos));
    [by left|].
  right. eexists. split; [done|]. right. right. right. eauto.
Qed.

Lemma shift_from_distinct p l :
  NoDup (priority <$> l) →
  NoDup (priority <$> (shift_from p <$> l)) ∧ p ∉ (priority <$> (shift_from p <$> l)).
Proof.
  intros Hl.
  assert (priority <$> (shift_from p <$> l)
          = (λ q, if decide (p ≤ q) then q + 1 else q) <$> (priority <$> l)) as ->.
  { rewrite <- !list_fmap_compose. apply list_fmap_ext. intros _ t _. simpl.
    by rewrite shift_from_eq. }
  split.
  - apply NoDup_fmap_2; [|done]. intros q1 q2 Hq.
    destruct (decide (p ≤ q1)), (decide (p ≤ q2)); lia.
  - intros (q & Hq & _)%list_elem_of_fmap. destruct (decide (p ≤ q)); lia.
Qed.

Lemma set_status_priorities p s l old l' :
  set_status p s l = Some (old, l') → priority <$> l' = priority <$> l.
Proof.
  revert old l'. induction l as [|t l IH]; simpl; intros old l' H; [done|].
  destruct (decide (priority t = p)).
  - by injection H as <- <-.
  - destruct (set_status p s l) as [[o r]|]; [|done].
    injection H as <- <-. simpl. f_equal. by eapply IH.
Qed.

(** C7. The priorities of the store stay pairwise distinct: whatever the
    command and its arguments, a call that finds distinct priorities in the
    file leaves distinct priorities in the file. *)
Theorem priorities_stay_distinct (now : string) (args : list string) (file : todo_file) :
  NoDup (priority <$> load_todos file) →
  NoDup (priority <$> load_todos (file_after file (run now args file).2)).
Proof.
  intros Hfile.
  destruct (run_writes now args file) as [->|(saved & -> & Hsaved)]; [done|].
  simpl.
  destruct Hsaved as [(p & ttl & ->)|[(ttl & ->)|[(p & s & old & Hset)|(p & -> & _)]]].
  - rewrite sort_by_priority_perm, fmap_app. simpl.
    rewrite <- Permutation_cons_append.
    destruct (shift_from_distinct p _ Hfile) as [Hnd Hp]. by constructor.
  - rewrite sort_by_priority_perm, fmap_app. simpl.
    rewrite <- Permutation_cons_append.
    destruct (get_next_priority_spec (load_todos file)) as (_ & Hfree & _).
    by constructor.
  - by rewrite (set_status_priorities _ _ _ _ _ Hset).
  - eapply sublist_NoDup; [exact Hfile|]. apply fmap_sublist, sublist_filter.
Qed.

Lemma priorities_stay_distinct_witness :
  NoDup (priority <$> load_todos
           (Stored [mk_todo "A" "todo" 1 "d"; mk_todo "B" "todo" 2 "d"]))
  ∧ NoDup (priority <$> load_todos
             (file_after
                (Stored [mk_todo "A" "todo" 1 "d"; mk_todo "B" "todo" 2 "d"])
                (run "d" ["add"; "C"; "2"]
                   (Stored [mk_todo "A" "todo" 1 "d"; mk_todo "B" "todo" 2 "d"])).2)).
Proof.
  assert (NoDup (priority <$> load_todos
            (Stored [mk_todo "A" "todo" 1 "d"; mk_todo "B" "todo" 2 "d"]))) as H.
  { apply (bool_decide_unpack _). vm_compute. exact I. }
  split; [exact H|]. exact (priorities_stay_distinct _ _ _ H).
Defined.

Lemma set_status_absent p s l :
  p ∉ (priority <$> l) → set_status p s l = None.
Proof.
  induction l as [|t l IH]; simpl; [done|].
  intros Hp. apply not_elem_of_cons in Hp as [Hne Hp].
  destruct (decide (priority t = p)); [congruence|]. by rewrite IH.
Qed.

Lemma set_status_first p s pre t post :
  p ∉ (priority <$> pre) → priority t = p →
  set_status p s (pre ++ t :: post)
  = Some (status t, pre ++ mk_todo (title t) s (priority t) (date t) :: post).
Proof.
  intros Hpre Ht. induction pre as [|u pre IH]; simpl.
  - by destruct (decide (priority t = p)).
  - simpl in Hpre. apply not_elem_of_cons in Hpre as [Hne Hpre].
    destruct (decide (priority u = p)); [congruence|]. by rewrite IH.
Qed.

Lemma filter_other_priorities p (l : list todo) :
  p ∉ (priority <$> l) → filter (λ t, priority t ≠ p) l = l.
Proof.
  induction l as [|t l IH]; simpl; [done|].
  intros Hp. apply not_elem_of_cons in Hp as [Hne Hp].
  rewrite filter_cons_True by congruence. by rewrite IH.
Qed.

Lemma filter_single_priority p (pre : list todo) t post :
  p ∉ (priority <$> pre) → priority t = p → p ∉ (priority <$> post) →
  filter (λ t, priority t ≠ p) (pre ++ t :: post) = pre ++ post.
Proof.
  intros Hpre Ht Hpost.
  rewrite filter_app, filter_cons_False by (intros H; by apply H).
  by rewrite !filter_other_priorities.
Qed.

(** C8. [status] and [remove] address a record by its priority [p].  When no
    record of the store is at [p], both print the not-found error and write
    nothing ([status] writes nothing there whatever its status token).  When
    [t] is the record at [p], [status] saves the store with the status of
    [t] replaced and nothing else changed, and [remove] saves the store
    without [t] and nothing else changed. *)
Theorem status_remove_by_priority (now cmd a1 : string) (p : Z) (file : todo_file) :
  Py.int a1 = Some p →
  let todos := load_todos file in
  let not_found := ["❌ Error: Todo with priority " +:+ pretty p +:+ " not found"] in
  (p ∉ (priority <$> todos) →
     (∀ a2 s, Py.lower cmd = "status" → status_map !! Py.lower a2 = Some s →
        run now [cmd; a1; a2] file = (not_found, None)
        ∧ file_after file (run now [cmd; a1; a2] file).2 = file)
     ∧ (∀ a2, Py.lower cmd = "status" → (run now [cmd; a1; a2] file).2 = None)
     ∧ (Py.lower cmd = "remove" →
        run now [cmd; a1] file = (not_found, None)
        ∧ file_after file (run now [cmd; a1] file).2 = file))
  ∧ (∀ pre t post,
       todos = pre ++ t :: post → priority t = p → p ∉ (priority <$> pre) →
       (∀ a2 s, Py.lower cmd = "status" → status_map !! Py.lower a2 = Some s →
          run now [cmd; a1; a2] file
          = (["✅ Updated todo [Priority " +:+ pretty p +:+ "]: "
              +:+ status t +:+ " → " +:+ s],
             Some (pre ++ mk_todo (title t) s (priority t) (date t) :: post)))
       ∧ (Py.lower cmd = "remove" → p ∉ (priority <$> post) →
          run now [cmd; a1] file
          = (["✅ Removed todo [Priority " +:+ pretty p +:+ "]"],
             Some (pre ++ post)))).
Proof.
  intros Hp todos not_found. split.
  - intros Habsent. split; [|split].
    + intros a2 s Hcmd Hs.
      assert (run now [cmd; a1; a2] file = (not_found, None)) as ->; [|done].
      unfold_run. rewrite Hcmd, Hp, Hs.
      fold todos. by rewrite set_status_absent.
    + intros a2 Hcmd. unfold_run. rewrite Hcmd, Hp. fold todos.
      destruct (status_map !! Py.lower a2) as [s|]; [|done].
      by rewrite set_status_absent.
    + intros Hcmd.
      assert (run now [cmd; a1] file = (not_found, None)) as ->; [|done].
      unfold_run. rewrite Hcmd, Hp. fold todos.
      rewrite filter_other_priorities by done.
      by destruct (decide (length todos = length todos)).
  - intros pre t post Htodos Ht Hpre. split.
    + intros a2 s Hcmd Hs. unfold_run. rewrite Hcmd, Hp, Hs.
      fold todos. rewrite Htodos. by rewrite set_status_first.
    + intros Hcmd Hpost. unfold_run. rewrite Hcmd, Hp. fold todos.
      rewrite Htodos, filter_single_priority by done.
      destruct (decide (length (pre ++ post) = length (pre ++ t :: post)))
        as [Hlen|_]; [|done].
      rewrite !length_app in Hlen. simpl in Hlen. lia.
Qed.

Lemma status_remove_by_priority_witness :
  Py.int "2" = Some 2
  ∧ run "d" ["remove"; "2"]
      (Stored [mk_todo "B" "todo" 1 "d"; mk_todo "A" "todo" 2 "d"])
    = (["✅ Removed todo [Priority 2]"], Some [mk_todo "B" "todo" 1 "d"])
  ∧ run "d" ["remove"; "2"] (Stored [mk_todo "B" "todo" 1 "d"])
    = (["❌ Error: Todo with priority 2 not found"], None).
Proof.
  split; [reflexivity|].
  assert ((2 : Z) ∉ (priority <$> [mk_todo "B" "todo" 1 "d"])) as Hnot.
  { apply (bool_decide_unpack _). vm_compute. exact I. }
  split.
  - destruct (status_remove_by_priority "d" "remove" "2" 2
                (Stored [mk_todo "B" "todo" 1 "d"; mk_todo "A" "todo" 2 "d"])
                eq_refl) as [_ Hfound].
    destruct (Hfound [mk_todo "B" "todo" 1 "d"] (mk_todo "A" "todo" 2 "d") []
                eq_refl eq_refl Hnot) as [_ Hremove].
    apply Hremove; [reflexivity|]. apply not_elem_of_nil.
  - destruct (status_remove_by_priority "d" "remove" "2" 2
                (Stored [mk_todo "B" "todo" 1 "d"]) eq_refl) as [Habsent _].
    destruct (Habsent Hnot) as (_ & _ & Hremove). by apply Hremove.
Defined.





End TodoFacts.

(** ** The CSV converter *)

Section CsvFacts.
Import Csv.

Lemma write_output_parses L df dest delimiter :
  Forall (parsed_with delimiter) (write_output L df dest).1.
Proof.
  unfold write_output.
  destruct (is_clipboard dest), (to_excel_buffer L df), (copy L (to_csv_tab df)),
    (to_excel_file L df dest); simpl; by repeat constructor.
Qed.

Lemma convert_parses L i o delimiter :
  Forall (parsed_with delimiter) (convert L i o delimiter).1.
Proof.
  unfold convert.
  destruct (is_clipboard i).
  - destruct (decide (Py.strip (paste L) = EmptyString)); [by repeat constructor|].
    destruct (read_csv_text L (paste L) delimiter) as [e|df]; simpl;
      [by repeat constructor|].
    repeat (constructor; [done|]). apply write_output_parses.
  - destruct (read_csv_file L i delimiter) as [e|df]; simpl;
      [by repeat constructor|].
    repeat (constructor; [done|]). apply write_output_parses.
Qed.

Lemma run_parses L i o d :
  Forall (parsed_with (resolve_delimiter d)) (run L [i; o; d]).
Proof.
  unfold run. simpl.
  destruct (decide (String.length (resolve_delimiter d) ≠ 1));
    [by repeat constructor|].
  pose proof (convert_parses L i o (resolve_delimiter d)) as Hconv.
  destruct (convert L i o (resolve_delimiter d)) as [evs [e|]]; simpl in *; [|done].
  apply Forall_app. split; [done|]. destruct e; by repeat constructor.
Qed.

(** C9. With two or three arguments: the symbolic names stand for their
    characters; without a third argument the call is the call with [tab],
    and what it parses it parses with the tab character; a third argument
    resolving to more than one character gives the invalid-delimiter
    message and nothing else, so nothing is read; and whatever is parsed is
    parsed with the resolved delimiter. *)
Theorem delimiter_checked_before_reading (L : libs) (input_source output_dest : string) :
  (resolve_delimiter "tab" = tab ∧ resolve_delimiter "comma" = ","
   ∧ resolve_delimiter "semicolon" = ";" ∧ resolve_delimiter "pipe" = "|"
   ∧ resolve_delimiter "space" = " ")
  ∧ run L [input_source; output_dest] = run L [input_source; output_dest; "tab"]
  ∧ Forall (parsed_with tab) (run L [input_source; output_dest])
  ∧ (∀ d, (1 < String.length (resolve_delimiter d))%nat →
       run L [input_source; output_dest; d]
       = [Print ("❌ Error: Delimiter must be a single character, got "
                 +:+ squote +:+ resolve_delimiter d +:+ squote)]
       ∧ Forall (λ ev, is_read ev = false) (run L [input_source; output_dest; d]))
  ∧ (∀ d, Forall (parsed_with (resolve_delimiter d))
            (run L [input_source; output_dest; d])).
Proof.
  split; [by vm_compute|].
  assert (run L [input_source; output_dest]
          = run L [input_source; output_dest; "tab"]) as Hdefault by done.
  split; [done|]. split.
  { rewrite Hdefault. apply (run_parses L input_source output_dest "tab"). }
  split; [|apply run_parses].
  intros d Hd.
  assert (run L [input_source; output_dest; d]
          = [Print ("❌ Error: Delimiter must be a single character, got "
                    +:+ squote +:+ resolve_delimiter d +:+ squote)]) as ->.
  { unfold run. simpl.
    destruct (decide (String.length (resolve_delimiter d) ≠ 1)); [done|lia]. }
  split; [done|]. by repeat constructor.
Qed.

End CsvFacts.

(** ** The order of titles *)

Lemma ascii_compare_lt_trans a b c :
  Ascii.compare a b = Lt → Ascii.compare b c = Lt → Ascii.compare a c = Lt.
Proof. unfold Ascii.compare. rewrite !N.compare_lt_iff. lia. Qed.

Lemma string_compare_lt_trans s1 s2 s3 :
  String.compare s1 s2 = Lt → String.compare s2 s3 = Lt → String.compare s1 s3 = Lt.
Proof.
  revert s2 s3. induction s1 as [|a s1 IH]; intros [|b s2] [|c s3]; simpl; try done.
  destruct (Ascii.compare a b) eqn:Hab; try done;
    destruct (Ascii.compare b c) eqn:Hbc; try done; intros H12 H23.
  - apply Ascii.compare_eq_iff in Hab as ->. rewrite Hbc. eauto.
  - apply Ascii.compare_eq_iff in Hab as ->. by rewrite Hbc.
  - apply Ascii.compare_eq_iff in Hbc as <-. by rewrite Hab.
  - by rewrite (ascii_compare_lt_trans a b c).
Qed.

Lemma string_leb_trans s1 s2 s3 :
  String.leb s1 s2 = true → String.leb s2 s3 = true → String.leb s1 s3 = true.
Proof.
  unfold String.leb.
  destruct (String.compare s1 s2) eqn:H12; try done;
    destruct (String.compare s2 s3) eqn:H23; try done; intros _ _.
  - apply String.compare_eq_iff in H12 as ->. by rewrite H23.
  - apply String.compare_eq_iff in H12 as ->. by rewrite H23.
  - apply String.compare_eq_iff in H23 as <-. by rewrite H12.
  - by rewrite (string_compare_lt_trans s1 s2 s3).
Qed.

(** ** The registry *)

Section RegistryFacts.
Import Runner.
Context {W : Type} (exec_module : string → load_result W).

#[local] Abbreviation descriptor := (descriptor exec_module).
#[local] Abbreviation diagnostic := (diagnostic exec_module).
#[local] Abbreviation fatal := (fatal exec_module).
#[local] Abbreviation load_file := (load_file exec_module).
#[local] Abbreviation load_snippets := (load_snippets exec_module).

(** One round of the scan, on a file the glob yields. *)
Lemma load_file_spec f st :
  Py.endswith ".py" f.1 = true →
  load_file f st
  = match fatal f with
    | Some e => (st, Raises e)
    | None =>
        (mk_state (snippets st ++ option_list (descriptor f)) (the_world st)
                  (tty st) (out st ++ option_list (diagnostic f)),
         Returns tt)
    end.
Proof.
  intros Hpy. destruct st as [l w keys o].
  unfold load_file, fatal, descriptor, diagnostic, candidate.
  rewrite Hpy.
  destruct (Py.startswith "_" f.1); cbn [andb negb].
  { unfold ret. simpl. by rewrite !app_nil_r. }
  unfold try_except, load_one.
  destruct (exec_module f.2) as [[[t|] [d|] [r|]]|e]; simpl;
    rewrite ?app_nil_r; try done.
  destruct e; simpl; by rewrite ?app_nil_r.
Qed.

Lemma glob_py_cons f files :
  glob_py (f :: files)
  = if Py.endswith ".py" f.1 then f :: glob_py files else glob_py files.
Proof.
  unfold glob_py. rewrite filter_cons.
  destruct (decide (Py.endswith ".py" f.1 = true)) as [->|Hn]; [done|].
  by destruct (Py.endswith ".py" f.1).
Qed.

Lemma not_py_ignored f :
  Py.endswith ".py" f.1 = false →
  descriptor f = None ∧ diagnostic f = None ∧ fatal f = None.
Proof.
  intros Hpy. unfold descriptor, diagnostic, fatal, candidate. by rewrite Hpy.
Qed.

(** The scan of a directory none of whose candidates raises past the
    handler: the descriptors and the diagnostics, in enumeration order. *)
Lemma scan_completes files st :
  Forall (λ f, fatal f = None) files →
  for_each (glob_py files) load_file st
  = (mk_state (snippets st ++ omap descriptor files) (the_world st) (tty st)
              (out st ++ omap diagnostic files),
     Returns tt).
Proof.
  intros Hfiles. revert st.
  induction Hfiles as [|f files Hf _ IH]; intros st.
  - destruct st. simpl. unfold ret. by rewrite !app_nil_r.
  - rewrite glob_py_cons. destruct (Py.endswith ".py" f.1) eqn:Hpy.
    + simpl. unfold mbind, M_bind, bind. rewrite load_file_spec, Hf by done.
      rewrite IH. simpl.
      destruct (descriptor f), (diagnostic f); simpl;
        by rewrite <- ?app_assoc, ?app_nil_r.
    + destruct (not_py_ignored f Hpy) as (Hd & Hg & _).
      rewrite IH. simpl. by rewrite Hd, Hg.
Qed.

(** The scan stops at the first candidate whose load raises past the
    handler. *)
Lemma scan_aborts pre f post e st :
  Forall (λ f, fatal f = None) pre → fatal f = Some e →
  for_each (glob_py (pre ++ f :: post)) load_file st
  = (mk_state (snippets st ++ omap descriptor pre) (the_world st) (tty st)
              (out st ++ omap diagnostic pre),
     Raises e).
Proof.
  intros Hpre Hf. revert st.
  induction Hpre as [|g pre Hg _ IH]; intros st.
  - simpl. rewrite glob_py_cons.
    destruct (Py.endswith ".py" f.1) eqn:Hpy.
    + simpl. unfold mbind, M_bind, bind. rewrite load_file_spec, Hf by done.
      destruct st. simpl. by rewrite !app_nil_r.
    + destruct (not_py_ignored f Hpy) as (_ & _ & Hnone). congruence.
  - simpl. rewrite glob_py_cons. destruct (Py.endswith ".py" g.1) eqn:Hpy.
    + simpl. unfold mbind, M_bind, bind. rewrite load_file_spec, Hg by done.
      rewrite IH. simpl.
      destruct (descriptor g), (diagnostic g); simpl;
        by rewrite <- ?app_assoc, ?app_nil_r.
    + destruct (not_py_ignored g Hpy) as (Hd & Hdg & _).
      rewrite IH. simpl. by rewrite Hd, Hdg.
Qed.

(** [load_snippets] on a directory that exists. *)
Lemma load_snippets_scan files st :
  snippets_dir (the_world st) = Some files →
  Forall (λ f, fatal f = None) files →
  load_snippets st
  = (mk_state (sort_by title String.leb (omap descriptor files)) (the_world st)
              (tty st) (out st ++ omap diagnostic files),
     Returns tt).
Proof.
  intros Hdir Hfiles. unfold load_snippets, mbind, M_bind, bind, get_dir.
  rewrite Hdir. unfold set_snippets at 1. rewrite scan_completes by done.
  done.
Qed.

Lemma load_snippets_abort pre f post e st :
  snippets_dir (the_world st) = Some (pre ++ f :: post) →
  Forall (λ f, fatal f = None) pre → fatal f = Some e →
  load_snippets st
  = (mk_state (omap descriptor pre) (the_world st) (tty st)
              (out st ++ omap diagnostic pre),
     Raises e).
Proof.
  intros Hdir Hpre Hf. unfold load_snippets, mbind, M_bind, bind, get_dir.
  rewrite Hdir. unfold set_snippets at 1.
  by rewrite (scan_aborts pre f post e) by done.
Qed.

(** [load_snippets] when the directory does not exist. *)
Lemma load_snippets_missing st :
  snippets_dir (the_world st) = None →
  load_snippets st
  = (mk_state (snippets st) (mk_world (Some []) (ext (the_world st))) (tty st)
              (out st ++ [Print "Creating snippets directory: snippets"]),
     Returns tt).
Proof.
  intros Hdir. unfold load_snippets, mbind, M_bind, bind, get_dir.
  by rewrite Hdir.
Qed.

(** A module that lacks an attribute leaves no trace of its round. *)
Lemma incomplete_ignored f m :
  exec_module f.2 = Loaded m →
  attr_TITLE m = None ∨ attr_DESCRIPTION m = None ∨ attr_run m = None →
  descriptor f = None ∧ diagnostic f = None ∧ fatal f = None.
Proof.
  intros Hm Hlack. unfold descriptor, diagnostic, fatal. rewrite Hm.
  destruct (candidate f); [|done].
  destruct m as [[t|] [d|] [r|]]; simpl in Hlack; try done.
  by destruct Hlack as [?|[?|?]].
Qed.

Lemma complete_descriptor f t d r :
  candidate f = true →
  exec_module f.2 = Loaded (mk_module (Some t) (Some d) (Some r)) →
  descriptor f = Some (mk_snippet (stem f.1) t d r)
  ∧ diagnostic f = None ∧ fatal f = None.
Proof.
  intros Hc Hm. unfold descriptor, diagnostic, fatal. by rewrite Hc, Hm.
Qed.

Lemma failing_diagnostic f cls msg :
  candidate f = true →
  exec_module f.2 = LoadRaises (Exception cls msg) →
  descriptor f = None
  ∧ diagnostic f = Some (Print ("Error loading " +:+ f.1 +:+ ": " +:+ msg))
  ∧ fatal f = None.
Proof.
  intros Hc Hm. unfold descriptor, diagnostic, fatal. by rewrite Hc, Hm.
Qed.

Lemma candidate_py f : candidate f = true → Py.endswith ".py" f.1 = true.
Proof. unfold candidate. by intros [? _]%andb_prop. Qed.

Lemma no_fatal_insert pre f post :
  Forall (λ g, fatal g = None) (pre ++ post) → fatal f = None →
  Forall (λ g, fatal g = None) (pre ++ f :: post).
Proof.
  rewrite !Forall_app. intros [Hpre Hpost] Hf. split; [done|]. by constructor.
Qed.

(** C2. A scan that comes to its end puts in the catalog every candidate
    that has the three attributes, and nothing else.  A file that loads but
    lacks [TITLE], [DESCRIPTION] or [run] is passed over: its round of the
    scan leaves the state as it is, so the catalog and the output of the
    scan are those the other files give.  With a single well-formed other
    file the catalog is that one entry and nothing is printed. *)
Theorem incomplete_module_excluded (st : state W) (files : list (string * string)) :
  snippets_dir (the_world st) = Some files →
  Forall (λ g, fatal g = None) files →
  ∃ st', load_snippets st = (st', Returns tt)
    ∧ (∀ g t d r,
         g ∈ files → candidate g = true →
         exec_module g.2 = Loaded (mk_module (Some t) (Some d) (Some r)) →
         mk_snippet (stem g.1) t d r ∈ snippets st')
    ∧ (∀ s, s ∈ snippets st' →
         ∃ g, g ∈ files ∧ candidate g = true ∧ name s = stem g.1
              ∧ exec_module g.2
                = Loaded (mk_module (Some (title s)) (Some (description s))
                            (Some (run_entry s))))
    ∧ (∀ pre f post m,
         files = pre ++ f :: post → exec_module f.2 = Loaded m →
         attr_TITLE m = None ∨ attr_DESCRIPTION m = None ∨ attr_run m = None →
         (∀ s, load_file f s = (s, Returns tt))
         ∧ snippets st' = sort_by title String.leb (omap descriptor (pre ++ post))
         ∧ out st' = out st ++ omap diagnostic (pre ++ post)
         ∧ (∀ g t d r,
              pre ++ post = [g] → candidate g = true →
              exec_module g.2 = Loaded (mk_module (Some t) (Some d) (Some r)) →
              snippets st' = [mk_snippet (stem g.1) t d r] ∧ out st' = out st)).
Proof.
  intros Hdir Hfiles. eexists. split; [by apply load_snippets_scan|]. simpl.
  split; [|split].
  - intros g t d r Hin Hc Hgm.
    destruct (complete_descriptor g t d r Hc Hgm) as (Hdesc & _).
    rewrite sort_by_perm. apply list_elem_of_omap. eauto.
  - intros s. rewrite sort_by_perm.
    intros (g & Hin & Hdesc)%list_elem_of_omap. exists g. split; [done|].
    unfold descriptor in Hdesc. destruct (candidate g); [|done].
    destruct (exec_module g.2) as [[[t|] [d|] [r|]]|e]; try done.
    by injection Hdesc as <-.
  - intros pre f post m -> Hm Hlack.
    destruct (incomplete_ignored f m Hm Hlack) as (Hd & Hg & Hf). split.
    { intros s. unfold load_file, load_one, try_except. rewrite Hm.
      destruct (Py.startswith "_" f.1); [done|].
      destruct m as [[t|] [d|] [r|]]; simpl in Hlack; try done.
      by destruct Hlack as [?|[?|?]]. }
    rewrite !omap_app. simpl. rewrite Hd, Hg.
    split; [done|]. split; [done|].
    intros g t d r Hone Hc Hgm.
    destruct (complete_descriptor g t d r Hc Hgm) as (Hdesc & Hdiag & _).
    rewrite <- !omap_app, Hone. simpl. rewrite Hdesc, Hdiag. simpl.
    by rewrite app_nil_r.
Qed.

(** C3, for the exceptions the handler catches.  A candidate whose load
    raises an instance of [Exception] is passed over after one printed line
    that names the file and the error; the scan goes on and returns, with
    the catalog the other files give and their diagnostics around that line.
    With a single well-formed other file the catalog is that one entry. *)
Theorem failing_load_reported (st : state W) (pre post : list (string * string))
    (f : string * string) (cls msg : string) :
  snippets_dir (the_world st) = Some (pre ++ f :: post) →
  Forall (λ g, fatal g = None) (pre ++ post) →
  candidate f = true →
  exec_module f.2 = LoadRaises (Exception cls msg) →
  let line := Print ("Error loading " +:+ f.1 +:+ ": " +:+ msg) in
  (∀ s, load_file f s
        = (mk_state (snippets s) (the_world s) (tty s) (out s ++ [line]),
           Returns tt))
  ∧ ∃ st', load_snippets st = (st', Returns tt)
      ∧ snippets st' = sort_by title String.leb (omap descriptor (pre ++ post))
      ∧ out st' = out st ++ omap diagnostic pre ++ [line] ++ omap diagnostic post
      ∧ (∀ g t d r,
           pre ++ post = [g] → candidate g = true →
           exec_module g.2 = Loaded (mk_module (Some t) (Some d) (Some r)) →
           snippets st' = [mk_snippet (stem g.1) t d r]
           ∧ out st' = out st ++ [line]).
Proof.
  intros Hdir Hothers Hc Hraise line.
  destruct (failing_diagnostic f cls msg Hc Hraise) as (Hd & Hg & Hf). split.
  { intros s. rewrite load_file_spec, Hf, Hd, Hg by by apply candidate_py.
    simpl. by rewrite app_nil_r. }
  eexists. split.
  { apply load_snippets_scan; [done|]. by apply no_fatal_insert. }
  simpl. rewrite !omap_app. simpl. rewrite Hd, Hg.
  split; [done|]. split; [done|].
  intros g t d r Hone Hgc Hgm.
  destruct (complete_descriptor g t d r Hgc Hgm) as (Hdesc & Hdiag & _).
  rewrite <- omap_app, Hone. simpl. rewrite Hdesc. split; [done|].
  f_equal. destruct pre as [|g' pre].
  - simpl in Hone. subst post. simpl. by rewrite Hdiag.
  - injection Hone as -> Hnil. apply app_eq_nil in Hnil as [-> ->].
    simpl. by rewrite Hdiag.
Qed.

Lemma StronglySorted_lookup_lt {A} (R : relation A) l i j a b :
  StronglySorted R l → (i < j)%nat → l !! i = Some a → l !! j = Some b → R a b.
Proof.
  intros Hl. revert i j. induction Hl as [|x l Hl IH Hx]; intros i j Hij Hi Hj.
  - done.
  - destruct j as [|j]; [lia|]. simpl in Hj. destruct i as [|i].
    + injection Hi as ->. rewrite Forall_forall in Hx.
      apply Hx. by eapply list_elem_of_lookup_2.
    + simpl in Hi. apply (IH i j); [lia|done|done].
Qed.

Lemma title_sort_sorted (l : list (snippet W)) :
  StronglySorted (key_le title String.leb) (sort_by title String.leb l).
Proof.
  apply sort_by_sorted; [apply String.leb_total|apply string_leb_trans].
Qed.

(** Two enumerations of the same files give the same sequence of titles. *)
Lemma sorted_titles_unique (l1 l2 : list (snippet W)) :
  l1 ≡ₚ l2 →
  title <$> sort_by title String.leb l1 = title <$> sort_by title String.leb l2.
Proof.
  intros Hperm.
  apply (StronglySorted_unique_strong (λ s t, String.leb s t = true)).
  - intros s t _ _. apply String.leb_antisym.
  - apply (StronglySorted_fmap _ (key_le title String.leb)); [done|].
    apply title_sort_sorted.
  - apply (StronglySorted_fmap _ (key_le title String.leb)); [done|].
    apply title_sort_sorted.
  - by rewrite !sort_by_perm, Hperm.
Qed.

(** C4. A load that scans the directory leaves the catalog sorted by title:
    of two entries with different titles the one with the smaller title
    comes first, whatever the order of enumeration, which cannot change the
    sequence of titles at all; and the entries that share a title are all
    there, in the order in which their files were enumerated
    ([omap descriptor files] is the entries in that order).  A load that
    finds no directory leaves a sorted catalog sorted. *)
Theorem catalog_sorted_by_title (st : state W) :
  (∀ files,
     snippets_dir (the_world st) = Some files →
     Forall (λ f, fatal f = None) files →
     ∃ st', load_snippets st = (st', Returns tt)
       ∧ StronglySorted (key_le title String.leb) (snippets st')
       ∧ (∀ i j a b,
            snippets st' !! i = Some a → snippets st' !! j = Some b →
            title a ≠ title b → String.leb (title a) (title b) = true →
            (i < j)%nat)
       ∧ (∀ t, filter (λ s, title s = t) (snippets st')
               = filter (λ s, title s = t) (omap descriptor files))
       ∧ (∀ files2, files2 ≡ₚ files →
            ∃ st2',
              load_snippets
                (mk_state (snippets st)
                   (mk_world (Some files2) (ext (the_world st))) (tty st) (out st))
              = (st2', Returns tt)
              ∧ title <$> snippets st2' = title <$> snippets st'))
  ∧ (snippets_dir (the_world st) = None →
     StronglySorted (key_le title String.leb) (snippets st) →
     ∃ st', load_snippets st = (st', Returns tt)
       ∧ StronglySorted (key_le title String.leb) (snippets st')).
Proof.
  split.
  - intros files Hdir Hfiles. eexists. split; [by apply load_snippets_scan|].
    simpl. split; [apply title_sort_sorted|]. split; [|split].
    + intros i j a b Hi Hj Hne Hle.
      destruct (decide (i < j)%nat) as [|Hge]; [done|]. exfalso.
      destruct (decide (i = j)) as [->|Hij]; [congruence|].
      assert (key_le title String.leb b a) as Hba.
      { eapply (StronglySorted_lookup_lt _ _ j i);
          [apply title_sort_sorted|lia|done|done]. }
      apply Hne. by apply String.leb_antisym.
    + intros t. apply sort_by_stable. apply String.leb_total.
    + intros files2 Hperm. eexists. split.
      { apply load_snippets_scan; [done|]. by rewrite Hperm. }
      simpl. apply sorted_titles_unique. by rewrite Hperm.
  - intros Hdir Hsorted. eexists. split; [by apply load_snippets_missing|done].
Qed.

End RegistryFacts.

(** ** The dispatch loop *)

Section DispatchFacts.
Import Runner.
Context {W : Type}.

(** C1, for the exceptions the handler at the call catches.  The operator
    types a command that is neither empty nor a way back, and the entry
    point raises an instance of [Exception].  The round prints the message
    of the exception and goes on to the prompt that follows every dispatch:
    [st1] is the state at that prompt.  What the operator answers there
    decides how the round ends, as after a call that returned; the loop then
    goes back to the menu, ends the session, or reads the next command. *)
Theorem dispatch_error_isolated (fuel : nat) (snip : snippet W) (st : state W)
    (line : string) (rest : list key) (cls msg : string) :
  tty st = Line line :: rest →
  let command := Py.strip line in
  Py.lower command ∉ ["back"; "b"; "exit"] →
  command ≠ EmptyString →
  let r := run_entry snip (Py.split command) (the_world st) rest in
  e_raised r = Some (Exception cls msg) →
  let st1 :=
    mk_state (snippets st) (e_world r) (drop (e_read r) rest)
      (out st ++ [Prompt "Enter command (or 'back' to return): "] ++ e_out r
       ++ [Print (nl +:+ "❌ Error: " +:+ msg)]) in
  let st2 :=
    mk_state (snippets st1) (the_world st1) (tail (tty st1))
      (out st1 ++ [Print (nl +:+ Py.repeat_char "-" 60);
                   Prompt (nl +:+ "What next? (r)un again, (b)ack to menu, (q)uit: ")]) in
  match tty st1 with
  | Line answer :: _ =>
      let next_action := Py.lower (Py.strip answer) in
      if bool_decide (next_action ∈ ["b"; "back"; "m"; "menu"]) then
        command_round snip st = (st2, Returns Break)
        ∧ command_loop (S fuel) snip st = (st2, Returns true)
      else if bool_decide (next_action ∈ ["q"; "quit"; "exit"]) then
        command_round snip st = (st2, Returns (Return false))
        ∧ command_loop (S fuel) snip st = (st2, Returns false)
      else
        command_round snip st = (st2, Returns Continue)
        ∧ command_loop (S fuel) snip st = command_loop fuel snip st2
  | CtrlC :: _ =>
      let st3 := mk_state (snippets st2) (the_world st2) (tty st2)
                   (out st2 ++ [Print nl]) in
      command_round snip st = (st3, Returns Break)
      ∧ command_loop (S fuel) snip st = (st3, Returns true)
  | [] =>
      command_round snip st = (st2, Raises EOFError)
      ∧ command_loop (S fuel) snip st = (st2, Raises EOFError)
  end.
Proof.
  intros Htty command Hback Hempty r Hraise st1 st2.
  assert (command_round snip st
          = try_except what_next is_KeyboardInterrupt
              (λ _, print nl;; ret Break) st1) as Hround.
  { unfold command_round, try_except at 1, mbind, M_bind, bind at 1, input.
    rewrite Htty. fold command.
    rewrite bool_decide_false by done.
    destruct (decide (command = EmptyString)) as [?|_]; [done|].
    unfold bind at 1, try_except at 2, dispatch. simpl.
    unfold try_except at 1. simpl. fold r. rewrite Hraise. simpl.
    unfold print, emit. simpl.
    subst st1. by rewrite <- !app_assoc. }
  assert (command_loop (S fuel) snip st
          = match command_round snip st with
            | (s, Returns Break) => (s, Returns true)
            | (s, Returns (Return b)) => (s, Returns b)
            | (s, Returns Continue) => command_loop fuel snip s
            | (s, Raises e) => (s, Raises e)
            | (s, Unfinished) => (s, Unfinished)
            end) as Hloop.
  { simpl. unfold mbind, M_bind, bind.
    by destruct (command_round snip st) as [s [[| |b]|e|]]. }
  rewrite Hloop, Hround. clear Hloop Hround.
  subst st2 st1. cbn [tty the_world out snippets].
  unfold try_except, what_next, mbind, M_bind, bind, print, emit, input, ret.
  cbn [tty the_world out snippets].
  destruct (drop (e_read r) rest) as [|[answer|] keys]; simpl;
    rewrite <- ?app_assoc; simpl; [done| |done].
  repeat case_bool_decide; done.
Qed.

(** The fuel of the loop is no restriction: a round that asks for another
    round has read from the terminal, so more fuel than there are terminal
    events lets the loop come to its end. *)
Lemma command_round_progress (snip : snippet W) (st : state W) :
  match command_round snip st with
  | (st', Returns Continue) => (length (tty st') < length (tty st))%nat
  | (_, Unfinished) => False
  | _ => True
  end.
Proof.
  unfold command_round, try_except at 1, mbind, M_bind, bind at 1, input.
  destruct (tty st) as [|[line|] rest] eqn:Htty; simpl; try done.
  case_bool_decide; [done|].
  destruct (decide (Py.strip line = EmptyString)); simpl; [lia|].
  unfold bind at 1, try_except at 1, dispatch. simpl.
  set (r := run_entry snip (Py.split (Py.strip line)) (the_world st) rest).
  assert (length (drop (e_read r) rest) ≤ length rest)%nat as Hdrop.
  { rewrite length_drop. lia. }
  destruct (e_raised r) as [[cls msg| | | |]|]; simpl; try done;
    unfold what_next, mbind, M_bind, bind, print, emit, input, ret; simpl;
    (destruct (drop (e_read r) rest) as [|[answer|] keys]; simpl; [done| |done]);
    repeat case_bool_decide; simpl; try done; simpl in Hdrop; lia.
Qed.

Lemma command_loop_finishes (fuel : nat) (snip : snippet W) (st : state W) :
  (length (tty st) < fuel)%nat → (command_loop fuel snip st).2 ≠ Unfinished.
Proof.
  revert st. induction fuel as [|fuel IH]; intros st Hfuel; [lia|].
  simpl. unfold mbind, M_bind, bind.
  pose proof (command_round_progress snip st) as Hround.
  destruct (command_round snip st) as [st' [[| |b]|e|]]; simpl; try done.
  apply IH. lia.
Qed.

End DispatchFacts.

(** ** The fuel of the session *)

Section Termination.
Import Runner.
Context {W : Type} (exec_module : string → load_result W).

Lemma tame_ret {A} (a : A) : tame (W:=W) (ret a).
Proof. intros st. by split. Qed.

Lemma tame_raise {A} (e : exn) : tame (W:=W) (raise (A:=A) e).
Proof. intros st. by split. Qed.

Lemma tame_bind {A B} (m : M W A) (k : A → M W B) :
  tame m → (∀ a, tame (k a)) → tame (bind m k).
Proof.
  intros Hm Hk st. unfold bind. destruct (Hm st) as [Hfin Hlen].
  destruct (m st) as [st' [a|e|]]; simpl in *; [|done|done].
  destruct (Hk a st') as [Hfin' Hlen']. split; [done|lia].
Qed.

Lemma tame_try_except {A} (m : M W A) handles h :
  tame m → (∀ e, tame (h e)) → tame (try_except m handles h).
Proof.
  intros Hm Hh st. unfold try_except. destruct (Hm st) as [Hfin Hlen].
  destruct (m st) as [st' [a|e|]]; simpl in *; [done| |done].
  destruct (handles e); [|done].
  destruct (Hh e st') as [Hfin' Hlen']. split; [done|lia].
Qed.

Lemma tame_print s : tame (print (W:=W) s).
Proof. intros st. by split. Qed.

Lemma tame_for_each {X} (l : list X) (body : X → M W unit) :
  (∀ x, tame (body x)) → tame (for_each l body).
Proof.
  intros Hbody. induction l as [|x l IH]; simpl; [apply tame_ret|].
  apply tame_bind; [done|]. by intros _.
Qed.

Lemma tame_load_snippets : tame (load_snippets exec_module).
Proof.
  unfold load_snippets. apply tame_bind; [by intros st|]. intros [files|].
  - apply tame_bind; [by intros st|]. intros _.
    apply tame_bind.
    + apply tame_for_each. intros f. unfold load_file.
      destruct (Py.startswith "_" f.1); [apply tame_ret|].
      apply tame_try_except; [|intros e; apply tame_print].
      unfold load_one. destruct (exec_module f.2) as [m|e]; [|apply tame_raise].
      destruct (attr_TITLE m), (attr_DESCRIPTION m), (attr_run m);
        by intros st.
    + intros _. apply tame_bind; [by intros st|]. by intros l st.
  - apply tame_bind; [apply tame_print|]. by intros _ st.
Qed.

Lemma tame_show_menu : tame (show_menu (W:=W)).
Proof.
  unfold show_menu.
  repeat (apply tame_bind; [apply tame_print|intros _]).
  apply tame_bind; [by intros st|]. intros [|snip l].
  - repeat (apply tame_bind; [apply tame_print|intros _]). apply tame_ret.
  - apply tame_bind; [apply tame_print|intros _].
    apply tame_bind; [apply tame_for_each; intros x; apply tame_print|intros _].
    repeat (apply tame_bind; [apply tame_print|intros _]). apply tame_ret.
Qed.

(** A round of [get_choice] that asks for another round, or that chooses a
    snippet, has read a line. *)
Lemma get_choice_round_progress (st : state W) :
  (get_choice_round st).2 ≠ Unfinished
  ∧ (length (tty (get_choice_round st).1) ≤ length (tty st))%nat
  ∧ ((get_choice_round st).2 ≠ Returns (Some None) →
     (get_choice_round st).2 ≠ Raises EOFError →
     (length (tty (get_choice_round st).1) < length (tty st))%nat).
Proof.
  unfold get_choice_round, try_except, mbind, M_bind, bind, input.
  destruct (tty st) as [|[line|] rest]; simpl;
    [repeat split; (done || lia)| |repeat split; (done || lia)].
  destruct (Py.int (Py.strip line)) as [n|]; simpl.
  - unfold get_snippets. simpl.
    destruct (decide (n = 0)%Z); simpl; [repeat split; (done || lia)|].
    destruct (decide (1 ≤ n ∧ n ≤ Z.of_nat (length (snippets st)))%Z); simpl;
      repeat split; (done || lia).
  - repeat split; (done || lia).
Qed.

Lemma get_choice_finishes (fuel : nat) (st : state W) :
  (length (tty st) < fuel)%nat →
  (get_choice fuel st).2 ≠ Unfinished
  ∧ (length (tty (get_choice fuel st).1) ≤ length (tty st))%nat
  ∧ (∀ idx, (get_choice fuel st).2 = Returns (Some idx) →
     (length (tty (get_choice fuel st).1) < length (tty st))%nat).
Proof.
  revert st. induction fuel as [|fuel IH]; intros st Hfuel; [lia|].
  simpl. unfold mbind, M_bind, bind.
  destruct (get_choice_round_progress st) as (Hfin & Hle & Hlt).
  destruct (get_choice_round st) as [st' [[c|]|e|]] eqn:Hround; simpl in *;
    try done.
  - split; [done|]. split; [done|]. intros idx [= ->].
    apply Hlt; congruence.
  - assert (length (tty st') < length (tty st))%nat as Hdec.
    { apply Hlt; congruence. }
    destruct (IH st') as (Hfin' & Hle' & Hlt'); [lia|].
    split; [done|]. split; [lia|]. intros idx Hidx.
    specialize (Hlt' idx Hidx). lia.
Qed.

Lemma command_round_keys (snip : snippet W) (st : state W) :
  (length (tty (command_round snip st).1) ≤ length (tty st))%nat.
Proof.
  unfold command_round, try_except at 1, mbind, M_bind, bind at 1, input.
  destruct (tty st) as [|[line|] rest]; simpl; [lia| |lia].
  case_bool_decide; [simpl; lia|].
  destruct (decide (Py.strip line = EmptyString)); simpl; [lia|].
  unfold bind at 1, try_except at 1, dispatch. simpl.
  set (r := run_entry snip (Py.split (Py.strip line)) (the_world st) rest).
  assert (length (drop (e_read r) rest) ≤ length rest)%nat as Hdrop.
  { rewrite length_drop. lia. }
  destruct (e_raised r) as [[cls msg| | | |]|]; simpl; try lia;
    unfold what_next, mbind, M_bind, bind, print, emit, input, ret; simpl;
    (destruct (drop (e_read r) rest) as [|[answer|] keys]; simpl; [lia| |simpl in Hdrop; lia]);
    repeat case_bool_decide; simpl; simpl in Hdrop; lia.
Qed.

Lemma command_loop_keys (fuel : nat) (snip : snippet W) (st : state W) :
  (length (tty (command_loop fuel snip st).1) ≤ length (tty st))%nat.
Proof.
  revert st. induction fuel as [|fuel IH]; intros st; [done|].
  simpl. unfold mbind, M_bind, bind.
  pose proof (command_round_keys snip st) as Hle.
  destruct (command_round snip st) as [st' [[| |b]|e|]]; simpl in *; try done.
  specialize (IH st'). lia.
Qed.

Lemma run_snippet_finishes (fuel idx : nat) (st : state W) :
  (length (tty st) < fuel)%nat →
  (run_snippet fuel idx st).2 ≠ Unfinished
  ∧ (length (tty (run_snippet fuel idx st).1) ≤ length (tty st))%nat.
Proof.
  intros Hfuel. unfold run_snippet, mbind, M_bind, bind, get_snippets.
  destruct (snippets st !! idx) as [snip|]; [|done].
  unfold print, emit. simpl.
  match goal with |- context [command_loop fuel snip ?s] => set (st0 := s) end.
  split.
  - by apply command_loop_finishes.
  - apply (command_loop_keys fuel snip st0).
Qed.

(** More fuel than there are terminal events brings the session to its end:
    every pass through the menu that goes on reads a choice. *)
Lemma run_loop_finishes (fuel : nat) (st : state W) :
  (length (tty st) < fuel)%nat → (run_loop exec_module fuel st).2 ≠ Unfinished.
Proof.
  revert st. induction fuel as [|fuel IH]; intros st Hfuel; [lia|].
  cbn [run_loop]. unfold mbind, M_bind. unfold bind at 1.
  destruct (tame_load_snippets st) as [Hfin1 Hle1].
  destruct (load_snippets exec_module st) as [st1 [[]|e|]]; cbn [fst snd] in *;
    [|done|done].
  unfold bind at 1.
  destruct (tame_show_menu st1) as [Hfin2 Hle2].
  destruct (show_menu st1) as [st2 [shown|e|]]; cbn [fst snd] in *;
    [|done|done].
  destruct shown; cbn [negb]; [|done].
  unfold bind at 1.
  destruct (get_choice_finishes (S fuel) st2) as (Hfin3 & Hle3 & Hlt3); [lia|].
  destruct (get_choice (S fuel) st2) as [st3 [[idx|]|e|]]; cbn [fst snd] in *;
    [|done|done|done].
  specialize (Hlt3 idx eq_refl).
  unfold bind at 1.
  destruct (run_snippet_finishes (S fuel) idx st3) as [Hfin4 Hle4]; [lia|].
  destruct (run_snippet (S fuel) idx st3) as [st4 [again|e|]]; cbn [fst snd] in *;
    [|done|done].
  destruct again; cbn [negb]; [|done].
  apply IH. lia.
Qed.

Lemma main_finishes (fuel : nat) (w : world W) (keys : list key) :
  (length keys < fuel)%nat → (main exec_module fuel w keys).2 ≠ Unfinished.
Proof.
  intros Hfuel. unfold main, run, mbind, M_bind, bind, print, emit. simpl.
  by apply run_loop_finishes.
Qed.

End Termination.

(** ** The properties on the sample files *)

Section Samples.
Import Runner.

Lemma incomplete_module_excluded_witness :
  let files := [("a.py", "apple"); ("n.py", "no run")] in
  let st := mk_state [] (Sample.dir files) [] [] in
  snippets_dir (the_world st) = Some files
  ∧ Forall (λ g, fatal Sample.exec_module g = None) files
  ∧ Sample.exec_module "no run"
    = Loaded (mk_module (Some "No entry") (Some "Lacks run.") None)
  ∧ ∃ st', load_snippets Sample.exec_module st = (st', Returns tt)
      ∧ snippets st'
        = [mk_snippet "a" "Apple Tool" "Prints ok." (Sample.returning "ok")]
      ∧ out st' = [].
Proof.
  intros files st.
  assert (Forall (λ g, fatal Sample.exec_module g = None) files) as Hfiles.
  { by repeat constructor. }
  split; [reflexivity|]. split; [exact Hfiles|]. split; [reflexivity|].
  destruct (incomplete_module_excluded Sample.exec_module st files
              eq_refl Hfiles)
    as (st' & Hload & _ & _ & Hskip).
  destruct (Hskip [("a.py", "apple")] ("n.py", "no run") [] _
              eq_refl eq_refl (or_intror (or_intror eq_refl)))
    as (_ & _ & _ & Hone).
  exists st'. split; [exact Hload|].
  exact (Hone ("a.py", "apple") _ _ _ eq_refl eq_refl eq_refl).
Defined.

Lemma failing_load_reported_witness :
  let st := mk_state [] (Sample.dir [("bad.py", "def"); ("a.py", "apple")]) [] [] in
  Forall (λ g, fatal Sample.exec_module g = None) ([] ++ [("a.py", "apple")])
  ∧ candidate ("bad.py", "def") = true
  ∧ Sample.exec_module "def" = LoadRaises (Exception "SyntaxError" "invalid syntax")
  ∧ ∃ st', load_snippets Sample.exec_module st = (st', Returns tt)
      ∧ snippets st'
        = [mk_snippet "a" "Apple Tool" "Prints ok." (Sample.returning "ok")]
      ∧ out st' = [Print "Error loading bad.py: invalid syntax"].
Proof.
  intros st.
  assert (Forall (λ g, fatal Sample.exec_module g = None)
            ([] ++ [("a.py", "apple")])) as Hothers.
  { by repeat constructor. }
  split; [exact Hothers|]. split; [reflexivity|]. split; [reflexivity|].
  destruct (failing_load_reported Sample.exec_module st
              [] [("a.py", "apple")] ("bad.py", "def") _ _
              eq_refl Hothers eq_refl eq_refl)
    as (_ & st' & Hload & _ & _ & Hone).
  exists st'. split; [exact Hload|].
  exact (Hone ("a.py", "apple") _ _ _ eq_refl eq_refl eq_refl).
Defined.

(** C3 as stated fails on an exception that is no [Exception]: a file whose
    module-level code calls [sys.exit] ends the scan and the process, and no
    diagnostic is printed. *)
Lemma failing_load_can_end_host :
  let w := Sample.dir [("s.py", "exit at import"); ("a.py", "apple")] in
  candidate ("s.py", "exit at import") = true
  ∧ Sample.exec_module "exit at import" = LoadRaises (SystemExit "1")
  ∧ load_snippets Sample.exec_module (mk_state [] w [] [])
    = (mk_state [] w [] [], Raises (SystemExit "1"))
  ∧ main Sample.exec_module 3 w [Line "1"; Line "go"; Line "q"]
    = (mk_state [] w [Line "1"; Line "go"; Line "q"]
         [Print (nl +:+ "Welcome to Snippet Runner!")],
       Raises (SystemExit "1")).
Proof. by vm_compute. Qed.

Lemma catalog_sorted_by_title_witness :
  let files := [("z.py", "zebra"); ("a.py", "apple")] in
  let st := mk_state [] (Sample.dir files) [] [] in
  snippets_dir (the_world st) = Some files
  ∧ Forall (λ f, fatal Sample.exec_module f = None) files
  ∧ ∃ st', load_snippets Sample.exec_module st = (st', Returns tt)
      ∧ StronglySorted (key_le title String.leb) (snippets st').
Proof.
  intros files st.
  assert (Forall (λ f, fatal Sample.exec_module f = None) files) as Hfiles.
  { by repeat constructor. }
  split; [reflexivity|]. split; [exact Hfiles|].
  destruct (catalog_sorted_by_title Sample.exec_module st) as [Hscan _].
  destruct (Hscan files eq_refl Hfiles) as (st' & Hload & Hsorted & _).
  exists st'. by split.
Defined.

(** The titles of the specification, in both orders of enumeration. *)
Example apple_before_zebra :
  title <$> snippets
    (load_snippets Sample.exec_module
       (mk_state [] (Sample.dir [("z.py", "zebra"); ("a.py", "apple")]) [] [])).1
  = ["Apple Tool"; "Zebra Tool"]
  ∧ title <$> snippets
      (load_snippets Sample.exec_module
         (mk_state [] (Sample.dir [("a.py", "apple"); ("z.py", "zebra")]) [] [])).1
    = ["Apple Tool"; "Zebra Tool"].
Proof. by vm_compute. Qed.

(** C5 fails on the code: the early return for a missing directory comes
    before the catalog is reset.  A load that finds no directory creates it
    and keeps the catalog of the load before. *)
Lemma load_missing_dir_keeps_catalog :
  let apple := mk_snippet "a" "Apple Tool" "Prints ok." (Sample.returning "ok") in
  load_snippets Sample.exec_module (mk_state [apple] (mk_world None tt) [] [])
  = (mk_state [apple] (mk_world (Some []) tt) []
       [Print "Creating snippets directory: snippets"],
     Returns tt).
Proof. reflexivity. Qed.

(** The same within a session: the one snippet removes the directory, the
    operator goes back to the menu, and the menu offers the snippet again
    although the directory, created anew, is empty. *)
Lemma session_with_stale_catalog :
  let r := main Sample.exec_module 4 (Sample.dir [("c.py", "rmtree")])
             [Line "1"; Line "go"; Line "b"; Line "0"] in
  r.2 = Returns tt
  ∧ snippets_dir (the_world r.1) = Some []
  ∧ title <$> snippets r.1 = ["Cleaner"]
  ∧ filter (λ o, o = Print "  1. Cleaner") (out r.1)
    = [Print "  1. Cleaner"; Print "  1. Cleaner"].
Proof. by vm_compute. Qed.

Lemma dispatch_error_isolated_witness :
  let snip := mk_snippet "f" "Failing Tool" "Raises ValueError."
                (Sample.raising (Exception "ValueError" "bad value")) in
  let st := mk_state [snip] (Sample.dir []) [Line "go now"; Line "b"] [] in
  (Py.lower (Py.strip "go now") ∉ ["back"; "b"; "exit"])
  ∧ Py.strip "go now" ≠ EmptyString
  ∧ command_loop 1 snip st
    = (mk_state [snip] (Sample.dir []) []
         [Prompt "Enter command (or 'back' to return): ";
          Print (nl +:+ "❌ Error: bad value");
          Print (nl +:+ Py.repeat_char "-" 60);
          Prompt (nl +:+ "What next? (r)un again, (b)ack to menu, (q)uit: ")],
       Returns true).
Proof.
  intros snip st.
  assert (Py.lower (Py.strip "go now") ∉ ["back"; "b"; "exit"]) as Hback.
  { apply (bool_decide_unpack _). by vm_compute. }
  assert (Py.strip "go now" ≠ EmptyString) as Hempty by discriminate.
  split; [exact Hback|]. split; [exact Hempty|].
  exact (proj2 (dispatch_error_isolated 0 snip st "go now" [Line "b"]
                  "ValueError" "bad value" eq_refl Hback Hempty eq_refl)).
Defined.

(** C1 as stated fails on an exception that is no [Exception]: an entry
    point that calls [sys.exit] ends the process.  Nothing is printed after
    the command prompt and the answer typed next is never read. *)
Lemma snippet_exit_ends_host :
  let r := main Sample.exec_module 3 (Sample.dir [("s.py", "sys.exit")])
             [Line "1"; Line "go"; Line "q"] in
  r.2 = Raises (SystemExit "1")
  ∧ tty r.1 = [Line "q"]
  ∧ last (out r.1) = Some (Prompt "Enter command (or 'back' to return): ").
Proof. by vm_compute. Qed.

End Samples.

Section CsvSample.
Import Csv.

Lemma delimiter_checked_before_reading_witness :
  let quoted_x := dquote +:+ "x" +:+ dquote in
  (1 < String.length (resolve_delimiter quoted_x))%nat
  ∧ run Sample.no_libs ["data.csv"; "out.xlsx"; quoted_x]
    = [Print ("❌ Error: Delimiter must be a single character, got "
              +:+ squote +:+ quoted_x +:+ squote)].
Proof.
  intros quoted_x.
  assert (1 < String.length (resolve_delimiter quoted_x))%nat as Hlong.
  { vm_compute. lia. }
  split; [exact Hlong|].
  destruct (delimiter_checked_before_reading Sample.no_libs "data.csv" "out.xlsx")
    as (_ & _ & _ & Hinvalid & _).
  exact (proj1 (Hinvalid quoted_x Hlong)).
Defined.

End CsvSample.

(** * Further properties *)

(** ** Numbers printed and read back *)

Section PrintedNumbers.

Lemma pretty_go_digits x s :
  Py.all_digits (pretty_N_go x s) = Py.all_digits s.
Proof.
  revert s. induction (N.lt_wf_0 x) as [x _ IH]; intros s.
  destruct (decide (x = 0)%N) as [->|Hx]; [by rewrite pretty_N_go_0|].
  rewrite pretty_N_go_step by lia. rewrite IH by (apply N.div_lt; lia).
  simpl. replace (Py.is_digit_char (pretty_N_char (x `mod` 10))) with true; [done|].
  unfold pretty_N_char. by repeat case_match.
Qed.

Lemma pretty_char_val x :
  (x < 10)%N → Py.is_digit_char (pretty_N_char x) = true
              ∧ Py.digit_val (pretty_N_char x) = Z.of_N x.
Proof.
  intros Hx.
  assert (x = 0 ∨ x = 1 ∨ x = 2 ∨ x = 3 ∨ x = 4 ∨ x = 5 ∨ x = 6 ∨ x = 7
          ∨ x = 8 ∨ x = 9)%N as Hcases by lia.
  repeat (destruct Hcases as [->|Hcases]; [by vm_compute|]). by subst.
Qed.

Lemma int_digits_pretty_go x s :
  (0 < x)%N →
  Py.int_digits (pretty_N_go x s) 0 false = Py.int_digits s (Z.of_N x) true.
Proof.
  revert s. induction (N.lt_wf_0 x) as [x _ IH]; intros s Hx.
  rewrite pretty_N_go_step by done.
  destruct (pretty_char_val (x `mod` 10)) as [Hd Hv]; [by apply N.mod_lt|].
  destruct (decide (x `div` 10 = 0)%N) as [Hq|Hq].
  - rewrite Hq, pretty_N_go_0. simpl. rewrite Hd, Hv. f_equal.
    pose proof (N.div_mod x 10). lia.
  - assert (x `div` 10 < x)%N as Hlt by (apply N.div_lt; lia).
    assert (0 < x `div` 10)%N as Hpos by by apply N.neq_0_lt_0.
    rewrite (IH _ Hlt _ Hpos). simpl. rewrite Hd, Hv. f_equal.
    pose proof (N.div_mod x 10). lia.
Qed.

Lemma pretty_go_nonempty x s : (0 < x)%N → pretty_N_go x s ≠ EmptyString.
Proof.
  revert s. induction (N.lt_wf_0 x) as [x _ IH]; intros s Hx.
  rewrite pretty_N_go_step by done.
  destruct (decide (x `div` 10 = 0)%N) as [Hq|Hq].
  - by rewrite Hq, pretty_N_go_0.
  - apply IH; [apply N.div_lt; lia|by apply N.neq_0_lt_0].
Qed.

Lemma rstrip_cons p c s :
  Py.rstrip_by p s = s → s ≠ EmptyString →
  Py.rstrip_by p (String c s) = String c s.
Proof. intros Hs Hne. simpl. rewrite Hs. by destruct s. Qed.

Lemma digits_pretty_N (x : N) :
  Py.all_digits (pretty x) = true ∧ pretty x ≠ EmptyString.
Proof.
  unfold pretty, pretty_N. destruct (decide (x = 0)%N); [done|].
  assert (0 < x)%N as Hx by lia.
  split; [apply pretty_go_digits|by apply pretty_go_nonempty].
Qed.

Lemma isdigit_pretty_N (x : N) : Py.isdigit (pretty x) = true.
Proof. destruct (digits_pretty_N x). by apply isdigit_digits. Qed.

Lemma int_pretty_N (x : N) :
  Py.strip (pretty x) = pretty x ∧ Py.int (pretty x) = Some (Z.of_N x).
Proof.
  destruct (digits_pretty_N x) as [Hd Hne].
  destruct (int_of_digits (pretty x) Hd Hne) as [Hstrip Hint].
  split; [done|]. rewrite Hint. unfold pretty, pretty_N.
  destruct (decide (x = 0)%N) as [->|Hx]; [done|].
  by rewrite int_digits_pretty_go by lia.
Qed.

Lemma int_pretty_nat (n : nat) :
  Py.strip (pretty n) = pretty n ∧ Py.int (pretty n) = Some (Z.of_nat n).
Proof.
  unfold pretty, pretty_nat. destruct (int_pretty_N (N.of_nat n)) as [-> ->].
  split; [done|]. f_equal. lia.
Qed.

Lemma int_pretty_Z (z : Z) : Py.int (pretty z) = Some z.
Proof.
  destruct z as [|p|p].
  - done.
  - change (pretty (Z.pos p)) with (pretty (N.pos p)).
    by destruct (int_pretty_N (N.pos p)) as [_ ->].
  - change (pretty (Z.neg p)) with ("-" +:+ pretty (N.pos p)).
    destruct (digits_pretty_N (N.pos p)) as [Hd Hne].
    destruct (int_of_digits _ Hd Hne) as [Hstrip Hint].
    destruct (int_pretty_N (N.pos p)) as [_ Hval]. rewrite Hint in Hval.
    destruct (pretty (N.pos p)) as [|c d] eqn:Hp; [done|].
    change ("-" +:+ String c d) with (String "-" (String c d)).
    unfold Py.int. rewrite literal_cons, literal_digits by done.
    cbn [fmap option_fmap option_map mbind option_bind].
    unfold Py.parse_int, Py.c_strip.
    change (Py.lstrip_by Py.c_isspace (String "-" (String c d)))
      with (String "-" (String c d)).
    rewrite rstrip_cons; [|by apply all_digits_c_rstrip|done].
    cbv beta iota. by rewrite Hval.
Qed.

End PrintedNumbers.

(** ** The menu *)

Section MenuFacts.
Import Runner Menu.
Context {W : Type}.

(** One round of [get_choice], case by case. *)
Lemma get_choice_round_cases (st : state W) :
  get_choice_round st
  = match tty st with
    | [] =>
        (mk_state (snippets st) (the_world st) [] (out st ++ [Prompt select_prompt]),
         Raises EOFError)
    | CtrlC :: rest =>
        (mk_state (snippets st) (the_world st) rest
           (out st ++ [Prompt select_prompt; Print nl]),
         Returns (Some None))
    | Line line :: rest =>
        match rejection (length (snippets st)) line with
        | Some msg =>
            (mk_state (snippets st) (the_world st) rest
               (out st ++ [Prompt select_prompt; Print msg]),
             Returns None)
        | None =>
            (mk_state (snippets st) (the_world st) rest
               (out st ++ [Prompt select_prompt]),
             Returns (Some (match Py.int (Py.strip line) with
                            | Some k =>
                                if decide (k = 0)%Z then None
                                else Some (Z.to_nat (k - 1))
                            | None => None
                            end)))
        end
    end.
Proof.
  unfold get_choice_round, try_except, mbind, M_bind, bind, input, rejection,
    select_prompt.
  destruct (tty st) as [|[line|] rest]; simpl; [done| |by rewrite <- app_assoc].
  destruct (Py.int (Py.strip line)) as [k|]; simpl;
    [|by rewrite <- app_assoc].
  unfold get_snippets. simpl.
  destruct (decide (k = 0)%Z) as [->|Hk]; simpl; [done|].
  destruct (decide (1 ≤ k ∧ k ≤ Z.of_nat (length (snippets st)))%Z) as [Hr|Hr];
    simpl; [done|by rewrite <- app_assoc].
Qed.

(** X1. A choice [get_choice] returns is an index into the catalog, which
    the choosing leaves as it was together with the world: the lookup at the
    head of [run_snippet] finds its snippet. *)
Theorem get_choice_in_range (fuel : nat) (st st' : state W) (idx : nat) :
  get_choice fuel st = (st', Returns (Some idx)) →
  snippets st' = snippets st ∧ the_world st' = the_world st
  ∧ (idx < length (snippets st))%nat
  ∧ ∃ snip, snippets st' !! idx = Some snip.
Proof.
  revert st. induction fuel as [|fuel IH]; intros st; [done|].
  simpl. unfold mbind, M_bind, bind. rewrite get_choice_round_cases.
  assert (∀ st0, get_choice fuel st0 = (st', Returns (Some idx)) →
            snippets st0 = snippets st → the_world st0 = the_world st →
            snippets st' = snippets st ∧ the_world st' = the_world st
            ∧ (idx < length (snippets st))%nat
            ∧ ∃ snip, snippets st' !! idx = Some snip) as Hnext.
  { intros st0 Hget Hs Hw. destruct (IH st0 Hget) as (Hs' & Hw' & Hlt & Hsnip).
    split; [congruence|]. split; [congruence|]. split; [by rewrite <- Hs|done]. }
  destruct (tty st) as [|[line|] rest];
    [intros; discriminate| |intros; discriminate].
  unfold rejection.
  destruct (Py.int (Py.strip line)) as [k|];
    [|intros Hget; by apply (Hnext _ Hget)].
  destruct (decide (k = 0)%Z); [intros; discriminate|].
  destruct (decide (1 ≤ k ∧ k ≤ Z.of_nat (length (snippets st)))%Z) as [Hr|Hr];
    [|intros Hget; by apply (Hnext _ Hget)].
  intros [= <- <-]. simpl.
  assert (Z.to_nat (k - 1) < length (snippets st))%nat as Hlt by lia.
  repeat split; [done|]. by apply lookup_lt_is_Some_2.
Qed.

(** X2. Lines that are no choice are answered and passed over, however many
    there are: each gets its message after the prompt, and the choice is
    made on the lines that follow, catalog and world unchanged. *)
Theorem get_choice_skips_rejected (fuel : nat) (l : list (snippet W)) (w : world W)
    (lines : list string) (rest : list key) (o : list output) :
  Forall (λ line, is_Some (rejection (length l) line)) lines →
  get_choice (length lines + fuel) (mk_state l w ((Line <$> lines) ++ rest) o)
  = get_choice fuel (mk_state l w rest (o ++ rejections (length l) lines)).
Proof.
  intros Hlines. revert o. induction Hlines as [|line lines [msg Hmsg] _ IH];
    intros o.
  - simpl. by rewrite app_nil_r.
  - cbn [length fmap list_fmap app Nat.add get_choice].
    unfold mbind at 1, M_bind, bind. rewrite get_choice_round_cases.
    cbn [tty snippets the_world out]. rewrite Hmsg. rewrite IH.
    unfold rejections. cbn [mbind list_bind]. rewrite Hmsg. cbn [default].
    by rewrite <- app_assoc.
Qed.

Lemma menu_lines_lookup (l : list (snippet W)) (k i : nat) snip :
  l !! i = Some snip →
  menu_lines k l !! i = Some ("  " +:+ pretty (k + i)%nat +:+ ". " +:+ title snip).
Proof.
  revert k i. induction l as [|s l IH]; intros k i Hi; [done|].
  destruct i as [|i]; simpl in *.
  - injection Hi as ->. by rewrite Nat.add_0_r.
  - rewrite (IH (S k) i Hi). do 4 f_equal. lia.
Qed.

(** X3. The menu and the choice agree: the line of the menu for the snippet
    at index [i] shows the number [i + 1], and that number typed at the
    prompt chooses index [i] at once. *)
Theorem menu_number_selects (fuel : nat) (l : list (snippet W)) (w : world W)
    (i : nat) (snip : snippet W) (rest : list key) (o : list output) :
  l !! i = Some snip →
  menu_lines 1 l !! i = Some ("  " +:+ pretty (S i) +:+ ". " +:+ title snip)
  ∧ get_choice (S fuel) (mk_state l w (Line (pretty (S i)) :: rest) o)
    = (mk_state l w rest (o ++ [Prompt select_prompt]), Returns (Some i)).
Proof.
  intros Hi. split; [by apply (menu_lines_lookup l 1 i)|].
  simpl. unfold mbind, M_bind, bind. rewrite get_choice_round_cases.
  cbn [tty snippets the_world out]. unfold rejection.
  destruct (int_pretty_nat (S i)) as [-> ->].
  apply lookup_lt_Some in Hi.
  destruct (decide (Z.of_nat (S i) = 0)%Z); [lia|].
  destruct (decide (1 ≤ Z.of_nat (S i) ∧ Z.of_nat (S i) ≤ Z.of_nat (length l))%Z);
    [|lia].
  assert (Z.to_nat (Z.of_nat (S i) - 1) = i) as -> by lia. done.
Qed.

End MenuFacts.

(** ** The command prompt *)

Section CommandFacts.
Import Runner Menu.
Context {W : Type}.

(** X4. Blank lines at the command prompt are passed over, however many
    there are, and a way back typed after them ([back], [b] or [exit], in
    any case, with blanks around) ends the loop for the menu: the entry
    point is not called, the world is as it was, and only prompts were
    written. *)
Theorem blank_lines_then_back (fuel : nat) (snip : snippet W)
    (l : list (snippet W)) (w : world W) (blanks : list string)
    (rest : list key) (o : list output) :
  Forall (λ line, Py.strip line = EmptyString) blanks →
  command_loop (length blanks + fuel) snip
    (mk_state l w ((Line <$> blanks) ++ rest) o)
  = command_loop fuel snip
      (mk_state l w rest (o ++ replicate (length blanks) (Prompt command_prompt)))
  ∧ ∀ line rest',
      rest = Line line :: rest' →
      Py.lower (Py.strip line) ∈ ["back"; "b"; "exit"] →
      command_loop (length blanks + S fuel) snip
        (mk_state l w ((Line <$> blanks) ++ rest) o)
      = (mk_state l w rest'
           (o ++ replicate (S (length blanks)) (Prompt command_prompt)),
         Returns true).
Proof.
  intros Hblanks.
  assert (∀ fuel o,
            command_loop (length blanks + fuel) snip
              (mk_state l w ((Line <$> blanks) ++ rest) o)
            = command_loop fuel snip
                (mk_state l w rest
                   (o ++ replicate (length blanks) (Prompt command_prompt))))
    as Hskip.
  { clear fuel o. intros fuel.
    induction Hblanks as [|line blanks Hline _ IH]; intros o.
    - simpl. by rewrite app_nil_r.
    - cbn [length fmap list_fmap app Nat.add command_loop].
      unfold mbind at 1, M_bind, bind at 1, command_round, try_except at 1,
        mbind at 1, M_bind, bind at 1, input.
      cbn [tty snippets the_world out]. rewrite Hline.
      change (bool_decide (Py.lower EmptyString ∈ ["back"; "b"; "exit"]))
        with false.
      destruct (decide (EmptyString = EmptyString)) as [_|?]; [|done].
      cbn [ret tail]. rewrite IH. cbn [replicate].
      by rewrite <- app_assoc. }
  split; [apply Hskip|].
  intros line rest' -> Hback. rewrite Hskip.
  cbn [command_loop].
  unfold mbind at 1, M_bind, bind at 1, command_round, try_except at 1,
    mbind at 1, M_bind, bind at 1, input.
  cbn [tty snippets the_world out]. rewrite bool_decide_true by done.
  cbn [ret tail]. fold command_prompt.
  by rewrite <- app_assoc, <- replicate_cons_app.
Qed.

(** The round of a command that is dispatched, up to the end of the call. *)
Lemma command_round_dispatch (snip : snippet W) (st : state W)
    (line : string) (rest : list key) :
  tty st = Line line :: rest →
  Py.lower (Py.strip line) ∉ ["back"; "b"; "exit"] →
  Py.strip line ≠ EmptyString →
  let r := run_entry snip (Py.split (Py.strip line)) (the_world st) rest in
  let st1 := mk_state (snippets st) (e_world r) (drop (e_read r) rest)
               (out st ++ [Prompt command_prompt] ++ e_out r) in
  command_round snip st
  = match e_raised r with
    | Some KeyboardInterrupt =>
        (mk_state (snippets st1) (the_world st1) (tty st1) (out st1 ++ [Print nl]),
         Returns Break)
    | Some (Exception cls msg) =>
        try_except what_next is_KeyboardInterrupt (λ _, print nl;; ret Break)
          (mk_state (snippets st1) (the_world st1) (tty st1)
             (out st1 ++ [Print (nl +:+ "❌ Error: " +:+ msg)]))
    | Some e => (st1, Raises e)
    | None =>
        try_except what_next is_KeyboardInterrupt (λ _, print nl;; ret Break) st1
    end.
Proof.
  intros Htty Hback Hempty r st1.
  unfold command_round, try_except at 1, mbind, M_bind, bind at 1, input.
  rewrite Htty. rewrite bool_decide_false by done.
  destruct (decide (Py.strip line = EmptyString)) as [?|_]; [done|].
  unfold bind at 1, try_except at 2, dispatch. simpl.
  unfold try_except at 1. simpl. fold r. subst st1. unfold command_prompt.
  destruct (e_raised r) as [[cls msg| |msg| |cls msg]|]; simpl;
    unfold print, emit; simpl; rewrite <- ?app_assoc; try done.
  unfold bind, ret. simpl. by rewrite <- app_assoc.
Qed.

(** X5. An entry point that lets a [KeyboardInterrupt] out (Ctrl-C during
    the call) sends the operator back to the menu: the handler around the
    loop prints an empty line and the loop ends, with no error message and
    no question about what to do next. *)
Theorem interrupt_in_snippet_returns_to_menu (fuel : nat) (snip : snippet W)
    (st : state W) (line : string) (rest : list key) :
  tty st = Line line :: rest →
  Py.lower (Py.strip line) ∉ ["back"; "b"; "exit"] →
  Py.strip line ≠ EmptyString →
  let r := run_entry snip (Py.split (Py.strip line)) (the_world st) rest in
  e_raised r = Some KeyboardInterrupt →
  command_loop (S fuel) snip st
  = (mk_state (snippets st) (e_world r) (drop (e_read r) rest)
       (out st ++ [Prompt command_prompt] ++ e_out r ++ [Print nl]),
     Returns true).
Proof.
  intros Htty Hback Hempty r Hraise. simpl. unfold mbind, M_bind, bind.
  rewrite (command_round_dispatch snip st line rest Htty Hback Hempty).
  fold r. rewrite Hraise. simpl. by rewrite <- !app_assoc.
Qed.

(** X6. An exception of an entry point that is neither an [Exception] nor a
    [KeyboardInterrupt] passes both handlers: it leaves the loop and
    [run_snippet] as it came, nothing being printed after the output of the
    call. *)
Theorem other_exception_leaves_run_snippet (fuel idx : nat) (snip : snippet W)
    (st : state W) (line : string) (rest : list key) (e : exn) :
  snippets st !! idx = Some snip →
  tty st = Line line :: rest →
  Py.lower (Py.strip line) ∉ ["back"; "b"; "exit"] →
  Py.strip line ≠ EmptyString →
  let r := run_entry snip (Py.split (Py.strip line)) (the_world st) rest in
  e_raised r = Some e →
  is_Exception e = false → is_KeyboardInterrupt e = false →
  command_loop (S fuel) snip st
  = (mk_state (snippets st) (e_world r) (drop (e_read r) rest)
       (out st ++ [Prompt command_prompt] ++ e_out r),
     Raises e)
  ∧ (run_snippet (S fuel) idx st).2 = Raises e.
Proof.
  intros Hidx Htty Hback Hempty r Hraise HnE HnK.
  assert (∀ st0 : state W,
            tty st0 = Line line :: rest → the_world st0 = the_world st →
            command_loop (S fuel) snip st0
            = (mk_state (snippets st0) (e_world r) (drop (e_read r) rest)
                 (out st0 ++ [Prompt command_prompt] ++ e_out r),
               Raises e)) as Hloop.
  { intros st0 Htty0 Hw. simpl. unfold mbind, M_bind, bind.
    rewrite (command_round_dispatch snip st0 line rest Htty0 Hback Hempty).
    rewrite Hw. fold r. rewrite Hraise. by destruct e. }
  split; [by apply Hloop|].
  unfold run_snippet, mbind, M_bind, bind, get_snippets. rewrite Hidx.
  unfold print, emit. cbn [fst snd snippets the_world tty out].
  by rewrite Hloop.
Qed.

End CommandFacts.

(** ** The session and the registry *)

Section SessionFacts.
Import Runner Menu.
Context {W : Type} (exec_module : string → load_result W).

#[local] Abbreviation descriptor := (descriptor exec_module).
#[local] Abbreviation diagnostic := (diagnostic exec_module).
#[local] Abbreviation fatal := (fatal exec_module).
#[local] Abbreviation load_snippets := (load_snippets exec_module).

(** X7. A session comes to its end on every finite terminal input: each
    round of each loop of the host reads from the terminal or ends the
    loop, so with more rounds allowed than there are terminal events the
    process returns or an exception leaves it. *)
Theorem session_always_ends (fuel : nat) (w : world W) (keys : list key) :
  (length keys < fuel)%nat →
  (main exec_module fuel w keys).2 = Returns tt
  ∨ ∃ e, (main exec_module fuel w keys).2 = Raises e.
Proof.
  intros Hfuel. pose proof (main_finishes exec_module fuel w keys Hfuel) as Hfin.
  destruct (main exec_module fuel w keys).2 as [[]|e|]; [by left|eauto|done].
Qed.

Lemma show_menu_empty (st : state W) :
  snippets st = [] →
  show_menu st
  = (mk_state [] (the_world st) (tty st)
       (out st ++ [Print (nl +:+ Py.repeat_char "=" 60); Print "  SNIPPET RUNNER";
                   Print (Py.repeat_char "=" 60);
                   Print (nl +:+ "No snippets found in the 'snippets' directory.");
                   Print "Add .py files to get started!"]),
     Returns false).
Proof.
  intros Hnil. unfold show_menu, mbind, M_bind, bind, print, emit, get_snippets.
  simpl. rewrite Hnil. simpl. by rewrite <- !app_assoc.
Qed.

(** X8. With nothing to offer the session ends at once.  When the directory
    is missing and the runner is fresh, or when no file of the directory
    gives a catalog entry, [main] tells the operator to add files and
    returns without reading the terminal; a missing directory has been
    created. *)
Theorem empty_catalog_ends_session (fuel : nat) (w : world W) (keys : list key) :
  (snippets_dir w = None
   ∨ ∃ files, snippets_dir w = Some files
              ∧ Forall (λ f, fatal f = None) files
              ∧ omap descriptor files = []) →
  ∃ st', main exec_module (S fuel) w keys = (st', Returns tt)
    ∧ tty st' = keys ∧ snippets st' = []
    ∧ ext (the_world st') = ext w
    ∧ snippets_dir (the_world st') = Some (default [] (snippets_dir w))
    ∧ last (out st')
      = Some (Print (nl +:+ "Add snippet files to the 'snippets' directory and restart.")).
Proof.
  intros Hdir. unfold main, run. cbn [run_loop].
  unfold mbind, M_bind. unfold bind at 1, print at 1, emit.
  cbn [snippets the_world tty out]. unfold bind at 1.
  destruct Hdir as [Hnone|(files & Hsome & Hfiles & Hdesc)].
  - rewrite load_snippets_missing by done.
    cbn [snippets the_world tty out]. unfold bind at 1.
    rewrite show_menu_empty by done. cbn [negb].
    unfold print, emit. cbn [snippets the_world tty out ext snippets_dir].
    eexists. split; [done|]. cbn [snippets the_world tty out ext snippets_dir].
    rewrite Hnone. repeat split; first [done|by rewrite last_snoc].
  - rewrite (load_snippets_scan exec_module files) by done.
    cbn [snippets the_world tty out]. rewrite Hdesc. unfold bind at 1.
    rewrite show_menu_empty by done. cbn [negb].
    unfold print, emit. cbn [snippets the_world tty out ext snippets_dir].
    eexists. split; [done|]. cbn [snippets the_world tty out ext snippets_dir].
    rewrite Hsome. repeat split; first [done|by destruct w|by rewrite last_snoc].
Qed.

(** X9. A file whose name starts with an underscore or does not end in
    [.py] is never loaded: whatever executing it would give, even an exit
    of the process, the scan returns the catalog and the output the other
    files give. *)
Theorem other_files_never_loaded (st : state W)
    (pre post : list (string * string)) (f : string * string) :
  snippets_dir (the_world st) = Some (pre ++ f :: post) →
  candidate f = false →
  Forall (λ g, fatal g = None) (pre ++ post) →
  load_snippets st
  = (mk_state (sort_by title String.leb (omap descriptor (pre ++ post)))
       (the_world st) (tty st) (out st ++ omap diagnostic (pre ++ post)),
     Returns tt).
Proof.
  intros Hdir Hcand Hothers.
  assert (descriptor f = None ∧ diagnostic f = None ∧ fatal f = None)
    as (Hd & Hg & Hf).
  { unfold descriptor, diagnostic, fatal. by rewrite Hcand. }
  rewrite (load_snippets_scan exec_module (pre ++ f :: post)) by
    (done || by apply no_fatal_insert).
  rewrite !omap_app. simpl. by rewrite Hd, Hg.
Qed.

(** X10. A load of a directory that exists drops the catalog of the load
    before: the catalog it leaves is the same whatever the catalog held,
    and each of its entries was made in this scan, from a candidate file of
    the directory whose stem is the name of the entry. *)
Theorem load_rebuilds_catalog (st : state W) (files : list (string * string)) :
  snippets_dir (the_world st) = Some files →
  Forall (λ f, fatal f = None) files →
  ∃ st', load_snippets st = (st', Returns tt)
    ∧ (∀ l, snippets (load_snippets
                        (mk_state l (the_world st) (tty st) (out st))).1
            = snippets st')
    ∧ ∀ snip, snip ∈ snippets st' →
        ∃ f, f ∈ files ∧ candidate f = true ∧ descriptor f = Some snip
             ∧ name snip = stem f.1.
Proof.
  intros Hdir Hfiles. eexists. split; [by apply load_snippets_scan|].
  cbn [snippets the_world tty out]. split.
  - intros l. by rewrite (load_snippets_scan exec_module files).
  - intros snip Hsnip. rewrite sort_by_perm in Hsnip.
    apply list_elem_of_omap in Hsnip as (f & Hf & Hdesc).
    exists f. split; [done|]. unfold Runner.descriptor in Hdesc |- *.
    destruct (candidate f); [|done]. split; [done|]. split; [done|].
    destruct (exec_module f.2) as [[[t|] [d|] [r|]]|e]; try done.
    by injection Hdesc as <-.
Qed.

End SessionFacts.

(** ** More on the stable sort *)

Section StableSortMore.
Context {A K : Type} (key : A → K) (leb : K → K → bool).

Lemma insert_by_front x l :
  (∀ y, head l = Some y → leb (key x) (key y) = true) →
  insert_by key leb x l = x :: l.
Proof. destruct l as [|y l]; simpl; [done|]. intros H. by rewrite (H y). Qed.

(** Sorting a sorted list changes nothing. *)
Lemma sort_by_sorted_id l :
  StronglySorted (key_le key leb) l → sort_by key leb l = l.
Proof.
  induction 1 as [|x l Hl IH Hx]; simpl; [done|].
  rewrite IH. apply insert_by_front. intros y Hy.
  apply head_Some_elem_of in Hy. by eapply Forall_forall in Hx.
Qed.

Lemma sorted_by_keys l :
  StronglySorted (key_le key leb) l
  ↔ StronglySorted (λ j k, leb j k = true) (key <$> l).
Proof.
  induction l as [|x l IH]; simpl; [split; constructor|].
  rewrite !StronglySorted_cons, IH, Forall_fmap. done.
Qed.

Lemma sorted_filter (P : A → Prop) `{!∀ a, Decision (P a)} l :
  StronglySorted (key_le key leb) l → StronglySorted (key_le key leb) (filter P l).
Proof.
  induction 1 as [|x l Hl IH Hx]; [constructor|].
  rewrite filter_cons. destruct (decide (P x)); [|done].
  constructor; [done|]. apply Forall_forall. intros y [_ Hy]%list_elem_of_filter.
  by eapply Forall_forall in Hx.
Qed.

Hypothesis leb_total : ∀ j k, leb j k = true ∨ leb k j = true.
Hypothesis leb_trans : ∀ i j k, leb i j = true → leb j k = true → leb i k = true.

Lemma filter_insert_by (P : A → Prop) `{!∀ a, Decision (P a)} x l :
  StronglySorted (key_le key leb) l →
  filter P (insert_by key leb x l)
  = if decide (P x) then insert_by key leb x (filter P l) else filter P l.
Proof.
  induction 1 as [|y l Hl IH Hy]; simpl.
  - rewrite filter_cons. by destruct (decide (P x)).
  - destruct (leb (key x) (key y)) eqn:Hxy.
    + rewrite filter_cons. destruct (decide (P x)); [|done].
      symmetry. apply insert_by_front. intros z Hz.
      apply head_Some_elem_of, list_elem_of_filter in Hz as [_ Hz].
      apply elem_of_cons in Hz as [->|Hz]; [done|].
      eapply leb_trans; [exact Hxy|]. by eapply Forall_forall in Hy.
    + rewrite !(filter_cons _ y), IH.
      destruct (decide (P y)); [|done].
      destruct (decide (P x)); [|done]. simpl. by rewrite Hxy.
Qed.

(** Filtering commutes with the sort. *)
Lemma filter_sort_by (P : A → Prop) `{!∀ a, Decision (P a)} l :
  filter P (sort_by key leb l) = sort_by key leb (filter P l).
Proof.
  induction l as [|x l IH]; simpl; [done|].
  rewrite filter_insert_by by by apply sort_by_sorted.
  rewrite filter_cons. destruct (decide (P x)); simpl; by rewrite IH.
Qed.

End StableSortMore.

(** ** The todo store over several calls *)

Section TodoStore.
Import Todo.
Open Scope Z_scope.

Lemma status_map_canonical k s :
  status_map !! k = Some s → s ∈ ["todo"; "in progress"; "completed"].
Proof.
  unfold status_map. intros H%elem_of_list_to_map_2.
  repeat (apply elem_of_cons in H as [[= _ ->]|H]; [by repeat constructor|]).
  by apply elem_of_nil in H.
Qed.

Lemma set_status_is_Some p s l :
  is_Some (set_status p s l) ↔ p ∈ (priority <$> l).
Proof.
  induction l as [|t l IH]; simpl.
  - split; [by intros [? ?]|by intros ?%elem_of_nil].
  - rewrite elem_of_cons. destruct (decide (priority t = p)) as [Hp|Hp].
    + split; [by left|by eexists].
    + rewrite <- IH. unfold is_Some.
      destruct (set_status p s l) as [r|]; simpl; split;
        first [by eauto|by intros [? ?]|by (intros [?|[? ?]]; congruence)].
Qed.

Lemma set_status_statuses p s l old l' :
  set_status p s l = Some (old, l') →
  ∀ (P : string → Prop), P s → Forall (λ t, P (status t)) l →
  Forall (λ t, P (status t)) l'.
Proof.
  revert old l'. induction l as [|t l IH]; simpl; intros old l' H P Hs Hl; [done|].
  apply Forall_cons in Hl as [Ht Hl].
  destruct (decide (priority t = p)).
  - injection H as <- <-. by constructor.
  - destruct (set_status p s l) as [[o r]|] eqn:Hset; [|done].
    injection H as <- <-. constructor; [done|]. by eapply IH.
Qed.

Lemma set_status_columns p s l old l' :
  set_status p s l = Some (old, l') →
  title <$> l' = title <$> l ∧ date <$> l' = date <$> l
  ∧ length l' = length l.
Proof.
  revert old l'. induction l as [|t l IH]; simpl; intros old l' H; [done|].
  destruct (decide (priority t = p)).
  - by injection H as <- <-.
  - destruct (set_status p s l) as [[o r]|] eqn:Hset; [|done].
    injection H as <- <-. destruct (IH _ _ eq_refl) as (Ht & Hd & Hlen).
    repeat split; simpl; by f_equal.
Qed.

Lemma filter_priority_length p (l : list todo) :
  length (filter (λ t, priority t ≠ p) l) ≠ length l ↔ p ∈ (priority <$> l).
Proof.
  split.
  - intros Hlen. destruct (decide (p ∈ priority <$> l)) as [|Hp]; [done|].
    by rewrite filter_other_priorities in Hlen.
  - intros (t & -> & Ht)%list_elem_of_fmap.
    pose proof (length_filter_lt (λ t0, priority t0 ≠ priority t) l t Ht) as Hlt.
    cut (length (filter (λ t0, priority t0 ≠ priority t) l) < length l)%nat; [lia|].
    apply Hlt. by intros ?.
Qed.

(** What a call saves, with the invocation that made it save. *)
Lemma run_saves now args file saved :
  (run now args file).2 = Some saved →
  let todos := load_todos file in
  ∃ cmd rest, args = cmd :: rest
    ∧ ((Py.lower cmd = "add" ∧ rest ≠ []
        ∧ ∃ p ttl base,
            (base = todos ∨ base = shift_from p <$> todos)
            ∧ saved = sort_by_priority (base ++ [mk_todo ttl "todo" p now]))
       ∨ (Py.lower cmd = "status"
          ∧ ∃ a1 a2 p s old,
              rest = [a1; a2] ∧ Py.int a1 = Some p
              ∧ status_map !! Py.lower a2 = Some s
              ∧ set_status p s todos = Some (old, saved))
       ∨ (Py.lower cmd = "remove"
          ∧ ∃ a1 p,
              rest = [a1] ∧ Py.int a1 = Some p
              ∧ saved = filter (λ t, priority t ≠ p) todos
              ∧ length saved ≠ length todos)).
Proof.
  intros Hrun todos. unfold_run_in Hrun.
  destruct args as [|cmd rest]; [done|]. fold todos in Hrun.
  exists cmd, rest. split; [done|].
  destruct (decide (Py.lower cmd = "list")); [done|].
  destruct (decide (Py.lower cmd = "add")) as [Hadd|_].
  { left. split; [done|].
    destruct (decide (length (cmd :: rest) < 2)%nat) as [|Hlen]; [done|].
    split; [destruct rest; [simpl in Hlen; lia|done]|].
    destruct (bool_decide (3 ≤ length (cmd :: rest))%nat
              && Py.isdigit (List.last (cmd :: rest) EmptyString)).
    - destruct (Py.int (List.last (cmd :: rest) EmptyString)) as [p|]; [|done].
      injection Hrun as <-. eexists p, _, (shift_from p <$> todos).
      by split; [right|].
    - injection Hrun as <-. eexists _, _, todos. by split; [left|]. }
  destruct (decide (Py.lower cmd = "status")) as [Hst|_].
  { right. left. split; [done|].
    destruct rest as [|a1 [|a2 [|]]]; try done.
    destruct (Py.int a1) as [p|] eqn:Hp; [|done].
    destruct (status_map !! Py.lower a2) as [s|] eqn:Hs; [|done].
    destruct (set_status p s todos) as [[old saved']|] eqn:Hset; [|done].
    injection Hrun as <-. by exists a1, a2, p, s, old. }
  destruct (decide (Py.lower cmd = "remove")) as [Hrm|_]; [|done].
  right. right. split; [done|].
  destruct rest as [|a1 [|]]; try done.
  destruct (Py.int a1) as [p|] eqn:Hp; [|done].
  destruct (decide (length (filter (λ t, priority t ≠ p) todos) = length todos));
    [done|].
  injection Hrun as <-. by exists a1, p.
Qed.

(** An [add] that saved had its last token parsed, where it passed
    [isdigit] after a title. *)
Lemma add_saved_parsed now cmd rest file saved :
  (run now (cmd :: rest) file).2 = Some saved → Py.lower cmd = "add" →
  ¬ ((3 ≤ length (cmd :: rest))%nat
     ∧ Py.isdigit (List.last (cmd :: rest) EmptyString) = true
     ∧ Py.int (List.last (cmd :: rest) EmptyString) = None).
Proof.
  intros Hrun Hcmd (Hlen & Hd & Hint). unfold_run_in Hrun.
  rewrite Hcmd, Hd, Hint, bool_decide_true in Hrun by done.
  destruct (decide ("add" = "list")) as [?|_]; [done|].
  destruct (decide ("add" = "add")) as [_|?]; [|done].
  by destruct (decide (length (cmd :: rest) < 2)%nat).
Qed.

(** X11. The statuses of the store stay among the three the manager knows:
    whatever the command and its arguments, a call that finds only [todo],
    [in progress] and [completed] in the file leaves only these in the
    file. *)
Theorem statuses_stay_known (now : string) (args : list string) (file : todo_file) :
  Forall (λ t, status t ∈ ["todo"; "in progress"; "completed"]) (load_todos file) →
  Forall (λ t, status t ∈ ["todo"; "in progress"; "completed"])
    (load_todos (file_after file (run now args file).2)).
Proof.
  intros Hfile. destruct (run now args file).2 as [saved|] eqn:Hrun; [|done].
  simpl.
  destruct (run_saves _ _ _ _ Hrun)
    as (cmd & rest & -> & [(_ & _ & p & ttl & base & Hbase & ->)
                          |[(_ & a1 & a2 & p & s & old & -> & _ & Hs & Hset)
                           |(_ & a1 & p & -> & _ & -> & _)]]).
  - rewrite sort_by_priority_perm. apply Forall_app. split.
    + destruct Hbase as [->| ->]; [done|]. apply Forall_fmap.
      eapply Forall_impl; [exact Hfile|]. intros t Ht. simpl.
      by rewrite shift_from_eq.
    + repeat constructor.
  - eapply (set_status_statuses _ _ _ _ _ Hset (λ s, s ∈ _)); [|done].
    by eapply status_map_canonical.
  - rewrite Forall_forall in Hfile. apply Forall_forall.
    intros t [_ Ht]%list_elem_of_filter. by apply Hfile.
Qed.

(** X12. The store stays sorted by priority: a call that finds the records
    of the file in ascending order of priority leaves them so, also where it
    does not sort (a status change, a removal). *)
Theorem store_stays_sorted (now : string) (args : list string) (file : todo_file) :
  StronglySorted (key_le priority Z.leb) (load_todos file) →
  StronglySorted (key_le priority Z.leb)
    (load_todos (file_after file (run now args file).2)).
Proof.
  intros Hfile. destruct (run now args file).2 as [saved|] eqn:Hrun; [|done].
  simpl.
  destruct (run_saves _ _ _ _ Hrun)
    as (cmd & rest & -> & [(_ & _ & p & ttl & base & _ & ->)
                          |[(_ & a1 & a2 & p & s & old & -> & _ & _ & Hset)
                           |(_ & a1 & p & -> & _ & -> & _)]]).
  - apply sort_by_priority_sorted.
  - apply (proj2 (sorted_by_keys priority Z.leb _)).
    rewrite (set_status_priorities _ _ _ _ _ Hset).
    by apply (proj1 (sorted_by_keys priority Z.leb _)).
  - by apply sorted_filter.
Qed.

(** X13. When a call writes the file.  It writes exactly for an [add] with a
    title (unless a last token that passes [isdigit] fails to parse), for a
    [status] with a parsing priority that is in the store and a known status
    word, and for a [remove] with a parsing priority that is in the store,
    the command in any case; [list], other commands and calls without
    arguments never write. *)
Theorem writes_exactly_when (now : string) (args : list string) (file : todo_file) :
  is_Some (run now args file).2
  ↔ ∃ cmd rest, args = cmd :: rest
      ∧ ((Py.lower cmd = "add" ∧ rest ≠ []
          ∧ ¬ ((3 ≤ length args)%nat
               ∧ Py.isdigit (List.last args EmptyString) = true
               ∧ Py.int (List.last args EmptyString) = None))
         ∨ (Py.lower cmd = "status"
            ∧ ∃ a1 a2 p, rest = [a1; a2] ∧ Py.int a1 = Some p
                ∧ is_Some (status_map !! Py.lower a2)
                ∧ p ∈ (priority <$> load_todos file))
         ∨ (Py.lower cmd = "remove"
            ∧ ∃ a1 p, rest = [a1] ∧ Py.int a1 = Some p
                ∧ p ∈ (priority <$> load_todos file))).
Proof.
  split.
  - intros [saved Hrun].
    destruct (run_saves _ _ _ _ Hrun)
      as (cmd & rest & -> & [(Hc & Hrest & _)
                            |[(Hc & a1 & a2 & p & s & old & -> & Hp & Hs & Hset)
                             |(Hc & a1 & p & -> & Hp & -> & Hlen)]]).
    + exists cmd, rest. split; [done|]. left. repeat split; [done..|].
      by apply (add_saved_parsed now cmd rest file saved).
    + exists cmd, [a1; a2]. split; [done|]. right. left. split; [done|].
      exists a1, a2, p. repeat split; [done|by eexists|].
      apply (set_status_is_Some p s). by eexists.
    + exists cmd, [a1]. split; [done|]. right. right. split; [done|].
      exists a1, p. repeat split; [done|]. by apply filter_priority_length.
  - intros (cmd & rest & -> & [(Hc & Hrest & Hparse)
                              |[(Hc & a1 & a2 & p & -> & Hp & [s Hs] & Hin)
                               |(Hc & a1 & p & -> & Hp & Hin)]]).
    + unfold_run. rewrite Hc.
      destruct (decide ("add" = "list")) as [?|_]; [done|].
      destruct (decide ("add" = "add")) as [_|?]; [|done].
      destruct (decide (length (cmd :: rest) < 2)%nat) as [Hlt|_].
      { destruct rest; [done|]. simpl in Hlt. lia. }
      destruct (bool_decide (3 ≤ length (cmd :: rest))%nat) eqn:Hlen;
        [|by eexists].
      destruct (Py.isdigit (List.last (cmd :: rest) EmptyString)) eqn:Hd;
        [|by eexists].
      destruct (Py.int (List.last (cmd :: rest) EmptyString)) eqn:Hint;
        [by eexists|].
      destruct Hparse. by apply bool_decide_eq_true in Hlen.
    + unfold_run. rewrite Hc.
      destruct (decide ("status" = "list")) as [?|_]; [done|].
      destruct (decide ("status" = "add")) as [?|_]; [done|].
      destruct (decide ("status" = "status")) as [_|?]; [|done].
      rewrite Hp, Hs.
      apply (set_status_is_Some p s) in Hin as [[old saved] ->]. by eexists.
    + unfold_run. rewrite Hc.
      destruct (decide ("remove" = "list")) as [?|_]; [done|].
      destruct (decide ("remove" = "add")) as [?|_]; [done|].
      destruct (decide ("remove" = "status")) as [?|_]; [done|].
      destruct (decide ("remove" = "remove")) as [_|?]; [|done].
      rewrite Hp. apply filter_priority_length in Hin.
      destruct (decide (length (filter (λ t, priority t ≠ p) (load_todos file))
                        = length (load_todos file))); [done|by eexists].
Qed.

(** X14. What a write does to the number of records: an [add] saves one
    record more than it found, a [status] saves as many, with titles,
    priorities and dates as they were, and a [remove] saves fewer, all of
    them records of the file in their order. *)
Theorem write_changes_count (now cmd : string) (rest : list string)
    (file : todo_file) (saved : list todo) :
  (run now (cmd :: rest) file).2 = Some saved →
  let todos := load_todos file in
  (Py.lower cmd = "add" → length saved = S (length todos))
  ∧ (Py.lower cmd = "status" →
     length saved = length todos ∧ title <$> saved = title <$> todos
     ∧ priority <$> saved = priority <$> todos ∧ date <$> saved = date <$> todos)
  ∧ (Py.lower cmd = "remove" →
     (length saved < length todos)%nat ∧ saved `sublist_of` todos).
Proof.
  intros Hrun todos.
  destruct (run_saves _ _ _ _ Hrun)
    as (cmd' & rest' & [= <- <-] & [(Hc & _ & p & ttl & base & Hbase & ->)
                          |[(Hc & a1 & a2 & p & s & old & -> & _ & _ & Hset)
                           |(Hc & a1 & p & -> & _ & -> & Hlen)]]);
    (split; [|split]); intros Hc'; try congruence.
  - rewrite sort_by_priority_perm, length_app. simpl.
    destruct Hbase as [->| ->]; rewrite ?length_fmap; subst todos; lia.
  - destruct (set_status_columns _ _ _ _ _ Hset) as (Ht & Hd & Hl).
    by rewrite (set_status_priorities _ _ _ _ _ Hset).
  - split; [|apply sublist_filter].
    pose proof (length_filter (λ t, priority t ≠ p) (load_todos file)).
    subst todos. lia.
Qed.

(** X15. The priority an [add] without a number gives is at most one more
    than the number of records, and it is exactly that when the priorities
    of the store are 1, 2, ..., n in some order. *)
Theorem next_priority_bounded (todos : list todo) :
  1 ≤ get_next_priority todos ≤ Z.of_nat (length todos) + 1
  ∧ (priority <$> todos ≡ₚ Z.of_nat <$> seq 1 (length todos) →
     get_next_priority todos = Z.of_nat (length todos) + 1).
Proof.
  destruct (get_next_priority_spec todos) as (Hge & Hfree & Hused).
  assert (get_next_priority todos ≤ Z.of_nat (length todos) + 1) as Hle.
  { set (n := Z.to_nat (get_next_priority todos - 1)).
    assert (Z.of_nat <$> seq 1 n ⊆+ priority <$> todos) as Hsub.
    { apply NoDup_submseteq.
      - apply NoDup_fmap_2; [apply _|apply NoDup_seq].
      - intros q (k & -> & Hk%elem_of_seq)%list_elem_of_fmap. apply Hused. lia. }
    apply submseteq_length in Hsub. rewrite !length_fmap, length_seq in Hsub. lia. }
  split; [done|]. intros Hperm.
  destruct (decide (get_next_priority todos = Z.of_nat (length todos) + 1))
    as [|Hne]; [done|].
  destruct Hfree. rewrite Hperm. apply list_elem_of_fmap.
  exists (Z.to_nat (get_next_priority todos)). split; [lia|].
  apply elem_of_seq. lia.
Qed.

(** Removing the priority of the record an [add] appended: the other
    records, sorted. *)
Lemma remove_added p (base : list todo) ttl now :
  p ∉ (priority <$> base) →
  filter (λ t, priority t ≠ p) (sort_by_priority (base ++ [mk_todo ttl "todo" p now]))
  = sort_by_priority base.
Proof.
  intros Hfree. unfold sort_by_priority.
  rewrite (filter_sort_by priority Z.leb Zleb_total Zleb_trans).
  rewrite filter_app, filter_other_priorities by done.
  rewrite filter_cons. simpl.
  destruct (decide (p ≠ p)) as [?|_]; [done|].
  by rewrite filter_nil, app_nil_r.
Qed.

Lemma run_remove_added now' rm a1 p (base : list todo) ttl now :
  Py.lower rm = "remove" → Py.int a1 = Some p → p ∉ (priority <$> base) →
  run now' [rm; a1]
    (Stored (sort_by_priority (base ++ [mk_todo ttl "todo" p now])))
  = (["✅ Removed todo [Priority " +:+ pretty p +:+ "]"],
     Some (sort_by_priority base)).
Proof.
  intros Hrm Hp Hfree. unfold_run. rewrite Hrm. cbn [load_todos].
  destruct (decide ("remove" = "list")) as [?|_]; [done|].
  destruct (decide ("remove" = "add")) as [?|_]; [done|].
  destruct (decide ("remove" = "status")) as [?|_]; [done|].
  destruct (decide ("remove" = "remove")) as [_|?]; [|done].
  rewrite Hp. cbv zeta. rewrite remove_added by done.
  destruct (decide _) as [Hlen|_]; [|done].
  rewrite !sort_by_priority_perm, length_app in Hlen. simpl in Hlen. lia.
Qed.

(** X16. An [add] without a number is undone by a [remove] of the priority
    it announced.  Removing the priority printed by the add leaves the file
    with the records it had before the add, in ascending order of priority;
    when the file was in that order, it is as it was. *)
Theorem add_then_remove_restores (now now' cmd rm : string) (ttl : list string)
    (file : todo_file) :
  Py.lower cmd = "add" → ttl ≠ [] →
  Py.isdigit (List.last ttl EmptyString) = false →
  Py.lower rm = "remove" →
  let p := get_next_priority (load_todos file) in
  let added := run now (cmd :: ttl) file in
  head added.1
  = Some ("✅ Added todo [Priority " +:+ pretty p +:+ "]: "
          +:+ unquote (Py.join " " ttl))
  ∧ run now' [rm; pretty p] (file_after file added.2)
    = (["✅ Removed todo [Priority " +:+ pretty p +:+ "]"],
       Some (sort_by_priority (load_todos file)))
  ∧ (StronglySorted (key_le priority Z.leb) (load_todos file) →
     sort_by_priority (load_todos file) = load_todos file).
Proof.
  intros Hcmd Httl Hd Hrm p added.
  pose proof (run_add_implicit now cmd ttl file Hcmd Httl Hd) as Hsaved.
  fold added p in Hsaved.
  assert (head added.1
          = Some ("✅ Added todo [Priority " +:+ pretty p +:+ "]: "
                  +:+ unquote (Py.join " " ttl))) as Hhead.
  { subst added. unfold_run. rewrite Hcmd.
    assert (List.last (cmd :: ttl) EmptyString = List.last ttl EmptyString) as Hlast.
    { by destruct ttl. }
    destruct (decide ("add" = "list")) as [?|_]; [done|].
    destruct (decide ("add" = "add")) as [_|?]; [|done].
    destruct (decide (length (cmd :: ttl) < 2)%nat) as [Hlt|_].
    { destruct ttl; [done|]. simpl in Hlt. lia. }
    rewrite Hlast, Hd, andb_false_r. done. }
  split; [done|]. split; [|apply sort_by_sorted_id].
  rewrite Hsaved. cbn [file_after].
  destruct (get_next_priority_spec (load_todos file)) as (_ & Hfree & _).
  apply run_remove_added; [done|apply int_pretty_Z|done].
Qed.

(** X17. An [add] with a number is not undone by a [remove] of that number:
    the records the add moved down stay where it put them.  After [add T p]
    and [remove p] the file holds the old records with every priority at or
    above [p] raised by one, in ascending order of priority; that is their
    old order when the file was sorted. *)
Theorem add_then_remove_keeps_shift (now now' cmd rm d : string)
    (ttl : list string) (p : Z) (file : todo_file) :
  Py.lower cmd = "add" → ttl ≠ [] → Py.isdigit d = true → Py.int d = Some p →
  Py.lower rm = "remove" →
  let added := run now (cmd :: ttl ++ [d]) file in
  let raised :=
    (λ t, mk_todo (title t) (status t)
            (if decide (p ≤ priority t) then priority t + 1 else priority t)
            (date t)) <$> load_todos file in
  run now' [rm; d] (file_after file added.2)
  = (["✅ Removed todo [Priority " +:+ pretty p +:+ "]"],
     Some (sort_by_priority raised))
  ∧ (StronglySorted (key_le priority Z.leb) (load_todos file) →
     sort_by_priority raised = raised).
Proof.
  intros Hcmd Httl Hd Hp Hrm added raised.
  pose proof (run_add_explicit now cmd ttl d p file Hcmd Httl Hd Hp) as Hsaved.
  fold added in Hsaved. rewrite Hsaved. cbn [file_after].
  assert (raised = shift_from p <$> load_todos file) as ->.
  { apply list_fmap_ext. intros _ t _. by rewrite shift_from_eq. }
  assert (p ∉ (priority <$> (shift_from p <$> load_todos file))) as Hfree.
  { intros (t' & Ht' & (t & -> & _)%list_elem_of_fmap)%list_elem_of_fmap.
    rewrite shift_from_eq in Ht'. simpl in Ht'.
    destruct (decide (p ≤ priority t)); lia. }
  split; [by apply run_remove_added|].
  intros Hsorted. apply sort_by_sorted_id.
  eapply StronglySorted_fmap; [|exact Hsorted].
  intros x y. unfold key_le. rewrite !shift_from_eq. simpl. rewrite !Z.leb_le.
  destruct (decide (p ≤ priority x)), (decide (p ≤ priority y)); lia.
Qed.

(** X18. The listing.  [list], in any case and whatever follows it on the
    line, never writes the file; for a store with records it prints three
    lines of heading, one row per record in the order of the file, and two
    closing lines, and for an empty store one line. *)
Theorem list_shows_every_record (now cmd : string) (rest : list string)
    (file : todo_file) :
  Py.lower cmd = "list" →
  let todos := load_todos file in
  let shown := (run now (cmd :: rest) file).1 in
  (run now (cmd :: rest) file).2 = None
  ∧ length shown = (if decide (todos = []) then 1 else length todos + 5)%nat
  ∧ ∀ i t, todos !! i = Some t → shown !! (3 + i)%nat = Some (show_row t).
Proof.
  intros Hcmd todos shown. subst shown. unfold_run. rewrite Hcmd.
  destruct (decide ("list" = "list")) as [_|?]; [|done].
  fold todos. cbn [fst snd]. split; [done|].
  unfold show_todos. destruct todos as [|t0 l]; [done|].
  split.
  - destruct (decide (t0 :: l = [])); [done|].
    rewrite !length_app, length_fmap. simpl. lia.
  - intros i t Hi.
    rewrite lookup_app_r by (simpl; lia).
    replace (3 + i - length _)%nat with i by (simpl; lia).
    rewrite lookup_app_l by (rewrite length_fmap; by eapply lookup_lt_Some).
    by rewrite list_lookup_fmap, Hi.
Qed.

End TodoStore.

(** ** The CSV converter: what is written *)

Section CsvWrites.
Import Csv.

Lemma write_output_writes L df dest ev :
  ev ∈ (write_output L df dest).1 → (∀ s, ev ≠ Print s) → is_read ev = false →
  if is_clipboard dest
  then to_excel_buffer L df = None ∧ ev = ClipboardCopy (to_csv_tab df)
  else ev = WriteExcel dest.
Proof.
  unfold write_output. intros Hev Hnp Hnr.
  destruct (is_clipboard dest).
  - destruct (to_excel_buffer L df); [|destruct (copy L (to_csv_tab df))];
      simpl in Hev;
      repeat (apply elem_of_cons in Hev as [->|Hev];
              [first [done|by destruct (Hnp _ eq_refl)]|]);
      by apply elem_of_nil in Hev.
  - destruct (to_excel_file L df dest); simpl in Hev;
      repeat (apply elem_of_cons in Hev as [->|Hev];
              [first [done|by destruct (Hnp _ eq_refl)]|]);
      by apply elem_of_nil in Hev.
Qed.

Lemma convert_writes L src dest delim ev :
  ev ∈ (convert L src dest delim).1 → (∀ s, ev ≠ Print s) → is_read ev = false →
  ∃ df,
    (if is_clipboard src
     then Py.strip (paste L) ≠ EmptyString ∧ read_csv_text L (paste L) delim = inr df
     else read_csv_file L src delim = inr df)
    ∧ (if is_clipboard dest
       then to_excel_buffer L df = None ∧ ev = ClipboardCopy (to_csv_tab df)
       else ev = WriteExcel dest).
Proof.
  unfold convert. intros Hev Hnp Hnr.
  destruct (is_clipboard src).
  - destruct (decide (Py.strip (paste L) = EmptyString)) as [|Hne].
    { simpl in Hev.
      repeat (apply elem_of_cons in Hev as [->|Hev];
              [first [done|by destruct (Hnp _ eq_refl)]|]).
      by apply elem_of_nil in Hev. }
    destruct (read_csv_text L (paste L) delim) as [e|df]; simpl in Hev;
      repeat (apply elem_of_cons in Hev as [->|Hev];
              [first [done|by destruct (Hnp _ eq_refl)]|]);
      [by apply elem_of_nil in Hev|].
    exists df. split; [done|]. by apply write_output_writes.
  - destruct (read_csv_file L src delim) as [e|df]; simpl in Hev;
      repeat (apply elem_of_cons in Hev as [->|Hev];
              [first [done|by destruct (Hnp _ eq_refl)]|]);
      [by apply elem_of_nil in Hev|].
    exists df. split; [done|]. by apply write_output_writes.
Qed.

(** X19. Nothing is written without a parsed table.  An event of a call
    that is neither a printed line nor a read (so: a copy to the clipboard
    or a spreadsheet written) comes after a source that was read with a
    one-character delimiter and parsed; with the clipboard as destination
    it is the copy of the tab-separated text, made after the conversion in
    memory succeeded, and no file is written; with a path as destination it
    is the spreadsheet at that path, and the clipboard is not written. *)
Theorem output_needs_parsed_input (L : libs) (args : list string) (ev : event) :
  ev ∈ run L args → (∀ s, ev ≠ Print s) → is_read ev = false →
  ∃ src dest delim df,
    args !! 0%nat = Some src ∧ args !! 1%nat = Some dest
    ∧ String.length delim = 1
    ∧ (if is_clipboard src
       then Py.strip (paste L) ≠ EmptyString
            ∧ read_csv_text L (paste L) delim = inr df
       else read_csv_file L src delim = inr df)
    ∧ (if is_clipboard dest
       then to_excel_buffer L df = None ∧ ev = ClipboardCopy (to_csv_tab df)
       else ev = WriteExcel dest).
Proof.
  unfold run. intros Hev Hnp Hnr.
  destruct (decide (length args < 2 ∨ 3 < length args)%nat) as [|Hlen].
  { repeat (apply elem_of_cons in Hev as [->|Hev];
            [by destruct (Hnp _ eq_refl)|]).
    by apply elem_of_nil in Hev. }
  destruct args as [|src [|dest rest]]; [simpl in Hlen; lia..|].
  cbn [lookup list_lookup default from_option] in Hev. unfold id in Hev.
  set (delim := resolve_delimiter _) in Hev.
  destruct (decide (String.length delim ≠ 1)) as [|Hone].
  { apply elem_of_cons in Hev as [->|Hev]; [by destruct (Hnp _ eq_refl)|].
    by apply elem_of_nil in Hev. }
  cbv zeta in Hev.
  assert (ev ∈ (convert L src dest delim).1) as Hconv.
  { destruct (convert L src dest delim).2 as [e|]; [|done].
    apply elem_of_app in Hev as [|Hev]; [done|].
    destruct e; simpl in Hev;
      repeat (apply elem_of_cons in Hev as [->|Hev];
              [by destruct (Hnp _ eq_refl)|]);
      by apply elem_of_nil in Hev. }
  destruct (convert_writes _ _ _ _ _ Hconv Hnp Hnr) as (df & Hsrc & Hdest).
  exists src, dest, delim, df. repeat split; [lia|done..].
Qed.

Lemma delimiter_names_single k v :
  delimiter_map !! k = Some v → String.length v = 1.
Proof.
  unfold delimiter_map. intros H%elem_of_list_to_map_2.
  repeat (apply elem_of_cons in H as [[= _ ->]|H]; [done|]).
  by apply elem_of_nil in H.
Qed.

(** X20. Which third arguments are refused.  The call answers with the
    delimiter message, and nothing else, exactly when the argument is no
    delimiter name (in any case) and is not one character long; the message
    then shows the argument as it was typed. *)
Theorem delimiter_refused_exactly (L : libs) (src dest d : string) :
  run L [src; dest; d]
  = [Print ("❌ Error: Delimiter must be a single character, got "
            +:+ squote +:+ d +:+ squote)]
  ↔ delimiter_map !! Py.lower d = None ∧ String.length d ≠ 1.
Proof.
  unfold run. simpl. unfold resolve_delimiter.
  destruct (delimiter_map !! Py.lower d) as [v|] eqn:Hmap; simpl.
  - pose proof (delimiter_names_single _ _ Hmap) as Hv.
    destruct (decide (String.length v ≠ 1)) as [|_]; [done|].
    split; [|by intros [? _]]. intros Hrun. exfalso.
    unfold convert in Hrun.
    destruct (is_clipboard src).
    + destruct (decide (Py.strip (paste L) = EmptyString)); [done|].
      destruct (read_csv_text L (paste L) v) as [e|df]; simpl in Hrun;
        [by destruct e|].
      by destruct (write_output L df dest) as [evs [e|]].
    + destruct (read_csv_file L src v) as [e|df]; simpl in Hrun;
        [by destruct e|].
      by destruct (write_output L df dest) as [evs [e|]].
  - destruct (decide (String.length d ≠ 1)) as [Hd|Hd].
    + by split.
    + split; [|by intros [_ ?]]. intros Hrun. exfalso.
      unfold convert in Hrun.
      destruct (is_clipboard src).
      * destruct (decide (Py.strip (paste L) = EmptyString)); [done|].
        destruct (read_csv_text L (paste L) d) as [e|df]; simpl in Hrun;
          [by destruct e|].
        by destruct (write_output L df dest) as [evs [e|]].
      * destruct (read_csv_file L src d) as [e|df]; simpl in Hrun;
          [by destruct e|].
        by destruct (write_output L df dest) as [evs [e|]].
Qed.

End CsvWrites.

(** ** The JSON formatter *)

Section JsonFacts.
Import Runner Json.

(** The document a call gets from its source, if any. *)
Lemma run_cases (L : libs) (args : list string) (clipboard : string)
    (keys : list key) :
  (read (run L args clipboard keys) = 0%nat
   ∧ clipboard_after (run L args clipboard keys) = clipboard
   ∧ raised (run L args clipboard keys) = None
   ∧ ∀ keys', run L args clipboard keys' = run L args clipboard keys)
  ∨ ∃ src d reading,
      args = [src]
      ∧ (if is_clipboard src
         then Py.strip clipboard ≠ EmptyString ∧ loads L clipboard = inr d
         else load_path L src = inr d)
      ∧ run L args clipboard keys = show_and_ask L src d reading clipboard keys.
Proof.
  unfold run. destruct args as [|src [|]]; [by left| |by left].
  destruct (is_clipboard src) eqn:Hsrc.
  - destruct (decide (Py.strip clipboard = EmptyString)); [by left|].
    destruct (loads L clipboard) as [e|d] eqn:Hload; [by left|].
    right. exists src, d, [Print "📋 Reading from clipboard..."].
    by rewrite Hsrc.
  - destruct (load_path L src) as [e|d] eqn:Hload; [by left|].
    right. exists src, d, [Print ("📖 Reading " +:+ src +:+ "...")].
    by rewrite Hsrc.
Qed.

(** X21. The clipboard is written only on a yes.  A call that leaves the
    clipboard changed had one argument, got a document from its source, and
    read a line from the terminal that is [y] or [yes] (in any case, with
    blanks around); the clipboard then holds the formatted document and the
    last line printed says so. *)
Theorem copy_only_on_yes (L : libs) (args : list string) (clipboard : string)
    (keys : list key) :
  clipboard_after (run L args clipboard keys) ≠ clipboard →
  ∃ src d answer rest,
    args = [src] ∧ keys = Line answer :: rest
    ∧ Py.lower (Py.strip answer) ∈ ["y"; "yes"]
    ∧ (if is_clipboard src
       then Py.strip clipboard ≠ EmptyString ∧ loads L clipboard = inr d
       else load_path L src = inr d)
    ∧ clipboard_after (run L args clipboard keys) = dumps L d
    ∧ read (run L args clipboard keys) = 1%nat
    ∧ raised (run L args clipboard keys) = None
    ∧ last (printed (run L args clipboard keys)) = Some (Print "✅ Copied to clipboard!").
Proof.
  intros Hchanged.
  destruct (run_cases L args clipboard keys)
    as [(_ & Hsame & _)|(src & d & reading & -> & Hsrc & Hrun)]; [done|].
  rewrite Hrun in Hchanged |- *. unfold show_and_ask in *.
  destruct keys as [|[answer|] rest]; [done| |done].
  case_bool_decide as Hyes; [|done].
  destruct (copy L (dumps L d)); [done|].
  exists src, d, answer, rest. cbn [clipboard_after read raised printed].
  repeat split; [done..|]. by rewrite last_snoc.
Qed.

(** X22. Only Ctrl-C leaves the formatter as an exception.  Every error of
    the libraries and the end of the terminal input at the copy prompt are
    reported and the call returns; a Ctrl-C at the copy prompt is the one
    exception that leaves [run], with the clipboard as it was.  The call
    never reads more than one terminal event, nor more than there are. *)
Theorem only_interrupt_leaves_formatter (L : libs) (args : list string)
    (clipboard : string) (keys : list key) :
  let r := run L args clipboard keys in
  (raised r = None
   ∨ raised r = Some KeyboardInterrupt
     ∧ (∃ rest, keys = CtrlC :: rest) ∧ clipboard_after r = clipboard)
  ∧ (read r ≤ 1)%nat ∧ (read r ≤ length keys)%nat
  ∧ (keys = [] → raised r = None ∧ clipboard_after r = clipboard).
Proof.
  intros r. subst r.
  destruct (run_cases L args clipboard keys)
    as [(Hread & Hsame & Hnone & _)|(src & d & reading & -> & Hsrc & Hrun)].
  { rewrite Hread, Hnone, Hsame. repeat split; first [by left|lia]. }
  rewrite Hrun. unfold show_and_ask.
  destruct keys as [|[answer|] rest].
  - repeat split; first [by left|simpl; lia].
  - case_bool_decide; [destruct (copy L (dumps L d))|];
      (repeat split; first [by left|simpl; lia|done]).
  - repeat split; first [by right; eauto|simpl; lia|done].
Qed.

(** X23. The formatter under the host.  The operator asks the formatter
    for a file that parses.  The line typed at the copy prompt is read by
    the formatter and not again by the host, whose question about what to
    do next gets the line after it; the clipboard is written only on a yes.
    A Ctrl-C at the copy prompt instead sends the operator back to the menu
    with the clipboard as it was. *)
Theorem formatter_under_host (L : libs) (fuel : nat) (snip : snippet string)
    (st : state string) (line src : string) (d : data L) (rest : list key) :
  run_entry snip = entry L →
  tty st = Line line :: rest →
  Py.lower (Py.strip line) ∉ ["back"; "b"; "exit"] →
  Py.split (Py.strip line) = [src] →
  is_clipboard src = false → load_path L src = inr d →
  (∀ answer next rest',
     rest = Line answer :: Line next :: rest' →
     ∃ st',
       command_loop (S fuel) snip st
       = (let a := Py.lower (Py.strip next) in
          if bool_decide (a ∈ ["b"; "back"; "m"; "menu"]) then (st', Returns true)
          else if bool_decide (a ∈ ["q"; "quit"; "exit"]) then (st', Returns false)
          else command_loop fuel snip st')
       ∧ tty st' = rest' ∧ snippets st' = snippets st
       ∧ snippets_dir (the_world st') = snippets_dir (the_world st)
       ∧ ext (the_world st')
         = if bool_decide (Py.lower (Py.strip answer) ∈ ["y"; "yes"])
           then (if copy L (dumps L d) is Some _ then ext (the_world st)
                 else dumps L d)
           else ext (the_world st))
  ∧ (∀ rest',
       rest = CtrlC :: rest' →
       ∃ st',
         command_loop (S fuel) snip st = (st', Returns true)
         ∧ tty st' = rest' ∧ the_world st' = the_world st
         ∧ last (out st') = Some (Print nl)).
Proof.
  intros Hentry Htty Hback Hsplit Hfile Hload.
  assert (Py.strip line ≠ EmptyString) as Hne.
  { intros Hempty. by rewrite Hempty in Hsplit. }
  pose proof (command_round_dispatch snip st line rest Htty Hback Hne) as Hround.
  cbv zeta in Hround. rewrite Hsplit, Hentry in Hround.
  unfold entry in Hround. cbn [e_raised e_out e_read e_world] in Hround.
  unfold run in Hround. rewrite Hfile, Hload in Hround.
  split.
  - intros answer next rest' ->. unfold show_and_ask in Hround.
    cbn [command_loop]. unfold mbind at 1, M_bind, bind at 1.
    rewrite Hround. clear Hround.
    case_bool_decide as Hyes; [destruct (copy L (dumps L d)) as [e|]|];
      cbn [raised read printed clipboard_after drop];
      unfold try_except, what_next, mbind, M_bind, bind, print, emit, input, ret;
      cbn [tty the_world out snippets tail];
      eexists; (split; [repeat case_bool_decide; reflexivity|]);
      by destruct (the_world st).
  - intros rest' ->. unfold show_and_ask in Hround.
    cbn [raised read printed clipboard_after drop] in Hround.
    cbn [command_loop]. unfold mbind at 1, M_bind, bind at 1.
    rewrite Hround. cbn [ret]. eexists. split; [reflexivity|].
    cbn [tty the_world out snippets]. repeat split; [by destruct (the_world st)|].
    by rewrite last_snoc.
Qed.

End JsonFacts.

(** ** How a session ends *)

Section SessionEnds.
Import Runner Menu.
Context {W : Type} (exec_module : string → load_result W).

Lemma for_each_print (lines : list string) (st : state W) :
  for_each lines print st
  = (mk_state (snippets st) (the_world st) (tty st) (out st ++ (Print <$> lines)),
     Returns tt).
Proof.
  revert st. induction lines as [|s lines IH]; intros st; simpl.
  - unfold ret. rewrite app_nil_r. by destruct st.
  - unfold mbind, M_bind, bind, print, emit. simpl. rewrite IH. simpl.
    by rewrite <- app_assoc.
Qed.

Lemma show_menu_keeps (st : state W) :
  ∃ o, show_menu st
       = (mk_state (snippets st) (the_world st) (tty st) o,
          Returns (bool_decide (snippets st ≠ []))).
Proof.
  unfold show_menu, mbind, M_bind. unfold bind at 1 2 3 4, print at 1 2 3, emit.
  unfold get_snippets. cbn [snippets the_world tty out].
  destruct (snippets st) as [|snip l] eqn:Hl.
  - unfold bind, print, emit, ret. cbn [snippets the_world tty out].
    by eexists.
  - unfold bind at 1 2, print at 1, emit. cbn [snippets the_world tty out].
    rewrite for_each_print. cbn [snippets the_world tty out].
    unfold bind, print, emit, ret. cbn [snippets the_world tty out].
    by eexists.
Qed.

(** X24. The end of the terminal input is not handled by the host.  At the
    menu prompt and at the command prompt an exhausted terminal raises
    [EOFError], which neither loop catches: it leaves [get_choice],
    [run_snippet], and a session that got to its menu. *)
Theorem end_of_input_not_handled (fuel : nat) (st : state W) :
  tty st = [] →
  (get_choice (S fuel) st).2 = Raises EOFError
  ∧ (∀ snip, (command_loop (S fuel) snip st).2 = Raises EOFError)
  ∧ (∀ idx, is_Some (snippets st !! idx) →
       (run_snippet (S fuel) idx st).2 = Raises EOFError)
  ∧ (∀ files,
       snippets_dir (the_world st) = Some files →
       Forall (λ f, fatal exec_module f = None) files →
       omap (descriptor exec_module) files ≠ [] →
       (run_loop exec_module (S fuel) st).2 = Raises EOFError).
Proof.
  intros Htty.
  assert (∀ st0 : state W, tty st0 = [] →
            (get_choice (S fuel) st0).2 = Raises EOFError) as Hchoice.
  { intros st0 H0. simpl. unfold mbind, M_bind, bind.
    rewrite get_choice_round_cases. by rewrite H0. }
  assert (∀ snip (st0 : state W), tty st0 = [] →
            (command_loop (S fuel) snip st0).2 = Raises EOFError) as Hloop.
  { intros snip st0 H0. cbn [command_loop].
    unfold command_round, try_except, mbind, M_bind, bind, input.
    by rewrite H0. }
  split; [by apply Hchoice|]. split; [intros snip; by apply Hloop|]. split.
  - intros idx [snip Hsnip].
    unfold run_snippet, mbind, M_bind, bind, get_snippets. rewrite Hsnip.
    unfold print, emit. cbn [fst snd snippets the_world tty out].
    by apply Hloop.
  - intros files Hdir Hfatal Hsome. cbn [run_loop].
    unfold mbind, M_bind. unfold bind at 1.
    rewrite (load_snippets_scan exec_module files) by done.
    unfold bind at 1.
    match goal with
    | |- context [show_menu ?s] =>
        destruct (show_menu_keeps s) as [o ->]
    end.
    cbn [snippets the_world tty out].
    rewrite bool_decide_true.
    2:{ intros Hnil. apply Hsome. apply Permutation_nil_r.
        by rewrite <- Hnil, sort_by_perm. }
    cbn [negb]. unfold bind at 1.
    match goal with
    | |- context [get_choice (S fuel) ?s] =>
        pose proof (Hchoice s Htty) as Hc;
        destruct (get_choice (S fuel) s) as [s' [c|e|]]
    end; simpl in Hc; try done. by injection Hc as ->.
Qed.

(** X25. A session that ends without an exception says why: the last line
    it writes is the goodbye, or the request to add snippet files. *)
Theorem normal_end_says_why (fuel : nat) (w : world W) (keys : list key)
    (st' : state W) :
  main exec_module fuel w keys = (st', Returns tt) →
  last (out st') = Some (Print (nl +:+ "Goodbye!"))
  ∨ last (out st')
    = Some (Print (nl +:+ "Add snippet files to the 'snippets' directory and restart.")).
Proof.
  unfold main, run, mbind, M_bind. unfold bind at 1, print at 1, emit.
  cbn [snippets the_world tty out].
  generalize (mk_state (W:=W) [] w keys ([] ++ [Print (nl +:+ "Welcome to Snippet Runner!")])).
  induction fuel as [|fuel IH]; intros st; [done|].
  cbn [run_loop]. unfold mbind, M_bind. unfold bind at 1.
  destruct (load_snippets exec_module st) as [st1 [[]|e|]]; [|done..].
  unfold bind at 1.
  destruct (show_menu st1) as [st2 [shown|e|]]; [|done..].
  destruct shown; cbn [negb].
  - unfold bind at 1.
    destruct (get_choice (S fuel) st2) as [st3 [[idx|]|e|]]; [| |done..].
    + unfold bind at 1.
      destruct (run_snippet (S fuel) idx st3) as [st4 [again|e|]]; [|done..].
      destruct again; cbn [negb]; [apply IH|].
      unfold print, emit. intros [= <-]. left. simpl. by rewrite last_snoc.
    + unfold print, emit. intros [= <-]. left. simpl. by rewrite last_snoc.
  - unfold print, emit. intros [= <-]. right. simpl. by rewrite last_snoc.
Qed.

End SessionEnds.

(** ** The further properties on the sample files *)

Section MoreSamples.
Import Runner Menu.

#[local] Abbreviation apple :=
  (mk_snippet "a" "Apple Tool" "Prints ok." (Sample.returning "ok")).
#[local] Abbreviation zebra :=
  (mk_snippet "z" "Zebra Tool" "Prints zz." (Sample.returning "zz")).

Lemma get_choice_in_range_witness :
  let st := mk_state [apple] (Sample.dir []) [Line "x"; Line "1"] [] in
  let st' := mk_state [apple] (Sample.dir []) []
               [Prompt select_prompt; Print "Please enter a valid number";
                Prompt select_prompt] in
  get_choice 2 st = (st', Returns (Some 0%nat))
  ∧ (0 < length (snippets st))%nat
  ∧ ∃ snip, snippets st' !! 0%nat = Some snip.
Proof.
  intros st st'.
  assert (get_choice 2 st = (st', Returns (Some 0%nat))) as Hget by reflexivity.
  split; [exact Hget|].
  exact (proj2 (proj2 (get_choice_in_range 2 st st' 0 Hget))).
Defined.

Lemma get_choice_skips_rejected_witness :
  Forall (λ line, is_Some (rejection (length [apple]) line)) ["x"; "7"]
  ∧ get_choice 3 (mk_state [apple] (Sample.dir []) [Line "x"; Line "7"; Line "0"] [])
    = get_choice 1
        (mk_state [apple] (Sample.dir []) [Line "0"]
           [Prompt select_prompt; Print "Please enter a valid number";
            Prompt select_prompt; Print "Please enter a number between 0 and 1"]).
Proof.
  assert (Forall (λ line, is_Some (rejection (length [apple]) line)) ["x"; "7"])
    as Hlines.
  { repeat (constructor; [by eexists|]). constructor. }
  split; [exact Hlines|].
  exact (get_choice_skips_rejected 1 [apple] (Sample.dir []) ["x"; "7"]
           [Line "0"] [] Hlines).
Defined.

Lemma menu_number_selects_witness :
  [apple; zebra] !! 1%nat = Some zebra
  ∧ menu_lines 1 [apple; zebra] !! 1%nat = Some "  2. Zebra Tool"
  ∧ get_choice 1 (mk_state [apple; zebra] (Sample.dir []) [Line "2"] [])
    = (mk_state [apple; zebra] (Sample.dir []) [] [Prompt select_prompt],
       Returns (Some 1%nat)).
Proof.
  split; [reflexivity|].
  exact (menu_number_selects 0 [apple; zebra] (Sample.dir []) 1 zebra [] []
           eq_refl).
Defined.

Lemma blank_lines_then_back_witness :
  Forall (λ line, Py.strip line = EmptyString) ["  "; " "]
  ∧ Py.lower (Py.strip " Back ") ∈ ["back"; "b"; "exit"]
  ∧ command_loop 3 apple
      (mk_state [apple] (Sample.dir []) [Line "  "; Line " "; Line " Back "] [])
    = (mk_state [apple] (Sample.dir []) []
         [Prompt command_prompt; Prompt command_prompt; Prompt command_prompt],
       Returns true).
Proof.
  assert (Forall (λ line, Py.strip line = EmptyString) ["  "; " "]) as Hblanks.
  { by repeat constructor. }
  assert (Py.lower (Py.strip " Back ") ∈ ["back"; "b"; "exit"]) as Hback.
  { apply (bool_decide_unpack _). by vm_compute. }
  split; [exact Hblanks|]. split; [exact Hback|].
  exact (proj2 (blank_lines_then_back 0 apple [apple] (Sample.dir [])
                  ["  "; " "] [Line " Back "] [] Hblanks)
           " Back " [] eq_refl Hback).
Defined.

Lemma interrupt_in_snippet_returns_to_menu_witness :
  let snip := mk_snippet "k" "Interrupted" "Raises KeyboardInterrupt."
                (Sample.raising KeyboardInterrupt) in
  let st := mk_state [snip] (Sample.dir []) [Line "go"; Line "q"] [] in
  (Py.lower (Py.strip "go") ∉ ["back"; "b"; "exit"])
  ∧ command_loop 1 snip st
    = (mk_state [snip] (Sample.dir []) [Line "q"]
         [Prompt command_prompt; Print nl],
       Returns true).
Proof.
  intros snip st.
  assert (Py.lower (Py.strip "go") ∉ ["back"; "b"; "exit"]) as Hback.
  { apply (bool_decide_unpack _). by vm_compute. }
  assert (Py.strip "go" ≠ EmptyString) as Hempty by discriminate.
  split; [exact Hback|].
  exact (interrupt_in_snippet_returns_to_menu 0 snip st "go" [Line "q"]
           eq_refl Hback Hempty eq_refl).
Defined.

Lemma other_exception_leaves_run_snippet_witness :
  let snip := mk_snippet "s" "Exiting Tool" "Calls sys.exit."
                (Sample.raising (SystemExit "1")) in
  let st := mk_state [snip] (Sample.dir []) [Line "go"; Line "q"] [] in
  (Py.lower (Py.strip "go") ∉ ["back"; "b"; "exit"])
  ∧ command_loop 1 snip st
    = (mk_state [snip] (Sample.dir []) [Line "q"] [Prompt command_prompt],
       Raises (SystemExit "1"))
  ∧ (run_snippet 1 0 st).2 = Raises (SystemExit "1").
Proof.
  intros snip st.
  assert (Py.lower (Py.strip "go") ∉ ["back"; "b"; "exit"]) as Hback.
  { apply (bool_decide_unpack _). by vm_compute. }
  assert (Py.strip "go" ≠ EmptyString) as Hempty by discriminate.
  split; [exact Hback|].
  exact (other_exception_leaves_run_snippet 0 0 snip st "go" [Line "q"]
           (SystemExit "1") eq_refl eq_refl Hback Hempty eq_refl eq_refl eq_refl).
Defined.

Lemma session_always_ends_witness :
  let r := main Sample.exec_module 4 (Sample.dir [("a.py", "apple")])
             [Line "1"; Line "go"; Line "q"] in
  r.2 = Returns tt ∨ ∃ e, r.2 = Raises e.
Proof.
  intros r.
  assert (length [Line "1"; Line "go"; Line "q"] < 4)%nat as Hfuel.
  { simpl. lia. }
  exact (session_always_ends Sample.exec_module 4
           (Sample.dir [("a.py", "apple")]) [Line "1"; Line "go"; Line "q"] Hfuel).
Defined.

Lemma empty_catalog_ends_session_witness :
  ∃ st', main Sample.exec_module 1 (mk_world None tt) [Line "1"] = (st', Returns tt)
    ∧ tty st' = [Line "1"] ∧ snippets st' = []
    ∧ snippets_dir (the_world st') = Some [].
Proof.
  destruct (empty_catalog_ends_session Sample.exec_module 0 (mk_world None tt)
              [Line "1"] (or_introl eq_refl))
    as (st' & Hmain & Htty & Hsnip & _ & Hdir & _).
  exists st'. split; [exact Hmain|]. split; [exact Htty|].
  split; [exact Hsnip|exact Hdir].
Defined.

Lemma other_files_never_loaded_witness :
  let st := mk_state []
              (Sample.dir [("a.py", "apple"); ("_x.py", "exit at import")]) [] [] in
  candidate ("_x.py", "exit at import") = false
  ∧ load_snippets Sample.exec_module st
    = (mk_state [apple] (the_world st) [] [], Returns tt).
Proof.
  intros st.
  assert (Forall (λ g, fatal Sample.exec_module g = None)
            ([("a.py", "apple")] ++ [])) as Hothers.
  { by repeat constructor. }
  split; [reflexivity|].
  exact (other_files_never_loaded Sample.exec_module st
           [("a.py", "apple")] [] ("_x.py", "exit at import")
           eq_refl eq_refl Hothers).
Defined.

Lemma load_rebuilds_catalog_witness :
  let files := [("z.py", "zebra"); ("a.py", "apple")] in
  let st := mk_state [zebra; zebra] (Sample.dir files) [Line "1"] [] in
  ∃ st', load_snippets Sample.exec_module st = (st', Returns tt)
    ∧ snippets
        (load_snippets Sample.exec_module
           (mk_state [] (the_world st) (tty st) (out st))).1
      = snippets st'
    ∧ ∀ snip, snip ∈ snippets st' →
        ∃ f, f ∈ files ∧ name snip = stem f.1.
Proof.
  intros files st.
  assert (Forall (λ f, fatal Sample.exec_module f = None) files) as Hfiles.
  { by repeat constructor. }
  destruct (load_rebuilds_catalog Sample.exec_module st files eq_refl Hfiles)
    as (st' & Hload & Hsame & Hfrom).
  exists st'. split; [exact Hload|]. split; [exact (Hsame [])|].
  intros snip Hsnip. destruct (Hfrom snip Hsnip) as (f & Hf & _ & _ & Hname).
  exists f. split; [exact Hf|exact Hname].
Defined.

Lemma end_of_input_not_handled_witness :
  let st := mk_state [apple] (Sample.dir [("a.py", "apple")]) [] [] in
  (get_choice 1 st).2 = Raises EOFError
  ∧ (run_loop Sample.exec_module 1 st).2 = Raises EOFError.
Proof.
  intros st.
  assert (Forall (λ f, fatal Sample.exec_module f = None) [("a.py", "apple")])
    as Hfiles.
  { by repeat constructor. }
  destruct (end_of_input_not_handled Sample.exec_module 0 st eq_refl)
    as (Hchoice & _ & _ & Hloop).
  split; [exact Hchoice|].
  apply (Hloop [("a.py", "apple")] eq_refl Hfiles). discriminate.
Defined.

Lemma normal_end_says_why_witness :
  let r := main Sample.exec_module 2 (Sample.dir [("a.py", "apple")]) [Line "0"] in
  r.2 = Returns tt
  ∧ (last (out r.1) = Some (Print (nl +:+ "Goodbye!"))
     ∨ last (out r.1)
       = Some (Print (nl +:+ "Add snippet files to the 'snippets' directory and restart."))).
Proof.
  intros r.
  assert (main Sample.exec_module 2 (Sample.dir [("a.py", "apple")]) [Line "0"]
          = (r.1, Returns tt)) as Hmain by reflexivity.
  split; [reflexivity|].
  exact (normal_end_says_why Sample.exec_module 2
           (Sample.dir [("a.py", "apple")]) [Line "0"] r.1 Hmain).
Defined.

End MoreSamples.

Section TodoSamples.
Import Todo.
Open Scope Z_scope.

#[local] Abbreviation two :=
  (Stored [mk_todo "A" "todo" 1 "d"; mk_todo "B" "completed" 2 "d"]).

Lemma statuses_stay_known_witness :
  Forall (λ t, status t ∈ ["todo"; "in progress"; "completed"]) (load_todos two)
  ∧ Forall (λ t, status t ∈ ["todo"; "in progress"; "completed"])
      (load_todos (file_after two (run "e" ["status"; "1"; "Progress"] two).2)).
Proof.
  assert (Forall (λ t, status t ∈ ["todo"; "in progress"; "completed"])
            (load_todos two)) as Hfile.
  { repeat constructor. }
  split; [exact Hfile|].
  exact (statuses_stay_known "e" ["status"; "1"; "Progress"] two Hfile).
Defined.

Lemma store_stays_sorted_witness :
  StronglySorted (key_le priority Z.leb) (load_todos two)
  ∧ StronglySorted (key_le priority Z.leb)
      (load_todos (file_after two (run "e" ["remove"; "1"] two).2)).
Proof.
  assert (StronglySorted (key_le priority Z.leb) (load_todos two)) as Hfile.
  { repeat constructor. }
  split; [exact Hfile|].
  exact (store_stays_sorted "e" ["remove"; "1"] two Hfile).
Defined.

Lemma writes_exactly_when_witness :
  is_Some (run "e" ["REMOVE"; "2"] two).2
  ∧ ¬ is_Some (run "e" ["remove"; "3"] two).2.
Proof.
  split.
  - apply (proj2 (writes_exactly_when "e" ["REMOVE"; "2"] two)).
    exists "REMOVE", ["2"]. split; [reflexivity|]. right. right.
    split; [reflexivity|]. exists "2", 2. split; [reflexivity|].
    split; [reflexivity|]. repeat constructor.
  - intros Hsome.
    apply (proj1 (writes_exactly_when "e" ["remove"; "3"] two)) in Hsome.
    destruct Hsome as (cmd & rest & Hargs & [(Hc & _)|[(Hc & _)|(_ & a1 & p & Hrest & Hp & Hin)]]).
    + injection Hargs as <- _. discriminate Hc.
    + injection Hargs as <- _. discriminate Hc.
    + injection Hargs as _ <-. injection Hrest as <-.
      injection Hp as <-. simpl in Hin.
      repeat (apply elem_of_cons in Hin as [Hin|Hin]; [discriminate Hin|]).
      by apply elem_of_nil in Hin.
Defined.

Lemma write_changes_count_witness :
  (run "e" ["add"; "C"] two).2
  = Some [mk_todo "A" "todo" 1 "d"; mk_todo "B" "completed" 2 "d";
          mk_todo "C" "todo" 3 "e"]
  ∧ length [mk_todo "A" "todo" 1 "d"; mk_todo "B" "completed" 2 "d";
            mk_todo "C" "todo" 3 "e"]
    = S (length (load_todos two)).
Proof.
  assert ((run "e" ["add"; "C"] two).2
          = Some [mk_todo "A" "todo" 1 "d"; mk_todo "B" "completed" 2 "d";
                  mk_todo "C" "todo" 3 "e"]) as Hrun by reflexivity.
  split; [exact Hrun|].
  exact (proj1 (write_changes_count "e" "add" ["C"] two _ Hrun) eq_refl).
Defined.

Lemma next_priority_bounded_witness :
  priority <$> load_todos two ≡ₚ Z.of_nat <$> seq 1 (length (load_todos two))
  ∧ get_next_priority (load_todos two) = 3.
Proof.
  assert (priority <$> load_todos two
          ≡ₚ Z.of_nat <$> seq 1 (length (load_todos two))) as Hperm.
  { exact (Permutation_refl [1; 2]). }
  split; [exact Hperm|].
  exact (proj2 (next_priority_bounded (load_todos two)) Hperm).
Defined.

Lemma add_then_remove_restores_witness :
  Py.lower "Add" = "add" ∧ Py.lower "remove" = "remove"
  ∧ Py.isdigit (List.last ["Buy"; "milk"] EmptyString) = false
  ∧ run "f" ["remove"; "3"] (file_after two (run "e" ["Add"; "Buy"; "milk"] two).2)
    = (["✅ Removed todo [Priority 3]"], Some (load_todos two)).
Proof.
  assert (["Buy"; "milk"] ≠ []) as Httl by discriminate.
  split; [reflexivity|]. split; [reflexivity|]. split; [reflexivity|].
  exact (proj1 (proj2 (add_then_remove_restores "e" "f" "Add" "remove"
                         ["Buy"; "milk"] two eq_refl Httl eq_refl eq_refl))).
Defined.

Lemma add_then_remove_keeps_shift_witness :
  Py.isdigit "1" = true ∧ Py.int "1" = Some 1
  ∧ run "f" ["remove"; "1"] (file_after two (run "e" ["add"; "Urgent"; "1"] two).2)
    = (["✅ Removed todo [Priority 1]"],
       Some [mk_todo "A" "todo" 2 "d"; mk_todo "B" "completed" 3 "d"]).
Proof.
  assert (["Urgent"] ≠ []) as Httl by discriminate.
  split; [reflexivity|]. split; [reflexivity|].
  exact (proj1 (add_then_remove_keeps_shift "e" "f" "add" "remove" "1"
                  ["Urgent"] 1 two eq_refl Httl eq_refl eq_refl eq_refl)).
Defined.

Lemma list_shows_every_record_witness :
  Py.lower "LIST" = "list"
  ∧ (run "e" ["LIST"; "all"] two).2 = None
  ∧ (run "e" ["LIST"; "all"] two).1 !! 4%nat
    = Some (show_row (mk_todo "B" "completed" 2 "d")).
Proof.
  destruct (list_shows_every_record "e" "LIST" ["all"] two eq_refl)
    as (Hnone & _ & Hrows).
  split; [reflexivity|]. split; [exact Hnone|].
  exact (Hrows 1%nat (mk_todo "B" "completed" 2 "d") eq_refl).
Defined.

End TodoSamples.

Section LibrarySamples.
Import Runner.

Lemma output_needs_parsed_input_witness :
  Csv.WriteExcel "out.xlsx" ∈ Csv.run Fixtures.one_csv ["data.csv"; "out.xlsx"]
  ∧ ∃ src dest delim df,
      ["data.csv"; "out.xlsx"] !! 0%nat = Some src
      ∧ ["data.csv"; "out.xlsx"] !! 1%nat = Some dest
      ∧ String.length delim = 1%nat
      ∧ (if Csv.is_clipboard src
         then Py.strip (Csv.paste Fixtures.one_csv) ≠ EmptyString
              ∧ Csv.read_csv_text Fixtures.one_csv (Csv.paste Fixtures.one_csv) delim
                = inr df
         else Csv.read_csv_file Fixtures.one_csv src delim = inr df)
      ∧ (if Csv.is_clipboard dest
         then Csv.to_excel_buffer Fixtures.one_csv df = None
              ∧ Csv.WriteExcel "out.xlsx" = Csv.ClipboardCopy (Csv.to_csv_tab df)
         else Csv.WriteExcel "out.xlsx" = Csv.WriteExcel dest).
Proof.
  assert (Csv.WriteExcel "out.xlsx"
          ∈ Csv.run Fixtures.one_csv ["data.csv"; "out.xlsx"]) as Hev.
  { vm_compute. repeat constructor. }
  split; [exact Hev|].
  apply (output_needs_parsed_input Fixtures.one_csv ["data.csv"; "out.xlsx"]
           (Csv.WriteExcel "out.xlsx") Hev).
  - intros s. discriminate.
  - reflexivity.
Defined.

Lemma delimiter_refused_exactly_witness :
  Csv.run Fixtures.one_csv ["data.csv"; "out.xlsx"; "Ab"]
  = [Csv.Print ("❌ Error: Delimiter must be a single character, got "
                +:+ squote +:+ "Ab" +:+ squote)].
Proof.
  apply (proj2 (delimiter_refused_exactly Fixtures.one_csv "data.csv" "out.xlsx" "Ab")).
  split; [reflexivity|]. simpl. discriminate.
Defined.

Lemma copy_only_on_yes_witness :
  Json.clipboard_after (Json.run Fixtures.one_json ["data.json"] "old" [Line " Yes "])
  ≠ "old"
  ∧ ∃ answer,
      Py.lower (Py.strip answer) ∈ ["y"; "yes"]
      ∧ Json.clipboard_after
          (Json.run Fixtures.one_json ["data.json"] "old" [Line " Yes "])
        = "{}".
Proof.
  assert (Json.clipboard_after
            (Json.run Fixtures.one_json ["data.json"] "old" [Line " Yes "])
          ≠ "old") as Hchanged.
  { vm_compute. discriminate. }
  split; [exact Hchanged|].
  destruct (copy_only_on_yes Fixtures.one_json ["data.json"] "old" [Line " Yes "]
              Hchanged)
    as (src & d & answer & rest & _ & _ & Hyes & _).
  exists answer. split; [exact Hyes|reflexivity].
Defined.

Lemma only_interrupt_leaves_formatter_witness :
  Json.raised (Json.run Fixtures.one_json ["data.json"] "old" []) = None
  ∧ Json.clipboard_after (Json.run Fixtures.one_json ["data.json"] "old" []) = "old".
Proof.
  exact (proj2 (proj2 (proj2
           (only_interrupt_leaves_formatter Fixtures.one_json ["data.json"] "old" [])))
         eq_refl).
Defined.

Lemma formatter_under_host_witness :
  let st := mk_state [Fixtures.formatter] (mk_world (Some []) "old")
              [Line "data.json"; Line "y"; Line "b"] [] in
  (Py.lower (Py.strip "data.json") ∉ ["back"; "b"; "exit"])
  ∧ ∃ st', command_loop 1 Fixtures.formatter st = (st', Returns true)
      ∧ tty st' = [] ∧ ext (the_world st') = "{}".
Proof.
  intros st.
  assert (Py.lower (Py.strip "data.json") ∉ ["back"; "b"; "exit"]) as Hback.
  { apply (bool_decide_unpack _). by vm_compute. }
  split; [exact Hback|].
  destruct (proj1 (formatter_under_host Fixtures.one_json 0 Fixtures.formatter st
                     "data.json" "data.json" "{}" [Line "y"; Line "b"]
                     eq_refl eq_refl Hback eq_refl eq_refl eq_refl)
              "y" "b" [] eq_refl)
    as (st' & Hloop & Htty & _ & _ & Hext).
  exists st'. split; [exact Hloop|]. split; [exact Htty|exact Hext].
Defined.

End LibrarySamples.
